(** * Verification of the demo applications' orchestration logic

    A shallow embedding of the pure and state-passing parts of the demo
    applications (pagination, page cursor, retry policy, location
    validation, response mapping, commit categorisation and screenshot
    cropping), with the properties the specification states about them.

    Python integers are unbounded and are modelled by [Z]; Python [//] is
    floor division, which is [Z.div]; Python dictionaries with string keys
    are [gmap string _]; exceptions are modelled by explicit result types. *)

From Stdlib Require Import ZArith List Bool Ascii String Lia Permutation Sorted.
From stdpp Require Import base option list strings gmap pretty.

Local Open Scope Z_scope.

(** ** Python sequence slicing *)

Module PySeq.
Section Slice.
Context {A : Type}.

(** A slice bound [i] of a sequence of length [len]: a negative bound
    counts from the end, and every bound is clipped to [0, len]. *)
Definition slice_bound (len i : Z) : Z :=
  if i <? 0 then Z.max 0 (i + len) else Z.min i len.

(** [l[start:stop]] *)
Definition slice (l : list A) (start stop : Z) : list A :=
  let len := Z.of_nat (length l) in
  let s := slice_bound len start in
  let e := slice_bound len stop in
  take (Z.to_nat (e - s)) (drop (Z.to_nat s) l).
End Slice.
End PySeq.

(** ** Python strings and dynamically typed values *)

Module PyStr.
(** The text is ASCII: every character is below 128. *)
Fixpoint is_ascii (s : string) : bool :=
  match s with
  | EmptyString => true
  | String c t => (nat_of_ascii c <? 128)%nat && is_ascii t
  end.

(** [c.lower()] on one ASCII character; only [A-Z] change. *)
Definition lower_ascii (c : ascii) : ascii :=
  let n := nat_of_ascii c in
  if ((65 <=? n) && (n <=? 90))%nat then ascii_of_nat (n + 32) else c.

(** [s.lower()] on ASCII text.  Outside ASCII [str.lower] follows the
    Unicode tables, which are not modelled: what is proved of the code
    that lowers a text is stated for ASCII text. *)
Fixpoint lower (s : string) : string :=
  match s with
  | EmptyString => EmptyString
  | String c t => String (lower_ascii c) (lower t)
  end.

(** [needle in hay] on strings: [needle] occurs as a contiguous
    substring of [hay]. *)
Fixpoint contains (needle hay : string) : bool :=
  String.prefix needle hay ||
  match hay with
  | EmptyString => false
  | String _ t => contains needle t
  end.

(** [any(keyword in message for keyword in keywords)] *)
Definition any_in (keywords : list string) (message : string) : bool :=
  existsb (fun keyword => contains keyword message) keywords.
End PyStr.

(** The values found in the JSON objects the remote services return. *)
Inductive value : Type :=
| VNone
| VBool (b : bool)
| VInt (z : Z)
| VStr (s : string).

(** A JSON object, as the Python [dict] it is decoded to. *)
Abbreviation dict := (gmap string value).

Module PyDict.
(** [d.get(key, default)] *)
Definition get (d : dict) (key : string) (default : value) : value :=
  match d !! key with
  | Some v => v
  | None => default
  end.

(** A method of [str] called on a value: [AttributeError] ([None]) on
    anything that is not a string. *)
Definition as_str (v : value) : option string :=
  match v with
  | VStr s => Some s
  | _ => None
  end.
End PyDict.

(** ** Pagination arithmetic of [display_travel_data] *)

Module Pagination.
Section Pages.
Context {A : Type}.

(** [num_pages = (total_destinations + page_size - 1) // page_size] *)
Definition num_pages (page_size total : Z) : Z :=
  (total + page_size - 1) / page_size.

(** [start_idx = (page_number - 1) * page_size] *)
Definition start_idx (page_size page_number : Z) : Z :=
  (page_number - 1) * page_size.

(** [end_idx = min(start_idx + page_size, total_destinations)] *)
Definition end_idx (page_size total page_number : Z) : Z :=
  Z.min (start_idx page_size page_number + page_size) total.

(** [travel_data[start_idx:end_idx]] *)
Definition page_slice (page_size : Z) (travel_data : list A) (page_number : Z)
  : list A :=
  let total := Z.of_nat (length travel_data) in
  PySeq.slice travel_data (start_idx page_size page_number)
              (end_idx page_size total page_number).

(** The page numbers [1 .. n]. *)
Definition page_range (n : Z) : list Z :=
  map (fun i => Z.of_nat i) (seq 1 (Z.to_nat n)).

(** All pages, in page order. *)
Definition all_pages (page_size : Z) (travel_data : list A) : list (list A) :=
  map (page_slice page_size travel_data)
      (page_range (num_pages page_size (Z.of_nat (length travel_data)))).
End Pages.
End Pagination.

(** ** The retry decorator of the changelog generator *)

Module Tenacity.
(** The error taxonomy of the remote calls. *)
Inductive exn : Type :=
| TransientServiceError
| InvalidRequestError
| TimeoutError
| OtherException (msg : string).

(** What one attempt of the wrapped function does. *)
Inductive outcome (R : Type) : Type :=
| Returned (r : R)
| Raised (e : exn).
Arguments Returned {R} r.
Arguments Raised {R} e.

(** What the decorated function does for its caller: it returns, lets
    the wrapped function's exception through, or raises [RetryError]
    around the last exception once the stop condition holds. *)
Inductive final (R : Type) : Type :=
| Return (r : R)
| Reraise (e : exn)
| RetryError (last : exn).
Arguments Return {R} r.
Arguments Reraise {R} e.
Arguments RetryError {R} last.

Record report (R : Type) : Type := {
  result : final R;
  attempts : Z;         (* number of times the wrapped function ran *)
  sleeps : list Z       (* seconds slept between the attempts, in order *)
}.
Arguments result {R} r.
Arguments attempts {R} r.
Arguments sleeps {R} r.

(** The three policies of [@retry(stop=..., wait=..., retry=...)]. *)
Record policy : Type := {
  stop : Z -> bool;
  wait : Z -> Z;
  retry : exn -> bool
}.

(** [stop_after_attempt(n)]: [attempt_number >= n]. *)
Definition stop_after_attempt (max_attempt_number attempt_number : Z) : bool :=
  max_attempt_number <=? attempt_number.

(** [wait_exponential(multiplier, min, max)]:
    [max(max(0, min), min(multiplier * 2 ** (attempt_number - 1), max))]. *)
Definition wait_exponential (multiplier min max attempt_number : Z) : Z :=
  Z.max (Z.max 0 min) (Z.min (multiplier * 2 ^ (attempt_number - 1)) max).

(** The decorator's default [retry] argument, [retry_if_exception_type()]:
    every exception is retried. *)
Definition retry_if_exception_type (e : exn) : bool := true.

Section Loop.
Context {R : Type}.
Variable p : policy.
(** The wrapped function, as the outcome of its [n]-th call. *)
Variable fn : Z -> outcome R.

Fixpoint attempt_loop (fuel : nat) (attempt_number : Z) (slept : list Z)
  : option (report R) :=
  match fuel with
  | O => None
  | S fuel' =>
    match fn attempt_number with
    | Returned r =>
        Some {| result := Return r; attempts := attempt_number; sleeps := slept |}
    | Raised e =>
        if negb (retry p e) then
          Some {| result := Reraise e; attempts := attempt_number; sleeps := slept |}
        else if stop p attempt_number then
          Some {| result := RetryError e; attempts := attempt_number; sleeps := slept |}
        else
          attempt_loop fuel' (attempt_number + 1) (slept ++ [wait p attempt_number])
    end
  end.
End Loop.
End Tenacity.

Module ChangelogGenerator.
Import Tenacity.

(** [@retry(stop=stop_after_attempt(3),
            wait=wait_exponential(multiplier=1, min=2, max=10))]:
    no [retry=] argument is given. *)
Definition call_openai_api_policy : policy := {|
  stop := stop_after_attempt 3;
  wait := wait_exponential 1 2 10;
  retry := retry_if_exception_type
|}.

(** [call_openai_api], given what the chat completion request does at
    each attempt.  The loop runs with [fuel] iterations; three are
    enough (see [RetryFacts.call_openai_api_total]). *)
Definition call_openai_api_fuel (fuel : nat) (api : Z -> outcome string)
  : option (report string) :=
  attempt_loop call_openai_api_policy api fuel 1 [].

Definition call_openai_api (api : Z -> outcome string) : option (report string) :=
  call_openai_api_fuel 3 api.

(** A request whose attempts have the listed outcomes, and that fails
    transiently from then on. *)
Definition scripted (script : list (outcome string)) (attempt_number : Z)
  : outcome string :=
  match script !! Z.to_nat (attempt_number - 1) with
  | Some o => o
  | None => Raised TransientServiceError
  end.

(** *** Commit categorisation of [generate_categorized_changelog] *)

Inductive category : Type :=
| Features | BugFixes | Documentation | Refactoring | Tests | OtherChanges.

#[global] Instance category_eq_dec : EqDecision category.
Proof. solve_decision. Defined.

(** The [if]/[elif] chain on the lower-cased message. *)
Definition categorize (message : string) : category :=
  if PyStr.any_in ["feat"; "feature"; "add"; "new"] message then Features
  else if PyStr.any_in ["fix"; "bug"; "issue"; "error"; "resolv"] message then BugFixes
  else if PyStr.any_in ["doc"; "readme"; "comment"] message then Documentation
  else if PyStr.any_in ["refactor"; "clean"; "restructure"] message then Refactoring
  else if PyStr.any_in ["test"; "spec"; "assert"] message then Tests
  else OtherChanges.

(** [commit.get("message", "").lower()], then the chain; [None] when the
    message is not a string ([AttributeError]). *)
Definition category_of (commit : dict) : option category :=
  message ← PyDict.as_str (PyDict.get commit "message" (VStr ""));
  Some (categorize (PyStr.lower message)).

Definition in_category (k : category) (commit : dict) : Prop :=
  category_of commit = Some k.

#[global] Instance in_category_dec k commit : Decision (in_category k commit).
Proof. unfold in_category. apply _. Defined.

Record categories : Type := {
  feature_commits : list dict;
  bugfix_commits : list dict;
  docs_commits : list dict;
  refactor_commits : list dict;
  test_commits : list dict;
  other_commits : list dict
}.

Definition no_commits : categories :=
  {| feature_commits := []; bugfix_commits := []; docs_commits := [];
     refactor_commits := []; test_commits := []; other_commits := [] |}.

(** [<list of the category>.append(commit)] *)
Definition append_to (k : category) (commit : dict) (acc : categories) : categories :=
  match k with
  | Features => {| feature_commits := feature_commits acc ++ [commit];
                   bugfix_commits := bugfix_commits acc; docs_commits := docs_commits acc;
                   refactor_commits := refactor_commits acc;
                   test_commits := test_commits acc; other_commits := other_commits acc |}
  | BugFixes => {| feature_commits := feature_commits acc;
                   bugfix_commits := bugfix_commits acc ++ [commit];
                   docs_commits := docs_commits acc;
                   refactor_commits := refactor_commits acc;
                   test_commits := test_commits acc; other_commits := other_commits acc |}
  | Documentation => {| feature_commits := feature_commits acc;
                   bugfix_commits := bugfix_commits acc;
                   docs_commits := docs_commits acc ++ [commit];
                   refactor_commits := refactor_commits acc;
                   test_commits := test_commits acc; other_commits := other_commits acc |}
  | Refactoring => {| feature_commits := feature_commits acc;
                   bugfix_commits := bugfix_commits acc; docs_commits := docs_commits acc;
                   refactor_commits := refactor_commits acc ++ [commit];
                   test_commits := test_commits acc; other_commits := other_commits acc |}
  | Tests => {| feature_commits := feature_commits acc;
                   bugfix_commits := bugfix_commits acc; docs_commits := docs_commits acc;
                   refactor_commits := refactor_commits acc;
                   test_commits := test_commits acc ++ [commit];
                   other_commits := other_commits acc |}
  | OtherChanges => {| feature_commits := feature_commits acc;
                   bugfix_commits := bugfix_commits acc; docs_commits := docs_commits acc;
                   refactor_commits := refactor_commits acc;
                   test_commits := test_commits acc;
                   other_commits := other_commits acc ++ [commit] |}
  end.

(** The [for commit in commits] loop. *)
Fixpoint categorize_loop (commits : list dict) (acc : categories) : option categories :=
  match commits with
  | [] => Some acc
  | commit :: rest =>
      k ← category_of commit;
      categorize_loop rest (append_to k commit acc)
  end.

Definition categorize_commits (commits : list dict) : option categories :=
  categorize_loop commits no_commits.

(** The category lists in the order the sections are written. *)
Definition sections (c : categories) : list (list dict) :=
  [feature_commits c; bugfix_commits c; docs_commits c;
   refactor_commits c; test_commits c; other_commits c].

Definition section_of (k : category) (c : categories) : list dict :=
  match k with
  | Features => feature_commits c
  | BugFixes => bugfix_commits c
  | Documentation => docs_commits c
  | Refactoring => refactor_commits c
  | Tests => test_commits c
  | OtherChanges => other_commits c
  end.
End ChangelogGenerator.

(** ** Location validation *)

Module LocationValidator.
(** The geocoding request [requests.get(url, headers).json()] is the
    parameter [geocode]: the decoded result list for a query, or [None]
    when the request or the decoding raises. *)

(** [data[0].get(key, "").lower()]; [None] stands for the [IndexError]
    of [data[0]] on an empty list and the [AttributeError] of [.lower()]
    on a value that is not a string. *)
Definition field_lower (data : list dict) (key : string) : option string :=
  first ← head data;
  s ← PyDict.as_str (PyDict.get first key (VStr ""));
  Some (PyStr.lower s).

(** The text under [key], when the entry has one, is ASCII. *)
Definition ascii_field (first : dict) (key : string) : bool :=
  match first !! key with
  | Some (VStr s) => PyStr.is_ascii s
  | _ => true
  end.


(** The condition of the [if] in the daytrip-planner's [validate_city].
    Python reads [a and b or c and d] as [(a and b) or (c and d)], and
    evaluates left to right with short cuts. *)
Definition city_condition (city_name : string) (data : list dict) : option bool :=
  data_and_city ←
    match data with
    | [] => Some false
    | _ => addresstype ← field_lower data "addresstype";
           Some (PyStr.contains "city" addresstype)
    end;
  if data_and_city : bool then Some true
  else
    addresstype ← field_lower data "addresstype";
    if PyStr.contains "town" addresstype then
      display_name ← field_lower data "display_name";
      Some (bool_decide (display_name = PyStr.lower city_name))
    else Some false.

(** daytrip-planner: [validate_city(city_name)].  Every exception is
    caught and gives [False]. *)
Definition validate_city (geocode : string -> option (list dict))
           (city_name : string) : bool :=
  match geocode city_name with
  | None => false
  | Some data =>
      match city_condition city_name data with
      | Some b => b
      | None => false
      end
  end.

(** budget-travel-agent: [validate_city(city_name)] returns a pair; the
    second component is [data[0].get("display_name")]. *)
Definition validate_city_named (geocode : string -> option (list dict))
           (city_name : string) : bool * value :=
  match geocode city_name with
  | None => (false, VNone)
  | Some data =>
      match data with
      | [] => (false, VNone)
      | first :: _ =>
          match field_lower data "display_name" with
          | None => (false, VNone)
          | Some display_name =>
              if PyStr.contains (PyStr.lower city_name) display_name
              then (true, PyDict.get first "display_name" VNone)
              else (false, VNone)
          end
      end
  end.
End LocationValidator.

(** ** The travel-data parser *)

Module ChatgptParser.
(** [class TravelDestination(BaseModel)]: six required fields. *)
Record TravelDestination : Type := {
  location : string;
  price : Z;
  start_date : string;
  end_date : string;
  travel_time : string;
  stay_cost : Z
}.

Inductive validation_error : Type :=
| Missing (field : string)
| WrongType (field : string).

(** The models are validated by pydantic in its default (lax) mode.  A
    field annotated [str] takes a string and nothing else. *)
Definition str_field (d : dict) (name : string) : option string :=
  d !! name ≫= PyDict.as_str.

Definition field_error {A : Type} (d : dict) (name : string) (parsed : option A)
  : list validation_error :=
  match d !! name, parsed with
  | None, _ => [Missing name]
  | Some _, None => [WrongType name]
  | Some _, Some _ => []
  end.

Section Validation.
(** How pydantic reads a string as an integer (["120"] as 120); [None]
    for a string it does not read as one. *)
Variable str_as_int : string -> option Z.

(** A field annotated [int], in lax mode: an integer is taken as it is, a
    boolean as 0 or 1, a string as pydantic reads it; [null] is refused. *)
Definition as_int (v : value) : option Z :=
  match v with
  | VInt z => Some z
  | VBool b => Some (if b then 1 else 0)
  | VStr s => str_as_int s
  | VNone => None
  end.

Definition int_field (d : dict) (name : string) : option Z :=
  d !! name ≫= as_int.

(** The errors the model validation reports for one raw record. *)
Definition destination_errors (d : dict) : list validation_error :=
  field_error d "location" (str_field d "location") ++
  field_error d "price" (int_field d "price") ++
  field_error d "start_date" (str_field d "start_date") ++
  field_error d "end_date" (str_field d "end_date") ++
  field_error d "travel_time" (str_field d "travel_time") ++
  field_error d "stay_cost" (int_field d "stay_cost").

(** Validation of one raw record against [TravelDestination]. *)
Definition validate_destination (d : dict) : option TravelDestination :=
  loc ← str_field d "location";
  p ← int_field d "price";
  sd ← str_field d "start_date";
  ed ← str_field d "end_date";
  tt ← str_field d "travel_time";
  sc ← int_field d "stay_cost";
  Some {| location := loc; price := p; start_date := sd; end_date := ed;
          travel_time := tt; stay_cost := sc |}.

(** Validation of the whole reply against [TravelResponseData], whose one
    required field [destinations] is a list of [TravelDestination]: the
    reply is one model, and is valid only when every element is. *)
Definition validate_response (destinations : option (list dict))
  : list validation_error + list TravelDestination :=
  match destinations with
  | None => inl [Missing "destinations"]
  | Some raw =>
      match mapM validate_destination raw with
      | Some ds => inr ds
      | None => inl (concat (map destination_errors raw))
      end
  end.
End Validation.

(** What [client.beta.chat.completions.parse] does: it raises, it gives
    a message without parsed content, or it gives the JSON content that
    is then validated against [response_format]. *)
Inductive api_reply : Type :=
| ApiRaised (msg : string)
| ApiNoContent
| ApiContent (destinations : option (list dict)).

(** What the [except] branch prints. *)
Inductive failure : Type :=
| ApiFailure (msg : string)
| NoContentInResponse
| SchemaViolation (errors : list validation_error).

Inductive extract_result : Type :=
| ExtractRaised (msg : string)
| ExtractReturned (destinations : option (list TravelDestination))
                  (printed : list failure).

(** [if not api_key]: [None] and the empty string count as absent. *)
Definition truthy_key (api_key : option string) : bool :=
  match api_key with
  | None | Some EmptyString => false
  | Some _ => true
  end.

Record parser_env : Type := {
  openai_api_key : option string;              (* os.getenv("OPENAI_API_KEY") *)
  read_image : string -> option string;        (* open(image_path, "rb").read() *)
  completions_parse : string -> api_reply;     (* the request, by image content *)
  str_as_int : string -> option Z              (* pydantic reading a string as an int *)
}.

(** [extract_travel_data_from_image(image_path)] *)
Definition extract_travel_data_from_image (env : parser_env) (image_path : string)
  : extract_result :=
  match openai_api_key env with
  | None | Some EmptyString =>
      ExtractRaised "OpenAI API key not found. Set the OPENAI_API_KEY environment variable."
  | Some _ =>
      match read_image env image_path with
      | None => ExtractRaised "cannot open image file"
      | Some image =>
          match completions_parse env image with
          | ApiRaised msg => ExtractReturned None [ApiFailure msg]
          | ApiNoContent => ExtractReturned None [NoContentInResponse]
          | ApiContent raw =>
              match validate_response (str_as_int env) raw with
              | inl errors => ExtractReturned None [SchemaViolation errors]
              | inr destinations => ExtractReturned (Some destinations) []
              end
          end
      end
  end.

(** The request is made and answers with JSON content: the key is set,
    the image file can be read, and the service replies. *)
Definition ready (env : parser_env) (image_path : string)
           (destinations : option (list dict)) : Prop :=
  truthy_key (openai_api_key env) = true /\
  exists image, read_image env image_path = Some image /\
                completions_parse env image = ApiContent destinations.

(** The JSON object of a typed record. *)
Definition to_json (t : TravelDestination) : dict :=
  <["location" := VStr (location t)]>
  (<["price" := VInt (price t)]>
  (<["start_date" := VStr (start_date t)]>
  (<["end_date" := VStr (end_date t)]>
  (<["travel_time" := VStr (travel_time t)]>
  (<["stay_cost" := VInt (stay_cost t)]> ∅))))).
End ChatgptParser.

(** ** The article mapper *)

Module ArticleTts.
(** [@dataclass class ArticleContent]: the annotations are not checked
    when the object is built, so a field holds whatever value it is
    given. *)
Record ArticleContent : Type := {
  title : value;
  full_content : value;
  author : value;
  abstract : value
}.

Inductive mapped : Type :=
| Mapped (article : ArticleContent)
| MapperRaised (msg : string).

(** [ArticleContent.from_json(data)]; [data] is [None] when the job has
    no data, and [None.get] raises [AttributeError]. *)
Definition from_json (data : option dict) : mapped :=
  match data with
  | None => MapperRaised "'NoneType' object has no attribute 'get'"
  | Some json_data =>
      Mapped {| title := PyDict.get json_data "title" (VStr "");
                full_content := PyDict.get json_data "fullContent" (VStr "");
                author := PyDict.get json_data "author" VNone;
                abstract := PyDict.get json_data "abstract" VNone |}
  end.

(** What [client.extract.start_and_wait] does. *)
Inductive job_outcome : Type :=
| JobRaised (msg : string)
| JobDone (data : option dict).

(** [extract_content(url, hb_key)]: every exception is printed and gives
    [None]. *)
Definition extract_content (job : job_outcome) : option ArticleContent * list string :=
  match job with
  | JobRaised msg => (None, [msg])
  | JobDone data =>
      match from_json data with
      | Mapped article => (Some article, [])
      | MapperRaised msg => (None, [msg])
      end
  end.
End ArticleTts.

(** ** Screenshot processing *)

Module Screenshot.
(** A decoded image: its size and its pixels. *)
Record Image : Type := {
  width : Z;
  height : Z;
  pixel : Z -> Z -> Z
}.

(** [img.crop((left, top, right, bottom))] *)
Definition crop (img : Image) (x0 y0 x1 y1 : Z) : Image :=
  {| width := x1 - x0;
     height := y1 - y0;
     pixel := fun x y => pixel img (x0 + x) (y0 + y) |}.

Inductive file : Type :=
| EmptyFile
| ImageFile (img : Image).

(** The temporary directory: paths to files. *)
Abbreviation files := (gmap string file).

(** [tempfile.NamedTemporaryFile(suffix=".png", delete=False)]: a new,
    empty file under a name not in use. *)
Definition named_temporary_file (fs : files) : string * files :=
  let name := fresh (dom fs) in
  (name, <[name := EmptyFile]> fs).

(** [Image.open(path)]; [None] when there is no image to open. *)
Definition image_open (fs : files) (path : string) : option Image :=
  match fs !! path with
  | Some (ImageFile img) => Some img
  | _ => None
  end.

Definition max_dimension : Z := 2048.

(** The crop box [(left, top, right, bottom)] of [crop_screenshot]. *)
Definition crop_box (w h max_dim : Z) : Z * Z * Z * Z :=
  let crop_width := Z.min w max_dim in
  let crop_height := Z.min h max_dim in
  (0, 0, Z.min w crop_width, Z.min h crop_height).

Definition crop_to_box (img : Image) (box : Z * Z * Z * Z) : Image :=
  let '(x0, y0, x1, y1) := box in crop img x0 y0 x1 y1.

(** daytrip-planner: [crop_screenshot(screenshot_path, width, height,
    max_dimension)] *)
Definition crop_screenshot (screenshot_path : string) (w h max_dim : Z) (fs : files)
  : option (string * files) :=
  let '(new_screenshot_path, fs1) := named_temporary_file fs in
  img ← image_open fs1 screenshot_path;
  let cropped_img := crop_to_box img (crop_box w h max_dim) in
  let fs2 := <[new_screenshot_path := ImageFile cropped_img]> fs1 in
  let fs3 := if decide (is_Some (fs2 !! screenshot_path))
             then delete screenshot_path fs2 else fs2 in
  Some (new_screenshot_path, fs3).

(** daytrip-planner: [process_screenshot(screenshot_path)] *)
Definition process_screenshot (screenshot_path : string) (fs : files)
  : option (string * files) :=
  img ← image_open fs screenshot_path;
  if (max_dimension <? width img) || (max_dimension <? height img)
  then crop_screenshot screenshot_path (width img) (height img) max_dimension fs
  else Some (screenshot_path, fs).

(** budget-travel-agent: [crop_screenshot]; the original is always
    unlinked. *)
Definition crop_screenshot_bytes (screenshot_path : string) (w h max_dim : Z)
           (fs : files) : option (string * files) :=
  let '(temp_file, fs1) := named_temporary_file fs in
  img ← image_open fs1 screenshot_path;
  let cropped_img := crop_to_box img (crop_box w h max_dim) in
  let fs2 := <[temp_file := ImageFile cropped_img]> fs1 in
  Some (temp_file, delete screenshot_path fs2).

(** budget-travel-agent: [process_screenshot(screenshot_bytes)]; the
    bytes are written to a new temporary file first. *)
Definition process_screenshot_bytes (screenshot_bytes : file) (fs : files)
  : option (string * files) :=
  let '(temp_file, fs0) := named_temporary_file fs in
  let fs1 := <[temp_file := screenshot_bytes]> fs0 in
  img ← image_open fs1 temp_file;
  if (max_dimension <? width img) || (max_dimension <? height img)
  then crop_screenshot_bytes temp_file (width img) (height img) max_dimension fs1
  else Some (temp_file, fs1).
End Screenshot.

(** ** The Streamlit applications *)

Module App.
Import ChatgptParser.

(** What a script run does that the properties speak about: requests to
    remote services, messages to the user, and the page widget. *)
Inductive event : Type :=
| Geocode (city_name : string)                  (* the validator's lookup *)
| SessionCreate                                 (* [client.sessions.create] *)
| CaptureRun (start_location : string)          (* browser automation and screenshot *)
| ExtractRun (image_path : string)              (* the vision request *)
| StError (msg : string)
| StWarning (msg : string)
| StInfo (msg : string)
| PageInput (min_value max_value value : Z)     (* [st.number_input("Page", ...)] *)
| ShowPage (travel_data : list TravelDestination)   (* the tabs of one page *)
           (page_number start_idx end_idx : Z) (tabs : list TravelDestination)
| Rerun.                                        (* [st.rerun()] *)

(** Session creation, screenshot capture and extraction. *)
Definition remote_call (e : event) : bool :=
  match e with
  | SessionCreate | CaptureRun _ | ExtractRun _ => true
  | _ => false
  end.

(** The page widget and the page shown. *)
Definition page_event (e : event) : bool :=
  match e with
  | PageInput _ _ _ | ShowPage _ _ _ _ _ => true
  | _ => false
  end.

Definition user_error (e : event) : bool :=
  match e with
  | StError _ => true
  | _ => false
  end.

(** A Python value used as a condition: [None] and [""] are false. *)
Definition truthy (s : option string) : bool :=
  match s with
  | None | Some EmptyString => false
  | Some _ => true
  end.

Definition page_size : Z := 5.

(** Streamlit's [st.number_input(min_value=lo, max_value=hi, value=v)],
    with what the user has entered in the widget ([None]: nothing yet).
    The call raises ([None]) when [v] lies outside the bounds; nothing is
    clamped.  Otherwise it returns the number entered, and [v] when
    nothing was entered; the widget takes no entry outside its bounds. *)
Definition st_number_input (entered : option Z) (lo hi v : Z) : option Z :=
  if (lo <=? v) && (v <=? hi) then
    match entered with
    | Some p => if (lo <=? p) && (p <=? hi) then Some p else Some v
    | None => Some v
    end
  else None.
End App.

Module DaytripPlanner.
Import ChatgptParser App.

(** [st.session_state] *)
Record session_state : Type := {
  from_location : string;
  page_number : Z;
  selected_destination : option string;
  show_atlas_obscura_modal : bool
}.

(** [initialize_session_state()]: the keys are created together, on the
    first run of a session. *)
Definition initialize_session_state (stored : option session_state) : session_state :=
  match stored with
  | Some s => s
  | None => {| from_location := ""; page_number := 1;
               selected_destination := None; show_atlas_obscura_modal := false |}
  end.

(** The memo tables of [st.cache_resource] and [st.cache_data]: a call
    with arguments that have an entry returns the entry and does not run
    the function's body; the messages the body showed when it ran are
    kept with the entry and shown again. *)
Record caches : Type := {
  browser_ws_url_cache : option (string * option string);
  capture_cache : gmap string (gmap string (option string * list event));
  extract_cache : gmap string (option (list TravelDestination))
}.

(** What [client.sessions.create] does: it raises (the text of the
    exception and of the traceback), or it gives a session with its id and
    its endpoint. *)
Inductive session_outcome : Type :=
| SessionRaised (msg traceback : string)
| SessionCreated (id : string) (ws_endpoint : option string).

(** The services and the widgets, for one script run. *)
Record world : Type := {
  geocode : string -> option (list dict);
  create_session : session_outcome;
  parser : parser_env;
  number_input : Z -> Z -> Z -> option Z               (* [None]: it raises *)
}.

Record inputs : Type := {
  typed_location : string;      (* [st.text_input("Enter your starting city:")] *)
  find_clicked : bool           (* [st.button("Find Weekend Getaways")] *)
}.

Record run : Type := {
  session : session_state;
  cache : caches;
  trace : list event
}.

Definition emit (e : event) (r : run) : run :=
  {| session := session r; cache := cache r; trace := trace r ++ [e] |}.

Definition emit_all (es : list event) (r : run) : run :=
  {| session := session r; cache := cache r; trace := trace r ++ es |}.

Definition set_page_number (n : Z) (r : run) : run :=
  {| session := {| from_location := from_location (session r);
                   page_number := n;
                   selected_destination := selected_destination (session r);
                   show_atlas_obscura_modal := show_atlas_obscura_modal (session r) |};
     cache := cache r; trace := trace r |}.

(** The assignments of [main] when the location differs from the stored
    one. *)
Definition new_location (loc : string) (r : run) : run :=
  {| session := {| from_location := loc; page_number := 1;
                   selected_destination := None;
                   show_atlas_obscura_modal := false |};
     cache := cache r; trace := trace r |}.

Definition set_cache (c : caches) (r : run) : run :=
  {| session := session r; cache := c; trace := trace r |}.

Definition lookup_capture (c : caches) (ws_url loc : string)
  : option (option string * list event) :=
  capture_cache c !! ws_url ≫= fun m => m !! loc.

Definition store_capture (ws_url loc : string) (v : option string * list event)
           (c : caches) : caches :=
  {| browser_ws_url_cache := browser_ws_url_cache c;
     capture_cache :=
       <[ws_url := <[loc := v]> (default ∅ (capture_cache c !! ws_url))]> (capture_cache c);
     extract_cache := extract_cache c |}.

(** [cached_browser_ws_url()] *)
Definition cached_browser_ws_url (w : world) (r : run) : session_outcome * run :=
  match browser_ws_url_cache (cache r) with
  | Some (id, ws_endpoint) => (SessionCreated id ws_endpoint, r)
  | None =>
      let r1 := emit SessionCreate r in
      match create_session w with
      | SessionRaised msg traceback => (SessionRaised msg traceback, r1)
      | SessionCreated id ws_endpoint =>
          (SessionCreated id ws_endpoint,
           set_cache {| browser_ws_url_cache := Some (id, ws_endpoint);
                        capture_cache := capture_cache (cache r1);
                        extract_cache := extract_cache (cache r1) |} r1)
      end
  end.

(** [capture_explore_page(browser_ws_url, from_location)]: the value it
    returns and the messages it shows.  [sync_playwright] is a function
    (it is imported, never called), so the first statement of the [try]
    block, [sync_playwright.chromium.connect_over_cdp(...)], raises
    [AttributeError] before anything is asked of the browser, whatever the
    arguments are; the [except] branch shows the error and returns
    [None]. *)
Definition capture_explore_page (browser_ws_url from_location : string)
  : option string * list event :=
  (None, [StError "An error occurred: 'function' object has no attribute 'chromium'"]).

(** [cached_capture_explore_page(browser_ws_url, from_location)] *)
Definition cached_capture_explore_page (browser_ws_url loc : string) (r : run)
  : option string * run :=
  match lookup_capture (cache r) browser_ws_url loc with
  | Some (v, shown) => (v, emit_all shown r)
  | None =>
      let r1 := set_page_number 1 r in
      let '(v, shown) := capture_explore_page browser_ws_url loc in
      let r2 := emit_all shown r1 in
      (v, set_cache (store_capture browser_ws_url loc (v, shown) (cache r2)) r2)
  end.

(** [cached_extract_travel_data(image_path)]; [inl] is an exception that
    leaves the function. *)
Definition cached_extract_travel_data (w : world) (image_path : string) (r : run)
  : (string + option (list TravelDestination)) * run :=
  match extract_cache (cache r) !! image_path with
  | Some v => (inr v, r)
  | None =>
      let r1 := set_page_number 1 r in
      let r2 := emit (ExtractRun image_path) r1 in
      match extract_travel_data_from_image (parser w) image_path with
      | ExtractRaised msg => (inl msg, r2)
      | ExtractReturned v _ =>
          (inr v,
           set_cache {| browser_ws_url_cache := browser_ws_url_cache (cache r2);
                        capture_cache := capture_cache (cache r2);
                        extract_cache := <[image_path := v]> (extract_cache (cache r2)) |} r2)
      end
  end.

Inductive display_result : Type :=
| DisplayedNothing                                   (* [return False] *)
| DisplayRaised                                      (* the widget raised *)
| Displayed (page_number start_idx end_idx : Z) (tabs : list TravelDestination).

(** [display_travel_data(travel_data, browser_ws_url, from_location)], up
    to the tabs of the page; what is drawn inside a tab does not assign
    [page_number]. *)
Definition display_travel_data (w : world) (travel_data : list TravelDestination) (r : run)
  : display_result * run :=
  match travel_data with
  | [] => (DisplayedNothing,
           emit (StWarning "No destinations could be extracted from the results.") r)
  | _ =>
      let total_destinations := Z.of_nat (length travel_data) in
      let num_pages := Pagination.num_pages page_size total_destinations in
      let shown p r :=
        let start_idx := Pagination.start_idx page_size p in
        let end_idx := Pagination.end_idx page_size total_destinations p in
        let tabs := PySeq.slice travel_data start_idx end_idx in
        (Displayed p start_idx end_idx tabs, emit (ShowPage travel_data p start_idx end_idx tabs) r) in
      if 1 <? num_pages then
        let r1 := emit (PageInput 1 num_pages (page_number (session r))) r in
        match number_input w 1 num_pages (page_number (session r)) with
        | None => (DisplayRaised, r1)
        | Some p => shown p (set_page_number p r1)
        end
      else shown 1 (set_page_number 1 r)
  end.

Inductive main_result : Type :=
| Done
| Crashed (msg : string).

(** The part of [main] under [with st.spinner("Fetching locations
    results...")]; it is outside the [try] block, so an exception ends
    the script. *)
Definition fetch_and_display (w : world) (screenshot_tmp_path : string) (r : run)
  : main_result * run :=
  match cached_extract_travel_data w screenshot_tmp_path r with
  | (inl msg, r1) => (Crashed msg, r1)
  | (inr travel_data, r1) =>
      match cached_browser_ws_url w r1 with
      | (SessionRaised msg _, r2) => (Crashed msg, r2)
      | (SessionCreated _ browser_ws_url, r2) =>
          if negb (truthy browser_ws_url) then
            (Done, emit (StError "Could not create session") r2)
          else
            match travel_data with
            | None => (Done, emit (StError "Could not get travel data") r2)
            | Some data =>
                match display_travel_data w data r2 with
                | (DisplayRaised, r3) => (Crashed "the page widget raised", r3)
                | (_, r3) => (Done, r3)
                end
            end
      end
  end.

(** [main()], one script run. *)
Definition main (w : world) (inp : inputs) (r : run) : main_result * run :=
  let loc := typed_location inp in
  if find_clicked inp || negb (String.eqb loc "") then
    let r1 := emit (Geocode loc) r in
    if negb (LocationValidator.validate_city (geocode w) loc) then
      (Done, emit (StError ("'" +:+ loc +:+
                            "' doesn't appear to be a valid city. Please try again.")) r1)
    else
      let r2 := if String.eqb loc (from_location (session r1)) then r1
                else new_location loc r1 in
      match cached_browser_ws_url w r2 with
      | (SessionRaised msg traceback, r3) =>
          (Done, emit (StError traceback)
                      (emit (StError ("An error occurred: " +:+ msg)) r3))
      | (SessionCreated _ browser_ws_url, r3) =>
          match browser_ws_url with
          | None | Some EmptyString => (Done, emit (StError "Could not create session") r3)
          | Some ws =>
              match cached_capture_explore_page ws (PyStr.lower loc) r3 with
              | (None, r4) => (Done, emit (StError "Could not get screenshot") r4)
              | (Some screenshot_tmp_path, r4) => fetch_and_display w screenshot_tmp_path r4
              end
          end
      end
  else (Done, r).

(** The capture memo table holds what [capture_explore_page] has put
    there, and nothing else: an empty table does, and no run changes
    that. *)
Definition capture_entries_made (c : caches) : Prop :=
  forall ws_url loc entry,
    lookup_capture c ws_url loc = Some entry -> entry = capture_explore_page ws_url loc.

(** A script run of the application: the stored session state (none on
    the first run) and the memo tables come in, [main] runs on an empty
    trace. *)
Definition app (w : world) (inp : inputs) (stored : option session_state) (c : caches)
  : main_result * run :=
  main w inp {| session := initialize_session_state stored; cache := c; trace := [] |}.
End DaytripPlanner.

Module BudgetTravelAgent.
Import ChatgptParser App.

(** [st.session_state] *)
Record session_state : Type := {
  from_location : string;
  end_location : option string;
  page_number : Z;
  search_button_clicked : bool
}.

Definition initialize_session_state (stored : option session_state) : session_state :=
  match stored with
  | Some s => s
  | None => {| from_location := ""; end_location := None; page_number := 1;
               search_button_clicked := false |}
  end.

(** The memo table of [take_screenshot], by its three arguments. *)
Abbreviation screenshot_key := (string * option string * string)%type.

Record world : Type := {
  geocode : string -> option (list dict);
  create_session : bool;                               (* [false]: it raises *)
  automate : string -> option string -> string -> option string;
  openai_api_key : option string;
  extract : string -> extract_result;
  number_input : Z -> Z -> Z -> option Z               (* [None]: it raises *)
}.

Record inputs : Type := {
  starting_location : string;            (* [st.text_input("Starting Location")] *)
  destination : option string;           (* [st.text_input("Destination")] *)
  trip_duration : string;                (* [st.selectbox("Trip Duration", ...)] *)
  search_clicked : bool                  (* [st.button("Search Travel Options")] *)
}.

Record run : Type := {
  session : session_state;
  screenshot_cache : gmap screenshot_key (option string);
  trace : list event
}.

Definition emit (e : event) (r : run) : run :=
  {| session := session r; screenshot_cache := screenshot_cache r;
     trace := trace r ++ [e] |}.

Definition set_session (s : session_state) (r : run) : run :=
  {| session := s; screenshot_cache := screenshot_cache r; trace := trace r |}.

Definition set_from_location (v : string) (s : session_state) : session_state :=
  {| from_location := v; end_location := end_location s;
     page_number := page_number s; search_button_clicked := search_button_clicked s |}.

Definition set_end_location (v : option string) (s : session_state) : session_state :=
  {| from_location := from_location s; end_location := v;
     page_number := page_number s; search_button_clicked := search_button_clicked s |}.

Definition set_page_number (v : Z) (s : session_state) : session_state :=
  {| from_location := from_location s; end_location := end_location s;
     page_number := v; search_button_clicked := search_button_clicked s |}.

Definition set_search_button_clicked (v : bool) (s : session_state) : session_state :=
  {| from_location := from_location s; end_location := end_location s;
     page_number := page_number s; search_button_clicked := v |}.

(** [take_screenshot(start_location, end_location, trip_duration)]; [inl]
    is an exception that leaves the function. *)
Definition take_screenshot (w : world) (start_location : string)
           (end_loc : option string) (duration : string) (r : run)
  : (string + option string) * run :=
  match screenshot_cache r !! (start_location, end_loc, duration) with
  | Some v => (inr v, r)
  | None =>
      let r1 := emit SessionCreate r in
      if create_session w then
        let r2 := emit (CaptureRun start_location) r1 in
        let v := automate w start_location end_loc duration in
        (inr v,
         {| session := session r2;
            screenshot_cache :=
              <[(start_location, end_loc, duration) := v]> (screenshot_cache r2);
            trace := trace r2 |})
      else (inl "session creation failed", r1)
  end.

Inductive display_result : Type :=
| DisplayedNothing
| DisplayRaised
| DisplayRerun
| Displayed (page_number start_idx end_idx : Z) (tabs : list TravelDestination).

(** [display_travel_data(travel_data, from_location)] *)
Definition display_travel_data (w : world) (travel_data : list TravelDestination) (r : run)
  : display_result * run :=
  match travel_data with
  | [] => (DisplayedNothing,
           emit (StWarning "No destinations could be extracted from the results.") r)
  | _ =>
      let total_destinations := Z.of_nat (length travel_data) in
      let num_pages := Pagination.num_pages page_size total_destinations in
      let shown p r :=
        let start_idx := Pagination.start_idx page_size p in
        let end_idx := Pagination.end_idx page_size total_destinations p in
        let tabs := PySeq.slice travel_data start_idx end_idx in
        (Displayed p start_idx end_idx tabs, emit (ShowPage travel_data p start_idx end_idx tabs) r) in
      if 1 <? num_pages then
        let r1 := emit (PageInput 1 num_pages (page_number (session r))) r in
        match number_input w 1 num_pages (page_number (session r)) with
        | None => (DisplayRaised, r1)
        | Some p =>
            if negb (p =? page_number (session r1)) then
              (DisplayRerun, emit Rerun (set_session (set_page_number p (session r1)) r1))
            else shown p r1
        end
      else shown 1 (set_session (set_page_number 1 (session r)) r)
  end.

Inductive validated : Type :=
| Aborted (r : run)
| Rerunning (r : run)
| Valid (start_location : string) (end_loc : option string) (r : run).

(** One location check of the validation block: the lookup, the error
    when it is rejected, the renaming when the service knows the place
    under another name.  The result is [None] on rejection, else the name
    to go on with and whether it was changed. *)
Definition check_location (w : world) (name : string) (rejected : string)
           (modified : string) (store : string -> session_state -> session_state)
           (r : run) : option (string * bool) * run :=
  let r1 := emit (Geocode name) r in
  match LocationValidator.validate_city_named (geocode w) name with
  | (false, _) => (None, emit (StError rejected) r1)
  | (true, VStr known) =>
      if String.eqb known name then (Some (name, false), r1)
      else (Some (known, true),
            set_session (store known (session r1)) (emit (StInfo (modified +:+ known)) r1))
  | (true, _) => (Some (name, false), r1)
  end.

(** The block under [if not st.session_state.search_button_clicked:]. *)
Definition validate_locations (w : world) (start_location : string)
           (end_loc : option string) (r : run) : validated :=
  match check_location w start_location
          "Invalid starting location. Please enter a valid location name."
          "Start location modified to : " set_from_location r with
  | (None, r1) => Aborted r1
  | (Some (start', reset1), r1) =>
      match end_loc with
      | None => if reset1 : bool then Rerunning (emit Rerun r1) else Valid start' None r1
      | Some e =>
          match check_location w e
                  "Invalid destination location. Please enter a valid location name."
                  "End location modified to : "
                  (fun v => set_end_location (Some v)) r1 with
          | (None, r2) => Aborted r2
          | (Some (end', reset2), r2) =>
              if reset1 || reset2 then Rerunning (emit Rerun r2)
              else Valid start' (Some end') r2
          end
      end
  end.

(** The part of [main] under [with st.spinner("Searching for travel
    options...")]. *)
Definition search (w : world) (start_location : string) (end_loc : option string)
           (duration : string) (r : run) : run :=
  match take_screenshot w start_location end_loc duration r with
  | (inl msg, r1) => emit (StError ("An error occurred: " +:+ msg)) r1
  | (inr screenshot, r1) =>
      match screenshot with
      | None | Some EmptyString =>
          emit (StError "Could not get the screenshot for the travel options") r1
      | Some screenshot_path =>
          if truthy (openai_api_key w) then
            let r2 := emit (ExtractRun screenshot_path) r1 in
            match extract w screenshot_path with
            | ExtractRaised msg => emit (StError ("An error occurred: " +:+ msg)) r2
            | ExtractReturned (Some (d :: ds)) _ =>
            match display_travel_data w (d :: ds) r2 with
            | (DisplayRaised, r3) =>
                emit (StError "An error occurred: the page widget raised") r3
            | (_, r3) => r3
            end
            | ExtractReturned _ _ =>
                emit (StError "Could not extract travel data from the screenshot") r2
            end
          else
            emit (StWarning "OpenAI API key not provided. Please add it to the .env file to enable analysis.") r1
      end
  end.

(** [main()], one script run. *)
Definition main (w : world) (inp : inputs) (r : run) : run :=
  let start_location := starting_location inp in
  let r1 := if negb (String.eqb start_location (from_location (session r)))
            then set_session (set_search_button_clicked false (session r)) r else r in
  let r2 := set_session (set_from_location start_location (session r1)) r1 in
  let end_loc := destination inp in
  let r3 := if negb (bool_decide (end_loc = end_location (session r2)))
            then set_session (set_search_button_clicked false (session r2)) r2 else r2 in
  let r4 := set_session (set_end_location end_loc (session r3)) r3 in
  if search_clicked inp || search_button_clicked (session r4) then
    if String.eqb start_location "" then
      emit (StError "Please enter starting location.") r4
    else
      let r5 := set_session (set_search_button_clicked true (session r4)) r4 in
      if negb (search_button_clicked (session r5)) then
        match validate_locations w start_location end_loc r5 with
        | Aborted r6 => r6
        | Rerunning r6 => r6
        | Valid start_location' end_loc' r6 =>
            search w start_location' end_loc' (trip_duration inp) r6
        end
      else search w start_location end_loc (trip_duration inp) r5
  else r4.

(** The script before [main()]: the OpenAI key is read from the
    environment when the script starts, and its absence is reported, on
    every run. *)
Definition banner (w : world) : list event :=
  if truthy (openai_api_key w) then []
  else [StError "OpenAI API key not found. Please set it in a .env file."].

(** A script run of the application: the banner, then [main]. *)
Definition app (w : world) (inp : inputs) (stored : option session_state)
           (c : gmap screenshot_key (option string)) : run :=
  main w inp {| session := initialize_session_state stored;
                screenshot_cache := c; trace := banner w |}.
End BudgetTravelAgent.

(** ** Concrete services and inputs, for the examples *)

Module Scenario.
Import ChatgptParser App.

Definition trip (name : string) : TravelDestination :=
  {| location := name; price := 120; start_date := "2025-06-14";
     end_date := "2025-06-15"; travel_time := "2h 30m"; stay_cost := 90 |}.

Definition seven_trips : list TravelDestination :=
  map trip ["Porto"; "Lisbon"; "Seville"; "Valencia"; "Bilbao"; "Malaga"; "Granada"].

(** Streamlit's page widget when the user enters nothing: it raises on a
    value outside its bounds and returns the value otherwise. *)
Definition strict_input (lo hi v : Z) : option Z :=
  if (lo <=? v) && (v <=? hi) then Some v else None.

(** A geocoder that knows Madrid and Porto only. *)
Definition geocoder (query : string) : option (list dict) :=
  if String.eqb (PyStr.lower query) "madrid" then
    Some [ <["addresstype" := VStr "city"]> {[ "display_name" := VStr "Madrid, Spain" ]} ]
  else if String.eqb (PyStr.lower query) "porto" then
    Some [ <["addresstype" := VStr "city"]> {[ "display_name" := VStr "Porto, Portugal" ]} ]
  else Some [].

(** A reading of strings as integers that knows the plain decimal
    numerals, which pydantic reads as well. *)
Fixpoint digits (acc : Z) (s : string) : option Z :=
  match s with
  | EmptyString => Some acc
  | String c t =>
      let n := nat_of_ascii c in
      if ((48 <=? n) && (n <=? 57))%nat
      then digits (10 * acc + Z.of_nat (n - 48)) t
      else None
  end.

Definition numeral (s : string) : option Z :=
  match s with
  | EmptyString => None
  | _ => digits 0 s
  end.

Definition parser_with (reply : api_reply) : parser_env :=
  {| openai_api_key := Some "sk-test";
     read_image := fun _ => Some "png";
     completions_parse := fun _ => reply;
     str_as_int := numeral |}.

Definition daytrip_world (reply : api_reply) (widget : Z -> Z -> Z -> option Z)
  : DaytripPlanner.world :=
  {| DaytripPlanner.geocode := geocoder;
     DaytripPlanner.create_session :=
       DaytripPlanner.SessionCreated "session-1" (Some "wss://browser");
     DaytripPlanner.parser := parser_with reply;
     DaytripPlanner.number_input := widget |}.

Definition daytrip_caches : DaytripPlanner.caches :=
  {| DaytripPlanner.browser_ws_url_cache := None;
     DaytripPlanner.capture_cache := ∅;
     DaytripPlanner.extract_cache := ∅ |}.

Definition budget_world (found : list TravelDestination)
           (widget : Z -> Z -> Z -> option Z) : BudgetTravelAgent.world :=
  {| BudgetTravelAgent.geocode := geocoder;
     BudgetTravelAgent.create_session := true;
     BudgetTravelAgent.automate := fun _ _ _ => Some "/tmp/shot.png";
     BudgetTravelAgent.openai_api_key := Some "sk-test";
     BudgetTravelAgent.extract := fun _ => ExtractReturned (Some found) [];
     BudgetTravelAgent.number_input := widget |}.
End Scenario.

(** ** More Python string operations *)

Module PyText.
(** The newline character, as a string. *)
Definition nl : string := String (ascii_of_nat 10) EmptyString.

(** [s.endswith(suffix)] *)
Definition endswith (s suffix : string) : bool :=
  let n := String.length s in
  let m := String.length suffix in
  (m <=? n)%nat && String.eqb (substring (n - m) m s) suffix.

(** [s[:-k]] for a positive [k]: all but the last [k] characters. *)
Definition drop_last (k : nat) (s : string) : string :=
  substring 0 (String.length s - k) s.

(** [s.replace(old, new)] for a non-empty [old]: the occurrences of [old]
    are replaced from left to right, without overlap.  [skip] counts the
    characters of an occurrence that are still to be passed over. *)
Fixpoint replace_from (skip : nat) (old new s : string) : string :=
  match s with
  | EmptyString => EmptyString
  | String c t =>
      match skip with
      | S k => replace_from k old new t
      | O =>
          if String.prefix old s
          then new +:+ replace_from (String.length old - 1) old new t
          else String c (replace_from 0 old new t)
      end
  end.

Definition replace (old new s : string) : string := replace_from 0 old new s.

(** [s.split(sep)] for a separator of one character: never empty. *)
Fixpoint split (sep : ascii) (s : string) : list string :=
  match s with
  | EmptyString => [EmptyString]
  | String c t =>
      if Ascii.eqb c sep then EmptyString :: split sep t
      else match split sep t with
           | [] => [String c EmptyString]
           | h :: r => String c h :: r
           end
  end.

(** [s.split(sep)[-1]] *)
Definition last_part (sep : ascii) (s : string) : string :=
  List.last (split sep s) EmptyString.

(** [c.isspace()] on the ASCII range. *)
Definition is_space (c : ascii) : bool :=
  let n := nat_of_ascii c in
  ((9 <=? n) && (n <=? 13) || (28 <=? n) && (n <=? 32))%nat.

(** [s.lstrip()], [s.rstrip()], [s.strip()] *)
Fixpoint lstrip (s : string) : string :=
  match s with
  | EmptyString => EmptyString
  | String c t => if is_space c then lstrip t else s
  end.

Fixpoint rstrip (s : string) : string :=
  match s with
  | EmptyString => EmptyString
  | String c t =>
      match rstrip t with
      | EmptyString => if is_space c then EmptyString else String c EmptyString
      | r => String c r
      end
  end.

Definition strip (s : string) : string := lstrip (rstrip s).

(** [c not in s] for a character [c]. *)
Fixpoint lacks (c : ascii) (s : string) : bool :=
  match s with
  | EmptyString => true
  | String d t => negb (Ascii.eqb d c) && lacks c t
  end.

(** ["\n".join(lines)] *)
Definition join_lines (lines : list string) : string := String.concat nl lines.

(** [str(v)], as an f-string prints a value. *)
Definition str (v : value) : string :=
  match v with
  | VNone => "None"
  | VBool true => "True"
  | VBool false => "False"
  | VInt z => pretty z
  | VStr s => s
  end.

(** A value used as a condition. *)
Definition truthy (v : value) : bool :=
  match v with
  | VNone => false
  | VBool b => b
  | VInt z => negb (z =? 0)
  | VStr s => negb (String.eqb s "")
  end.
End PyText.

(** ** The changelog texts *)

Module Changelog.
Import Tenacity ChangelogGenerator.

(** [get_comparison_url(git_url, start, end)] *)
Definition get_comparison_url (git_url start end_ : string) : string :=
  let git_url := if PyText.endswith git_url ".git"
                 then PyText.drop_last 4 git_url else git_url in
  git_url +:+ "/compare/" +:+ start +:+ "..." +:+ end_.

(** [repo_url.split("/")[-1].replace(".git", "")] *)
Definition repo_name (repo_url : string) : string :=
  PyText.replace ".git" "" (PyText.last_part "/" repo_url).

(** The extracted comparison, a [dict]: its entries with plain values, and
    the two lists under ["commits"] and ["file_changes"] when present. *)
Record comparison_data : Type := {
  scalars : dict;
  commits : option (list dict);
  file_changes : option (list dict)
}.

(** [not comparison_data]: the dict is empty. *)
Definition no_data (d : comparison_data) : bool :=
  bool_decide (scalars d = ∅) &&
  match commits d, file_changes d with
  | None, None => true
  | _, _ => false
  end.

Definition no_data_text : string := "No data available to generate changelog.".

(** The lines of one commit in [generate_changelog]; [None] when
    [description.strip()] is called on a value that is not a string. *)
Definition commit_lines (i : nat) (commit : dict) : option (list string) :=
  let message := PyDict.get commit "message" (VStr "No message") in
  let description := PyDict.get commit "description" (VStr "") in
  let committer := PyDict.get commit "committer_name" (VStr "Unknown") in
  let verified :=
    if PyText.truthy (PyDict.get commit "is_verified" (VBool false))
    then "âœ“" else "âœ—" in
  let heading := "### " +:+ pretty (Z.of_nat i + 1) +:+ ". " +:+ PyText.str message in
  let author := "**Author:** " +:+ PyText.str committer +:+ " | **Verified:** "
                +:+ verified in
  if PyText.truthy description then
    d ← PyDict.as_str description;
    Some [heading; "_" +:+ PyText.strip d +:+ "_"; author; ""]
  else Some [heading; author; ""].

(** A description the generators can print: a false value, which is
    skipped, or a string. *)
Definition description_ok (commit : dict) : bool :=
  let description := PyDict.get commit "description" (VStr "") in
  negb (PyText.truthy description) ||
  match description with
  | VStr _ => true
  | _ => false
  end.

(** The heading of commit number [i] (from 0) in [generate_changelog]. *)
Definition commit_heading (i : nat) (commit : dict) : string :=
  "### " +:+ pretty (Z.of_nat i + 1) +:+ ". "
  +:+ PyText.str (PyDict.get commit "message" (VStr "No message")).

Definition file_heading (i : nat) (file : dict) : string :=
  "### " +:+ pretty (Z.of_nat i + 1) +:+ ". "
  +:+ PyText.str (PyDict.get file "file_path" (VStr "Unknown file")).

(** The lines of one file in [generate_changelog]. *)
Definition file_lines (i : nat) (file : dict) : list string :=
  let file_path := PyDict.get file "file_path" (VStr "Unknown file") in
  let additions := PyDict.get file "additions" (VInt 0) in
  let deletions := PyDict.get file "deletions" (VInt 0) in
  let code_change :=
    PyDict.get file "code_change" (VStr "No change description available") in
  ["### " +:+ pretty (Z.of_nat i + 1) +:+ ". " +:+ PyText.str file_path;
   "**Changes:** +" +:+ PyText.str additions +:+ " / -" +:+ PyText.str deletions;
   "**Description:**";
   PyText.str code_change;
   ""].

(** [for i, commit in enumerate(commits)], from index [i]. *)
Fixpoint commits_lines (i : nat) (cs : list dict) : option (list string) :=
  match cs with
  | [] => Some []
  | c :: rest =>
      here ← commit_lines i c;
      more ← commits_lines (S i) rest;
      Some (here ++ more)
  end.

Fixpoint files_lines (i : nat) (fs : list dict) : list string :=
  match fs with
  | [] => []
  | f :: rest => file_lines i f ++ files_lines (S i) rest
  end.

(** The summary lines shared by the two generators. *)
Definition summary_lines (d : comparison_data) : list string :=
  ["## Summary";
   "* Total commits: " +:+ PyText.str (PyDict.get (scalars d) "num_commits" (VInt 0));
   "* Files changed: " +:+
     PyText.str (PyDict.get (scalars d) "num_files_changed" (VInt 0));
   ""].

(** The lines [generate_changelog] joins; [now] is the formatted
    [datetime.now()]. *)
Definition changelog_lines (now : string) (d : comparison_data) (repo_url : string)
  : option (list string) :=
  cl ← commits_lines 0 (default [] (commits d));
  Some (["# " +:+ repo_name repo_url +:+ " Changelog";
         "Generated on: " +:+ now;
         ""]
        ++ summary_lines d
        ++ ["## Commits"] ++ cl
        ++ ["## File Changes"] ++ files_lines 0 (default [] (file_changes d))).

(** [generate_changelog(comparison_data, repo_url, start_commit,
    end_commit)]; [None] is an exception. *)
Definition generate_changelog (now : string) (d : comparison_data)
           (repo_url start_commit end_commit : string) : option string :=
  if no_data d then Some no_data_text
  else PyText.join_lines <$> changelog_lines now d repo_url.

(** The heading of a category in [generate_categorized_changelog]. *)
Definition heading (k : category) : string :=
  match k with
  | Features => "## âœ¨ Features"
  | BugFixes => "## ðŸ› Bug Fixes"
  | Documentation => "## ðŸ“„ Documentation"
  | Refactoring => "## ðŸ”¨ Refactoring"
  | Tests => "## ðŸ§ª Tests"
  | OtherChanges => "## ðŸ”„ Other Changes"
  end.

(** The bullet of a commit. *)
Definition bullet (commit : dict) : string :=
  "* **" +:+ PyText.str (PyDict.get commit "message" (VStr "No message"))
  +:+ "** - *"
  +:+ PyText.str (PyDict.get commit "committer_name" (VStr "Unknown")) +:+ "*".

(** The lines of one commit under a category heading. *)
Definition bullet_lines (commit : dict) : option (list string) :=
  let description := PyDict.get commit "description" (VStr "") in
  if PyText.truthy description then
    d ← PyDict.as_str description;
    if (0 <? String.length (PyText.strip d))%nat
    then Some [bullet commit; "  - " +:+ PyText.strip d]
    else Some [bullet commit]
  else Some [bullet commit].

Fixpoint bullets_lines (cs : list dict) : option (list string) :=
  match cs with
  | [] => Some []
  | c :: rest =>
      here ← bullet_lines c;
      more ← bullets_lines rest;
      Some (here ++ more)
  end.

(** [if <list>: ...]: the block of a category, empty for an empty list. *)
Definition section_lines (k : category) (cs : list dict) : option (list string) :=
  match cs with
  | [] => Some []
  | _ => bl ← bullets_lines cs; Some ([heading k] ++ bl ++ [""])
  end.

Definition categorized_lines (now : string) (d : comparison_data) (repo_url : string)
  : option (list string) :=
  cats ← categorize_commits (default [] (commits d));
  s1 ← section_lines Features (feature_commits cats);
  s2 ← section_lines BugFixes (bugfix_commits cats);
  s3 ← section_lines Documentation (docs_commits cats);
  s4 ← section_lines Refactoring (refactor_commits cats);
  s5 ← section_lines Tests (test_commits cats);
  s6 ← section_lines OtherChanges (other_commits cats);
  Some (["# " +:+ repo_name repo_url +:+ " Changelog";
         "### This is a basic changelog generated based on heuristics.";
         "Generated on: " +:+ now;
         ""]
        ++ summary_lines d
        ++ s1 ++ s2 ++ s3 ++ s4 ++ s5 ++ s6).

(** [generate_categorized_changelog(comparison_data, repo_url,
    start_commit, end_commit)]; [None] is an exception. *)
Definition generate_categorized_changelog (now : string) (d : comparison_data)
           (repo_url start_commit end_commit : string) : option string :=
  if no_data d then Some no_data_text
  else PyText.join_lines <$> categorized_lines now d repo_url.

(** [response.choices[0].message.content or "N/A"] *)
Definition content_or_na (content : option string) : string :=
  match content with
  | None | Some EmptyString => "N/A"
  | Some s => s
  end.

(** One attempt of the body of [call_openai_api], from what the chat
    completion request does. *)
Definition completion (create : Z -> outcome (option string)) (attempt_number : Z)
  : outcome string :=
  match create attempt_number with
  | Returned content => Returned (content_or_na content)
  | Raised e => Raised e
  end.

Section OpenAI.
(** [str(e)] of the exception that leaves [call_openai_api]. *)
Variable error_text : final string -> string.

Definition key_missing_text : string :=
  "Error: OPENAI_API_KEY environment variable not set. Please set it in your .env file.".

(** [generate_openai_changelog(comparison_data, repo_url, start_commit,
    end_commit)]: the text it returns, and the number of requests made. *)
Definition generate_openai_changelog (now : string) (openai_api_key : option string)
           (create : Z -> outcome (option string)) (d : comparison_data)
           (repo_url start_commit end_commit : string) : string * Z :=
  if no_data d then (no_data_text, 0)
  else if negb (App.truthy openai_api_key) then (key_missing_text, 0)
  else
    let comparison_url := get_comparison_url repo_url start_commit end_commit in
    match call_openai_api (completion create) with
    | Some {| result := Return formatted_changelog; attempts := n |} =>
        ("# " +:+ repo_name repo_url +:+ " Changelog (AI-Generated)"
         +:+ PyText.nl +:+ PyText.nl
         +:+ "Generated on: " +:+ now +:+ PyText.nl +:+ PyText.nl
         +:+ "Comparing [" +:+ start_commit +:+ "..." +:+ end_commit +:+ "]("
         +:+ comparison_url +:+ ")" +:+ PyText.nl +:+ PyText.nl
         +:+ formatted_changelog, n)
    | Some {| result := failed; attempts := n |} =>
        ("Error generating AI changelog: " +:+ error_text failed, n)
    | None => ("Error generating AI changelog: ", 3)
    end.
End OpenAI.
End Changelog.

(** ** The changelog builder *)

Module ChangelogApp.
Import Changelog.

(** A character of the class [[\w\-]] among the ASCII characters: a
    letter, a digit, an underscore or a hyphen.  The class has more
    characters outside ASCII; the matcher below is the pattern on ASCII
    text. *)
Definition is_name_char (c : ascii) : bool :=
  let n := nat_of_ascii c in
  ((48 <=? n) && (n <=? 57) || (65 <=? n) && (n <=? 90)
   || (97 <=? n) && (n <=? 122) || (n =? 95) || (n =? 45))%nat.

(** A string of name characters only. *)
Fixpoint name_string (s : string) : bool :=
  match s with
  | EmptyString => true
  | String c t => is_name_char c && name_string t
  end.

(** A string that is empty or starts with a character outside the name
    class. *)
Definition stops_name (s : string) : Prop :=
  match s with
  | EmptyString => True
  | String c _ => is_name_char c = false
  end.

(** The rest of [s] after the literal [p], when [s] starts with it. *)
Definition after_prefix (p s : string) : option string :=
  if String.prefix p s
  then Some (substring (String.length p) (String.length s - String.length p) s)
  else None.

(** The longest run of name characters at the start of [s], and the rest:
    what [[\w\-]+] takes when the next thing to match is not a name
    character. *)
Fixpoint span_name (s : string) : string * string :=
  match s with
  | EmptyString => (EmptyString, EmptyString)
  | String c t =>
      if is_name_char c
      then let '(a, b) := span_name t in (String c a, b)
      else (EmptyString, s)
  end.

(** [$]: the end of the string, or a newline that ends the string. *)
Definition at_end (s : string) : bool := String.eqb s "" || String.eqb s PyText.nl.

(** [is_valid_github_url(url)]:
    [re.match(r"^https?://github\.com/[\w\-]+/[\w\-]+(\.git)?$", url)]. *)
Definition is_valid_github_url (url : string) : bool :=
  match (match after_prefix "https://" url with
         | Some r => Some r
         | None => after_prefix "http://" url
         end) with
  | None => false
  | Some r0 =>
      match after_prefix "github.com/" r0 with
      | None => false
      | Some r1 =>
          let '(owner, r2) := span_name r1 in
          negb (String.eqb owner "") &&
          match r2 with
          | String "/" r3 =>
              let '(repo, r4) := span_name r3 in
              negb (String.eqb repo "") &&
              (at_end r4 ||
               match after_prefix ".git" r4 with
               | Some r5 => at_end r5
               | None => false
               end)
          | _ => false
          end
      end
  end.

Inductive event : Type :=
| ExtractJob (comparison_url : string)          (* [client.extract.start_and_wait] *)
| StError (msg : string)
| StWarning (msg : string)
| StSuccess (msg : string)
| Markdown (text : string)
| Download (file_name text : string).

Record world : Type := {
  hyperbrowser_api_key : option string;
  (** the extraction job: [None] when it raises, else [result.data] *)
  start_and_wait : string -> option (option comparison_data);
  openai_api_key : option string;
  create : Z -> Tenacity.outcome (option string);
  error_text : Tenacity.final string -> string;
  now : string
}.

Record inputs : Type := {
  git_url : string;
  starting_commit : string;
  ending_commit : string;
  view_clicked : bool                 (* [st.button("View Comparison")] *)
}.

Record run : Type := {
  cache : gmap string (option comparison_data);     (* [st.cache_data] *)
  trace : list event
}.

Definition emit (e : event) (r : run) : run :=
  {| cache := cache r; trace := trace r ++ [e] |}.

(** [extract_git_comparison(comparison_url)], memoised by its argument. *)
Definition extract_git_comparison (w : world) (comparison_url : string) (r : run)
  : option comparison_data * run :=
  match cache r !! comparison_url with
  | Some v => (v, r)
  | None =>
      let '(v, r1) :=
        if negb (App.truthy (hyperbrowser_api_key w)) then
          (None,
           emit (StError "HYPERBROWSER_API_KEY environment variable not set. Please set it in a .env file.") r)
        else
          let r1 := emit (ExtractJob comparison_url) r in
          match start_and_wait w comparison_url with
          | None => (None, emit (StError "Error extracting data") r1)
          | Some data => (data, r1)
          end in
      (v, {| cache := <[comparison_url := v]> (cache r1); trace := trace r1 |})
  end.

Inductive main_result : Type :=
| Done
| Crashed.

(** What is shown for extracted data: the categorised changelog with its
    download, and the AI-processed changelog with its download.  The
    other widgets of the tabs are left out. *)
Definition show_changelogs (w : world) (inp : inputs) (d : comparison_data) (r : run)
  : main_result * run :=
  let r1 := emit (StSuccess "Successfully extracted commit comparison data") r in
  match generate_changelog (now w) d (git_url inp) (starting_commit inp)
                           (ending_commit inp),
        generate_categorized_changelog (now w) d (git_url inp) (starting_commit inp)
                                       (ending_commit inp) with
  | Some _, Some categorized_changelog =>
      let name := repo_name (git_url inp) in
      let r2 := emit (Markdown categorized_changelog) r1 in
      let r3 := emit (Download (name +:+ "_categorized_changelog_"
                                +:+ starting_commit inp +:+ "_to_"
                                +:+ ending_commit inp +:+ ".md")
                               categorized_changelog) r2 in
      if negb (App.truthy (openai_api_key w)) then
        (Done, emit (StWarning "OpenAI API key not found. Please add your API key to the .env file as OPENAI_API_KEY=your_key_here") r3)
      else
        let openai_changelog :=
          fst (generate_openai_changelog (error_text w) (now w) (openai_api_key w)
                 (create w) d (git_url inp) (starting_commit inp) (ending_commit inp)) in
        let r4 := emit (Markdown openai_changelog) r3 in
        (Done, emit (Download (name +:+ "_ai_changelog_" +:+ starting_commit inp
                               +:+ "_to_" +:+ ending_commit inp +:+ ".md")
                              openai_changelog) r4)
  | _, _ => (Crashed, r1)
  end.

(** The script under [if __name__ == "__main__":], one run. *)
Definition main (w : world) (inp : inputs) (r : run) : main_result * run :=
  if view_clicked inp
     && negb (String.eqb (git_url inp) "")
     && negb (String.eqb (starting_commit inp) "")
     && negb (String.eqb (ending_commit inp) "")
  then
    if negb (is_valid_github_url (git_url inp)) then
      (Done, emit (StError "Please enter a valid GitHub repository URL") r)
    else
      let comparison_url :=
        get_comparison_url (git_url inp) (starting_commit inp) (ending_commit inp) in
      match extract_git_comparison w comparison_url r with
      | (Some d, r1) =>
          if no_data d then (Done, r1) else show_changelogs w inp d r1
      | (None, r1) => (Done, r1)
      end
  else (Done, r).
End ChangelogApp.

(** ** The article reader *)

Module ArticleApp.
Import ArticleTts.

Inductive event : Type :=
| CheckCredits                                  (* [client.user.get()] *)
| ExtractJob (url : string)                     (* [extract_content(url, hb_key)] *)
| Generate (text voice model : string)          (* [client.generate(...)] *)
| Audio (audio : string)
| StWarning (msg : string)
| StError (msg : string)
| StSuccess (msg : string)
| Stop.                                         (* [st.stop()] *)

Record world : Type := {
  credits : option Z;                           (* [None]: the lookup raises *)
  job : string -> job_outcome;
  generate : string -> option string            (* [None]: it raises *)
}.

Record inputs : Type := {
  elevenlabs_key : string;
  hb_key : string;
  url : string;
  voice : string;
  model : string;
  extract_clicked : bool;                       (* [st.button("Extract")] *)
  convert_clicked : bool                        (* [st.button("Convert to speech")] *)
}.

Record run : Type := {
  article_content : option ArticleContent;      (* [st.session_state.article_content] *)
  trace : list event
}.

Definition emit (e : event) (r : run) : run :=
  {| article_content := article_content r; trace := trace r ++ [e] |}.

(** [f"{content.title}\nby {content.author}\n{content.full_content}"] *)
Definition text_for_speech (content : ArticleContent) : string :=
  PyText.str (title content) +:+ PyText.nl +:+ "by " +:+ PyText.str (author content)
  +:+ PyText.nl +:+ PyText.str (full_content content).

(** The sidebar: the ElevenLabs key is checked by a lookup of the
    remaining credits; the result is the key to go on with, if any. *)
Definition sidebar (w : world) (inp : inputs) (r : run) : bool * run :=
  let '(key_ok, r1) :=
    if String.eqb (elevenlabs_key inp) "" then (false, r)
    else
      let r1 := emit CheckCredits r in
      match credits w with
      | Some _ => (true, emit (StSuccess "ElevenLabs API key valid!") r1)
      | None => (false, emit (StError "Invalid ElevenLabs API key") r1)
      end in
  let r2 := if key_ok then r1
            else emit (StWarning "Please enter your ElevenLabs API key") r1 in
  let r3 := if String.eqb (hb_key inp) ""
            then emit (StWarning "Please enter your Hyperbrowser API key") r2 else r2 in
  (key_ok && negb (String.eqb (hb_key inp) ""), r3).

(** [main()], one script run. *)
Definition main (w : world) (inp : inputs) (r : run) : run :=
  let '(keys_ok, r1) := sidebar w inp r in
  if negb keys_ok then
    emit Stop
      (emit (StWarning "Please configure your API keys in the sidebar to use the application")
            r1)
  else
    let r2 :=
      if extract_clicked inp then
        if negb (String.eqb (url inp) "") then
          let r2 := emit (ExtractJob (url inp)) r1 in
          {| article_content := fst (extract_content (job w (url inp)));
             trace := trace r2 |}
        else emit (StWarning "Please enter a URL") r1
      else r1 in
    match article_content r2 with
    | None => r2
    | Some content =>
        let r3 := emit (StSuccess "Content extracted successfully!") r2 in
        if convert_clicked inp then
          let text := text_for_speech content in
          let r4 := emit (Generate text (voice inp) (model inp)) r3 in
          match generate w text with
          | Some audio => emit (Audio audio) r4
          | None => emit (StError "Error generating speech") r4
          end
        else r3
    end.
End ArticleApp.

(** ** More of the daytrip-planner *)

Module DaytripExtras.
Import ChatgptParser.

Section Description.
Context {char : Type}.
(** The three characters of ["..."]. *)
Variable ellipsis : list char.

(** [description[:300] + "..." if len(description) > 300 else description]
    in [get_place_details]; a string is its sequence of characters. *)
Definition shorten (description : list char) : list char :=
  if (300 <? Z.of_nat (length description))
  then PySeq.slice description 0 300 ++ ellipsis
  else description.
End Description.

(** The Google Flights link of a destination tab in [display_travel_data]. *)
Definition flights_link (destination : TravelDestination) (from_location : string)
  : string :=
  let start_date_cleaned := PyText.replace " " "%20" (start_date destination) in
  let end_date_cleaned := PyText.replace " " "%20" (end_date destination) in
  let location_cleaned := PyText.replace " " "%20" (location destination) in
  let from_location_cleaned := PyText.replace " " "%20" from_location in
  "https://www.google.com/travel/flights?q=Flights%20to%20" +:+ location_cleaned
  +:+ "%20from%20" +:+ from_location_cleaned
  +:+ "%20on%20" +:+ start_date_cleaned
  +:+ "%20through%20" +:+ end_date_cleaned.

Definition MAX_DAYS : nat := 2.

Section DayPlans.
(** [PlaceDetails] *)
Context {place : Type}.

(** [DayPlan] *)
Record DayPlan : Type := {
  day : Z;
  places : list place
}.

(** [get_place_details(page, url, True)]: the places found, none on an
    error. *)
Variable get_place_details : string -> list place.
(** [random.sample(places, k)] *)
Variable sample : list string -> nat -> list string.

(** [for place_day in range(len(selected_place_urls))], from [place_day]. *)
Fixpoint plan_days (place_day : nat) (selected_place_urls : list string)
  : list DayPlan :=
  match selected_place_urls with
  | [] => []
  | u :: rest =>
      match get_place_details u with
      | [] => plan_days (S place_day) rest
      | place_details =>
          {| day := Z.of_nat place_day + 1; places := place_details |}
          :: plan_days (S place_day) rest
      end
  end.

(** The end of [search_atlas_obscura], from the links of the cards found
    on the places page: [None] with an error when there is none. *)
Definition day_plans (cards : list string) : option (list DayPlan) :=
  match cards with
  | [] => None
  | _ => Some (plan_days 0 (sample cards (Nat.min MAX_DAYS (length cards))))
  end.
End DayPlans.
End DaytripExtras.

(** * Properties *)

Module PySeqFacts.
Section Slice.
Context {A : Type}.
Import PySeq.

Lemma slice_nonneg (l : list A) (start stop : Z) :
  0 <= start -> start <= stop -> stop <= Z.of_nat (length l) ->
  slice l start stop = take (Z.to_nat (stop - start)) (drop (Z.to_nat start) l).
Proof.
  intros H0 H1 H2. unfold slice, slice_bound.
  destruct (Z.ltb_spec start 0), (Z.ltb_spec stop 0); try lia.
  rewrite !Z.min_l by lia. reflexivity.
Qed.

Lemma take_drop_chunk (l : list A) (a b : nat) :
  take a l ++ take b (drop a l) = take (a + b) l.
Proof.
  revert l. induction a as [|a IH]; intros l; simpl.
  - now rewrite drop_0.
  - destruct l as [|x l]; simpl.
    + now rewrite take_nil.
    + now rewrite IH.
Qed.
End Slice.
End PySeqFacts.

Module PaginationFacts.
Section Pages.
Context {A : Type}.
Import Pagination.

Lemma num_pages_ceil (P N : Z) :
  0 < P -> (num_pages P N - 1) * P < N <= num_pages P N * P.
Proof.
  intros HP. unfold num_pages.
  pose proof (Z.div_mod (N + P - 1) P ltac:(lia)) as Hdm.
  pose proof (Z.mod_pos_bound (N + P - 1) P HP) as Hb.
  nia.
Qed.

Lemma num_pages_nonneg (P N : Z) : 0 < P -> 0 <= N -> 0 <= num_pages P N.
Proof. intros HP HN. unfold num_pages. apply Z.div_pos; lia. Qed.

Lemma page_slice_chunk (P : Z) (l : list A) (j : nat) :
  0 < P ->
  page_slice P l (Z.of_nat (S j)) =
  take (Z.to_nat P) (drop (j * Z.to_nat P) l).
Proof.
  intros HP. unfold page_slice, end_idx, start_idx.
  set (N := Z.of_nat (length l)).
  replace (Z.of_nat (S j) - 1) with (Z.of_nat j) by lia.
  assert (Hj : (j * Z.to_nat P)%nat = Z.to_nat (Z.of_nat j * P)) by nia.
  rewrite Hj.
  destruct (Z_lt_le_dec (Z.of_nat j * P) N) as [Hlt|Hge].
  - rewrite PySeqFacts.slice_nonneg by (subst N; lia).
    destruct (Z_le_gt_dec (Z.of_nat j * P + P) N) as [Hfit|Hcut].
    + rewrite Z.min_l by lia. f_equal. lia.
    + rewrite Z.min_r by lia.
      rewrite !take_ge; [reflexivity| |]; rewrite length_drop; subst N; lia.
  - unfold PySeq.slice, PySeq.slice_bound. fold N.
    destruct (Z.ltb_spec (Z.of_nat j * P) 0); [lia|].
    destruct (Z.ltb_spec (Z.min (Z.of_nat j * P + P) N) 0); [lia|].
    rewrite (Z.min_r (Z.of_nat j * P) N) by lia.
    rewrite (Z.min_r _ N) by lia.
    rewrite !drop_ge by (subst N; lia). now rewrite !take_nil.
Qed.

Lemma concat_pages_prefix (P : Z) (l : list A) (k : nat) :
  0 < P ->
  concat (map (page_slice P l) (map (fun i => Z.of_nat i) (seq 1 k))) =
  take (k * Z.to_nat P) l.
Proof.
  intros HP. induction k as [|k IH].
  - reflexivity.
  - rewrite seq_S, !map_app, concat_app, IH. simpl.
    rewrite app_nil_r, page_slice_chunk by assumption.
    rewrite PySeqFacts.take_drop_chunk. f_equal. lia.
Qed.
End Pages.
End PaginationFacts.

(** C1: for every page size [P > 0] and every record list of length [N],
    the page count [(N + P - 1) // P] is the ceiling of [N / P] (the least
    [k] with [N <= k * P]), and concatenating the slices
    [(page-1)*P, min(page*P, N)) for [page = 1 .. pageCount], in page order,
    gives back the original list: nothing is dropped or duplicated. *)
Theorem pagination_pages_cover_exactly_once
  (A : Type) (P : Z) (travel_data : list A) :
  0 < P ->
  ((Pagination.num_pages P (Z.of_nat (length travel_data)) - 1) * P
     < Z.of_nat (length travel_data)
     <= Pagination.num_pages P (Z.of_nat (length travel_data)) * P) /\
  concat (Pagination.all_pages P travel_data) = travel_data.
Proof.
  intros HP. set (N := Z.of_nat (length travel_data)). split.
  - apply PaginationFacts.num_pages_ceil, HP.
  - unfold Pagination.all_pages, Pagination.page_range. fold N.
    rewrite PaginationFacts.concat_pages_prefix by assumption.
    apply take_ge.
    pose proof (PaginationFacts.num_pages_ceil P N HP) as [_ Hup].
    pose proof (PaginationFacts.num_pages_nonneg P N HP ltac:(lia)) as Hnn.
    subst N. nia.
Qed.

Lemma pagination_pages_cover_exactly_once_witness :
  0 < 5 /\
  ((Pagination.num_pages 5 7 - 1) * 5 < 7 <= Pagination.num_pages 5 7 * 5) /\
  concat (Pagination.all_pages 5 [1; 2; 3; 4; 5; 6; 7]%nat) = [1; 2; 3; 4; 5; 6; 7]%nat.
Proof.
  split; [lia|].
  apply (pagination_pages_cover_exactly_once nat 5 [1; 2; 3; 4; 5; 6; 7]%nat).
  lia.
Defined.

(** ** The retry policy of [call_openai_api] *)

Module RetryFacts.
Import Tenacity ChangelogGenerator.

Lemma wait_exponential_bounds (attempt_number : Z) :
  2 <= wait call_openai_api_policy attempt_number <= 10.
Proof. simpl. unfold wait_exponential. lia. Qed.

Lemma wait_exponential_value (attempt_number : Z) :
  wait call_openai_api_policy attempt_number
  = Z.max 2 (Z.min (2 ^ (attempt_number - 1)) 10).
Proof.
  simpl. unfold wait_exponential. rewrite Z.mul_1_l. reflexivity.
Qed.

(** The loop of [call_openai_api], unrolled. *)
Lemma call_openai_api_unfold (api : Z -> outcome string) :
  call_openai_api api =
  match api 1 with
  | Returned r => Some {| result := Return r; attempts := 1; sleeps := [] |}
  | Raised _ =>
      match api 2 with
      | Returned r => Some {| result := Return r; attempts := 2; sleeps := [2] |}
      | Raised _ =>
          match api 3 with
          | Returned r =>
              Some {| result := Return r; attempts := 3; sleeps := [2; 2] |}
          | Raised e =>
              Some {| result := RetryError e; attempts := 3; sleeps := [2; 2] |}
          end
      end
  end.
Proof. reflexivity. Qed.

(** Three iterations always reach a result. *)
Lemma call_openai_api_total (api : Z -> outcome string) :
  exists rep, call_openai_api api = Some rep /\
              1 <= attempts rep <= 3 /\
              Z.of_nat (length (sleeps rep)) = attempts rep - 1 /\
              Forall (fun d => 2 <= d <= 10) (sleeps rep).
Proof.
  rewrite call_openai_api_unfold.
  destruct (api 1) as [r1|e1]; [|destruct (api 2) as [r2|e2];
                                  [|destruct (api 3) as [r3|e3]]].
  all: eexists; (split; [reflexivity|]); simpl; repeat split; try lia.
  all: repeat constructor; lia.
Qed.

(** More fuel does not change the result. *)
Lemma call_openai_api_fuel_enough (api : Z -> outcome string) (extra : nat) :
  call_openai_api_fuel (3 + extra) api = call_openai_api api.
Proof.
  unfold call_openai_api, call_openai_api_fuel.
  change (3 + extra)%nat with (S (S (S extra))).
  cbn [attempt_loop].
  destruct (api 1); [reflexivity|]. cbn.
  change (api (1 + 1)) with (api 2). destruct (api 2); [reflexivity|]. cbn.
  change (api (1 + 1 + 1)) with (api 3). destruct (api 3); reflexivity.
Qed.
End RetryFacts.

(** C3 (as stated, refuted): an [InvalidRequestError] on the first attempt
    is not let through after one attempt; the request is attempted again,
    and the second attempt's result is returned. *)
Lemma call_openai_api_retries_invalid_request :
  let api := ChangelogGenerator.scripted
               [Tenacity.Raised Tenacity.InvalidRequestError;
                Tenacity.Returned "changelog"] in
  ChangelogGenerator.call_openai_api api
    = Some {| Tenacity.result := Tenacity.Return "changelog";
              Tenacity.attempts := 2; Tenacity.sleeps := [2] |} /\
  ~ (exists rep, ChangelogGenerator.call_openai_api api = Some rep /\
                 Tenacity.attempts rep = 1).
Proof.
  split; [reflexivity|].
  intros [rep [H1 H2]]. vm_compute in H1. inversion H1; subst. discriminate H2.
Qed.

(** C3 (amended): [call_openai_api] retries after every exception, whatever
    its kind; it makes at most 3 attempts and sleeps between the attempts
    for [max(2, min(2^(n-1), 10))] seconds after attempt [n], between 2 and
    10 seconds; a call that fails twice and then succeeds returns the
    result after exactly 3 attempts; a call that fails on all 3 attempts
    raises [RetryError] around the last exception to the caller. *)
Theorem call_openai_api_retry_policy (api : Z -> Tenacity.outcome string) :
  (exists rep, ChangelogGenerator.call_openai_api api = Some rep /\
               1 <= Tenacity.attempts rep <= 3 /\
               Z.of_nat (length (Tenacity.sleeps rep)) = Tenacity.attempts rep - 1 /\
               Forall (fun d => 2 <= d <= 10) (Tenacity.sleeps rep)) /\
  (forall n, Tenacity.wait ChangelogGenerator.call_openai_api_policy n
             = Z.max 2 (Z.min (2 ^ (n - 1)) 10)) /\
  (forall e1 r, api 1 = Tenacity.Raised e1 -> api 2 = Tenacity.Returned r ->
     ChangelogGenerator.call_openai_api api
       = Some {| Tenacity.result := Tenacity.Return r;
                 Tenacity.attempts := 2; Tenacity.sleeps := [2] |}) /\
  (forall e1 e2 r, api 1 = Tenacity.Raised e1 -> api 2 = Tenacity.Raised e2 ->
                   api 3 = Tenacity.Returned r ->
     ChangelogGenerator.call_openai_api api
       = Some {| Tenacity.result := Tenacity.Return r;
                 Tenacity.attempts := 3; Tenacity.sleeps := [2; 2] |}) /\
  (forall e1 e2 e3, api 1 = Tenacity.Raised e1 -> api 2 = Tenacity.Raised e2 ->
                    api 3 = Tenacity.Raised e3 ->
     ChangelogGenerator.call_openai_api api
       = Some {| Tenacity.result := Tenacity.RetryError e3;
                 Tenacity.attempts := 3; Tenacity.sleeps := [2; 2] |}).
Proof.
  split; [apply RetryFacts.call_openai_api_total|].
  split; [apply RetryFacts.wait_exponential_value|].
  rewrite RetryFacts.call_openai_api_unfold.
  repeat split.
  - intros e1 r H1 H2. rewrite H1, H2. reflexivity.
  - intros e1 e2 r H1 H2 H3. rewrite H1, H2, H3. reflexivity.
  - intros e1 e2 e3 H1 H2 H3. rewrite H1, H2, H3. reflexivity.
Qed.

Lemma call_openai_api_retry_policy_witness :
  ChangelogGenerator.call_openai_api
    (ChangelogGenerator.scripted
       [Tenacity.Raised Tenacity.TransientServiceError;
        Tenacity.Raised Tenacity.InvalidRequestError;
        Tenacity.Returned "changelog"])
  = Some {| Tenacity.result := Tenacity.Return "changelog";
            Tenacity.attempts := 3; Tenacity.sleeps := [2; 2] |}.
Proof.
  apply (proj1 (proj2 (proj2 (proj2
           (call_openai_api_retry_policy
              (ChangelogGenerator.scripted
                 [Tenacity.Raised Tenacity.TransientServiceError;
                  Tenacity.Raised Tenacity.InvalidRequestError;
                  Tenacity.Returned "changelog"])))))
         Tenacity.TransientServiceError Tenacity.InvalidRequestError "changelog");
    reflexivity.
Defined.

(** ** Commit categorisation *)

Module CategorizeFacts.
Import ChangelogGenerator.

Lemma section_of_append_same k commit acc :
  section_of k (append_to k commit acc) = section_of k acc ++ [commit].
Proof. destruct k; reflexivity. Qed.

Lemma section_of_append_other k k' commit acc :
  k <> k' -> section_of k (append_to k' commit acc) = section_of k acc.
Proof. intros Hne. destruct k, k'; try reflexivity; contradiction. Qed.

(** The loop keeps, for every category, the commits of that category in
    input order. *)
Lemma categorize_loop_sections commits : forall acc cats,
  categorize_loop commits acc = Some cats ->
  forall k, section_of k cats = section_of k acc ++ filter (in_category k) commits.
Proof.
  induction commits as [|c rest IH]; intros acc cats Hrun k; simpl in Hrun.
  - inversion Hrun; subst. now rewrite app_nil_r.
  - destruct (category_of c) as [kc|] eqn:Hc; simpl in Hrun; [|discriminate].
    rewrite (IH _ _ Hrun k).
    destruct (decide (k = kc)) as [->|Hne].
    + rewrite section_of_append_same, filter_cons_True by exact Hc.
      now rewrite <- app_assoc.
    + rewrite section_of_append_other by exact Hne.
      rewrite filter_cons_False; [reflexivity|].
      unfold in_category. rewrite Hc. congruence.
Qed.

Lemma categorize_loop_total commits : forall acc,
  Forall (fun c => is_Some (category_of c)) commits ->
  is_Some (categorize_loop commits acc).
Proof.
  induction commits as [|c rest IH]; intros acc Hall; simpl.
  - eauto.
  - inversion Hall as [|? ? [k Hk] Hrest]; subst. rewrite Hk. simpl.
    apply IH, Hrest.
Qed.

Lemma perm_insert {A : Type} (x : A) (l1 l2 l : list A) :
  Permutation (l1 ++ l2) l -> Permutation (l1 ++ x :: l2) (x :: l).
Proof. intros H. symmetry. apply Permutation_cons_app. now symmetry. Qed.

(** The six filters split the list. *)
Lemma filters_partition (commits : list dict) :
  Forall (fun c => is_Some (category_of c)) commits ->
  Permutation
    (filter (in_category Features) commits ++
     filter (in_category BugFixes) commits ++
     filter (in_category Documentation) commits ++
     filter (in_category Refactoring) commits ++
     filter (in_category Tests) commits ++
     filter (in_category OtherChanges) commits)
    commits.
Proof.
  induction 1 as [|c rest [k Hk] _ IH]; [reflexivity|].
  assert (Hother : forall k', k' <> k -> ~ in_category k' c).
  { intros k' Hne Hin. unfold in_category in Hin. congruence. }
  destruct k;
    rewrite (filter_cons_True (in_category _) c rest Hk);
    rewrite ?(filter_cons_False (in_category _) c rest) by (apply Hother; discriminate).
  all: set (F := filter (in_category Features) rest) in *.
  all: set (B := filter (in_category BugFixes) rest) in *.
  all: set (D := filter (in_category Documentation) rest) in *.
  all: set (R := filter (in_category Refactoring) rest) in *.
  all: set (T := filter (in_category Tests) rest) in *.
  all: set (O := filter (in_category OtherChanges) rest) in *.
  - apply (perm_insert c [] _ rest IH).
  - apply (perm_insert c F _ rest IH).
  - rewrite (app_assoc F B). apply (perm_insert c (F ++ B)).
    now rewrite <- app_assoc.
  - rewrite (app_assoc F B), (app_assoc (F ++ B) D).
    apply (perm_insert c ((F ++ B) ++ D)).
    now rewrite <- !app_assoc.
  - rewrite (app_assoc F B), (app_assoc (F ++ B) D), (app_assoc ((F ++ B) ++ D) R).
    apply (perm_insert c (((F ++ B) ++ D) ++ R)).
    now rewrite <- !app_assoc.
  - rewrite (app_assoc F B), (app_assoc (F ++ B) D), (app_assoc ((F ++ B) ++ D) R),
      (app_assoc (((F ++ B) ++ D) ++ R) T).
    apply (perm_insert c ((((F ++ B) ++ D) ++ R) ++ T)).
    now rewrite <- !app_assoc.
Qed.
End CategorizeFacts.

(** C9: the categorisation loop partitions the commits.  When every
    commit's message is a string (or absent), the loop ends with six lists;
    the list of a category holds, in input order, exactly the commits whose
    lower-cased message first matches that category in the order Features,
    Bug Fixes, Documentation, Refactoring, Tests, Other Changes; a commit
    of the input is in the list of one category only; and the six lists
    together are a rearrangement of the input, each commit once. *)
Theorem categorized_commits_partition (commits : list dict) :
  Forall (fun c => is_Some (ChangelogGenerator.category_of c)) commits ->
  exists cats,
    ChangelogGenerator.categorize_commits commits = Some cats /\
    (forall k, ChangelogGenerator.section_of k cats
               = filter (ChangelogGenerator.in_category k) commits) /\
    (forall c, c ∈ commits ->
       exists k, c ∈ ChangelogGenerator.section_of k cats /\
                 forall k', c ∈ ChangelogGenerator.section_of k' cats -> k' = k) /\
    Permutation (concat (ChangelogGenerator.sections cats)) commits /\
    (forall c message,
       PyDict.get c "message" (VStr "") = VStr message ->
       let m := PyStr.lower message in
       ChangelogGenerator.category_of c = Some
         (if PyStr.any_in ["feat"; "feature"; "add"; "new"] m
          then ChangelogGenerator.Features
          else if PyStr.any_in ["fix"; "bug"; "issue"; "error"; "resolv"] m
          then ChangelogGenerator.BugFixes
          else if PyStr.any_in ["doc"; "readme"; "comment"] m
          then ChangelogGenerator.Documentation
          else if PyStr.any_in ["refactor"; "clean"; "restructure"] m
          then ChangelogGenerator.Refactoring
          else if PyStr.any_in ["test"; "spec"; "assert"] m
          then ChangelogGenerator.Tests
          else ChangelogGenerator.OtherChanges)).
Proof.
  intros Hall.
  destruct (CategorizeFacts.categorize_loop_total commits
              ChangelogGenerator.no_commits Hall) as [cats Hrun].
  assert (Hsec : forall k, ChangelogGenerator.section_of k cats
                           = filter (ChangelogGenerator.in_category k) commits).
  { intros k.
    rewrite (CategorizeFacts.categorize_loop_sections _ _ _ Hrun k).
    destruct k; reflexivity. }
  exists cats. split; [exact Hrun|]. split; [exact Hsec|]. split; [|split].
  - intros c Hc.
    rewrite Forall_forall in Hall. destruct (Hall c Hc) as [k Hk].
    exists k. split.
    + rewrite Hsec. apply list_elem_of_filter. split; [exact Hk|exact Hc].
    + intros k' Hin. rewrite Hsec in Hin. apply list_elem_of_filter in Hin.
      destruct Hin as [Hk' _]. unfold ChangelogGenerator.in_category in Hk'.
      congruence.
  - unfold ChangelogGenerator.sections. simpl. rewrite app_nil_r.
    change (ChangelogGenerator.feature_commits cats)
      with (ChangelogGenerator.section_of ChangelogGenerator.Features cats).
    change (ChangelogGenerator.bugfix_commits cats)
      with (ChangelogGenerator.section_of ChangelogGenerator.BugFixes cats).
    change (ChangelogGenerator.docs_commits cats)
      with (ChangelogGenerator.section_of ChangelogGenerator.Documentation cats).
    change (ChangelogGenerator.refactor_commits cats)
      with (ChangelogGenerator.section_of ChangelogGenerator.Refactoring cats).
    change (ChangelogGenerator.test_commits cats)
      with (ChangelogGenerator.section_of ChangelogGenerator.Tests cats).
    change (ChangelogGenerator.other_commits cats)
      with (ChangelogGenerator.section_of ChangelogGenerator.OtherChanges cats).
    rewrite !Hsec. apply CategorizeFacts.filters_partition, Hall.
  - intros c message Hmsg m. unfold ChangelogGenerator.category_of.
    rewrite Hmsg. reflexivity.
Qed.

Lemma categorized_commits_partition_witness :
  let commits : list dict :=
    [ {[ "message" := VStr "Add fix for the login form" ]};
      {[ "message" := VStr "Fix typo" ]};
      {[ "committer_name" := VStr "dev" ]} ] in
  Forall (fun c => is_Some (ChangelogGenerator.category_of c)) commits /\
  exists cats,
    ChangelogGenerator.categorize_commits commits = Some cats /\
    ChangelogGenerator.feature_commits cats
      = [ {[ "message" := VStr "Add fix for the login form" ]} ] /\
    ChangelogGenerator.bugfix_commits cats = [ {[ "message" := VStr "Fix typo" ]} ] /\
    Permutation (concat (ChangelogGenerator.sections cats)) commits.
Proof.
  intros commits.
  assert (Hall : Forall (fun c => is_Some (ChangelogGenerator.category_of c)) commits).
  { repeat constructor; vm_compute; eauto. }
  split; [exact Hall|].
  destruct (categorized_commits_partition commits Hall)
    as [cats [Hrun [Hsec [_ [Hperm _]]]]].
  exists cats. split; [exact Hrun|].
  split; [|split; [|exact Hperm]].
  - vm_compute in Hrun. inversion Hrun. reflexivity.
  - vm_compute in Hrun. inversion Hrun. reflexivity.
Defined.

(** ** Location validation *)

Module ValidatorFacts.
Import LocationValidator.

Lemma field_lower_cons first rest key :
  field_lower (first :: rest) key
  = PyStr.lower <$> PyDict.as_str (PyDict.get first key (VStr "")).
Proof.
  unfold field_lower. simpl.
  destruct (PyDict.as_str (PyDict.get first key (VStr ""))); reflexivity.
Qed.

(** An empty result list gives [False]: [data[0]] raises in the second
    operand of [or], and the exception is caught. *)
Lemma city_condition_nil city_name : city_condition city_name [] = None.
Proof. reflexivity. Qed.

Lemma as_str_Some v s : PyDict.as_str v = Some s <-> v = VStr s.
Proof. destruct v; simpl; split; intros H; inversion H; reflexivity. Qed.
(** The name is compared on the "town" branch only. *)
Example city_branch_ignores_the_name :
  validate_city
    (fun _ => Some [ <["addresstype" := VStr "city"]>
                     {[ "display_name" := VStr "Springfield, Illinois" ]} ])
    "Spring" = true.
Proof. reflexivity. Qed.

Example town_branch_compares_the_name :
  validate_city
    (fun _ => Some [ <["addresstype" := VStr "town"]>
                     {[ "display_name" := VStr "Springfield, Illinois" ]} ])
    "Springfield" = false /\
  validate_city
    (fun _ => Some [ <["addresstype" := VStr "town"]>
                     {[ "display_name" := VStr "Springfield" ]} ])
    "springfield" = true.
Proof. split; reflexivity. Qed.

Example empty_result_is_rejected :
  validate_city (fun _ => Some []) "Qwxzzznotacity" = false.
Proof. reflexivity. Qed.
End ValidatorFacts.



(** ** The travel-data parser *)

Module ParserFacts.
Import ChatgptParser.

Section Validation.
Variable conv : string -> option Z.

(** A typed record survives the trip through JSON. *)
Lemma validate_to_json (t : TravelDestination) :
  validate_destination conv (to_json t) = Some t.
Proof. destruct t. reflexivity. Qed.

Lemma mapM_to_json (ts : list TravelDestination) :
  mapM (validate_destination conv) (map to_json ts) = Some ts.
Proof.
  apply mapM_Some. induction ts as [|t ts IH]; constructor.
  - apply validate_to_json.
  - exact IH.
Qed.

Lemma field_error_nil {A : Type} (d : dict) name (parsed : option A) :
  field_error d name parsed = [] -> is_Some parsed.
Proof.
  unfold field_error. destruct (d !! name), parsed; try discriminate. eauto.
Qed.

(** A record that does not validate has an error to report. *)
Lemma invalid_has_errors (d : dict) :
  validate_destination conv d = None -> destination_errors conv d <> [].
Proof.
  intros Hnone Herr. unfold destination_errors in Herr.
  repeat (apply app_eq_nil in Herr; destruct Herr as [?%field_error_nil Herr]).
  apply field_error_nil in Herr.
  unfold validate_destination in Hnone.
  repeat match goal with H : is_Some _ |- _ => destruct H as [? H]; rewrite H in Hnone end.
  discriminate Hnone.
Qed.

(** Every error names a field of the record it was found in. *)
Lemma invalid_record_errors (raw : list dict) :
  Exists (fun d => validate_destination conv d = None) raw ->
  concat (map (destination_errors conv) raw) <> [].
Proof.
  induction 1 as [d rest Hd|d rest _ IH]; simpl; intros Hnil;
    apply app_eq_nil in Hnil; destruct Hnil as [H1 H2].
  - exact (invalid_has_errors d Hd H1).
  - exact (IH H2).
Qed.

(** A record is validated field by field: the four texts must be
    strings, the two numbers values that read as integers. *)
Lemma validate_destination_Some (d : dict) (t : TravelDestination) :
  validate_destination conv d = Some t <->
  d !! "location" = Some (VStr (location t)) /\
  d !! "start_date" = Some (VStr (start_date t)) /\
  d !! "end_date" = Some (VStr (end_date t)) /\
  d !! "travel_time" = Some (VStr (travel_time t)) /\
  (exists v, d !! "price" = Some v /\ as_int conv v = Some (price t)) /\
  (exists v, d !! "stay_cost" = Some v /\ as_int conv v = Some (stay_cost t)).
Proof.
  unfold validate_destination, str_field, int_field. split.
  - intros H.
    destruct (d !! "location") as [[| | |l]|]; try discriminate H.
    destruct (d !! "price") as [vp|]; [|discriminate H]. simpl in H.
    destruct (as_int conv vp) as [p|] eqn:Hp; [|discriminate H]. simpl in H.
    destruct (d !! "start_date") as [[| | |sd]|]; try discriminate H.
    destruct (d !! "end_date") as [[| | |ed]|]; try discriminate H.
    destruct (d !! "travel_time") as [[| | |tt]|]; try discriminate H.
    destruct (d !! "stay_cost") as [vs|]; [|discriminate H]. simpl in H.
    destruct (as_int conv vs) as [sc|] eqn:Hs; [|discriminate H]. simpl in H.
    injection H as <-. simpl. eauto 10.
  - intros (-> & -> & -> & -> & (vp & -> & Hp) & (vs & -> & Hs)). simpl.
    rewrite Hp. simpl. rewrite Hs. simpl. destruct t. reflexivity.
Qed.

(** What makes pydantic refuse a record. *)
Lemma validate_destination_refused (d : dict) :
  (exists k, k ∈ ["location"; "price"; "start_date"; "end_date"; "travel_time";
                  "stay_cost"]%string /\
             (d !! k = None \/ d !! k = Some VNone)) \/
  (exists k v, k ∈ ["location"; "start_date"; "end_date"; "travel_time"]%string /\
               d !! k = Some v /\ forall s, v <> VStr s) \/
  (exists k s, k ∈ ["price"; "stay_cost"]%string /\
               d !! k = Some (VStr s) /\ conv s = None) ->
  validate_destination conv d = None.
Proof.
  intros Hbad.
  destruct (validate_destination conv d) as [t|] eqn:Hv; [|reflexivity].
  exfalso. apply validate_destination_Some in Hv.
  destruct Hv as (Hl & Hsd & Hed & Htt & (vp & Hp & Hpi) & (vs & Hs & Hsi)).
  destruct Hbad as [(k & Hk & Hnone)|[(k & v & Hk & Hv & Hns)|(k & s & Hk & Hv & Hc)]].
  - repeat (apply elem_of_cons in Hk as [->|Hk]);
      try (destruct Hnone as [H|H]; congruence);
      try (destruct Hnone as [H|H]; rewrite H in *; try discriminate;
           match goal with H' : Some VNone = Some _ |- _ => injection H' as <- end;
           discriminate).
    inversion Hk.
  - repeat (apply elem_of_cons in Hk as [->|Hk]);
      try (rewrite Hv in *;
           match goal with H' : Some v = Some (VStr ?x) |- _ =>
             injection H' as ->; exact (Hns x eq_refl) end).
    inversion Hk.
  - repeat (apply elem_of_cons in Hk as [->|Hk]);
      try (rewrite Hv in *;
           match goal with H' : Some (VStr s) = Some _ |- _ => injection H' as <- end;
           simpl in *; congruence).
    inversion Hk.
Qed.
End Validation.

Lemma extract_ready env image_path destinations :
  ready env image_path destinations ->
  extract_travel_data_from_image env image_path =
  match validate_response (str_as_int env) destinations with
  | inl errors => ExtractReturned None [SchemaViolation errors]
  | inr ds => ExtractReturned (Some ds) []
  end.
Proof.
  intros [Hkey (image & Hread & Hreply)].
  unfold extract_travel_data_from_image.
  destruct (openai_api_key env) as [[|c k]|]; try discriminate Hkey.
  rewrite Hread, Hreply. reflexivity.
Qed.
End ParserFacts.

(** C5 (as stated, refuted): with one valid record and one record that
    lacks the required field [price], the valid record is not returned:
    the function prints the violation and returns [None] for the whole
    reply. *)
Lemma extract_rejects_whole_reply :
  let madrid := {| ChatgptParser.location := "Madrid"; ChatgptParser.price := 120;
                   ChatgptParser.start_date := "2025-06-14";
                   ChatgptParser.end_date := "2025-06-15";
                   ChatgptParser.travel_time := "2h 30m";
                   ChatgptParser.stay_cost := 90 |} in
  let no_price : dict := delete "price" (ChatgptParser.to_json madrid) in
  let env := {| ChatgptParser.openai_api_key := Some "sk-test";
                ChatgptParser.read_image := fun _ => Some "png";
                ChatgptParser.completions_parse := fun _ =>
                  ChatgptParser.ApiContent
                    (Some [ChatgptParser.to_json madrid; no_price]);
                ChatgptParser.str_as_int := Scenario.numeral |} in
  no_price !! "price" = None /\
  ChatgptParser.extract_travel_data_from_image env "shot.png"
    = ChatgptParser.ExtractReturned None
        [ChatgptParser.SchemaViolation [ChatgptParser.Missing "price"]] /\
  ~ (exists printed,
       ChatgptParser.extract_travel_data_from_image env "shot.png"
       = ChatgptParser.ExtractReturned (Some [madrid]) printed).
Proof.
  intros madrid no_price env.
  assert (Hrun : ChatgptParser.extract_travel_data_from_image env "shot.png"
                 = ChatgptParser.ExtractReturned None
                     [ChatgptParser.SchemaViolation [ChatgptParser.Missing "price"]])
    by (vm_compute; reflexivity).
  split; [reflexivity|]. split; [exact Hrun|].
  intros [printed H]. rewrite Hrun in H. discriminate H.
Qed.

(** C5 (amended): the reply is validated as a whole, by pydantic in its
    lax mode.  When the request is made and answers with a list of raw
    records: if every record has its four texts as strings and its two
    numbers as values that read as integers (an integer, a boolean, or a
    string pydantic reads as an integer), the records are returned in
    order with these values, and nothing is printed; typed records sent
    as JSON come back unchanged.  If any record has a required field
    missing or [null], a text that is not a string, or a number given as a
    string that does not read as an integer, no record at all is returned
    ([None]) and the violation is printed with a non-empty list of field
    errors.  No partial record is ever returned: what is returned matches
    the reply record by record. *)
Theorem extract_validates_whole_reply
  (env : ChatgptParser.parser_env) (image_path : string) (raw : list dict) :
  ChatgptParser.ready env image_path (Some raw) ->
  let result := ChatgptParser.extract_travel_data_from_image env image_path in
  let reads (v : value) (z : Z) : Prop :=
    v = VInt z \/ (v = VBool true /\ z = 1) \/ (v = VBool false /\ z = 0) \/
    exists s, v = VStr s /\ ChatgptParser.str_as_int env s = Some z in
  let carries (d : dict) (t : ChatgptParser.TravelDestination) : Prop :=
    d !! "location" = Some (VStr (ChatgptParser.location t)) /\
    d !! "start_date" = Some (VStr (ChatgptParser.start_date t)) /\
    d !! "end_date" = Some (VStr (ChatgptParser.end_date t)) /\
    d !! "travel_time" = Some (VStr (ChatgptParser.travel_time t)) /\
    (exists v, d !! "price" = Some v /\ reads v (ChatgptParser.price t)) /\
    (exists v, d !! "stay_cost" = Some v /\ reads v (ChatgptParser.stay_cost t)) in
  let refused (d : dict) : Prop :=
    (exists k, k ∈ ["location"; "price"; "start_date"; "end_date"; "travel_time";
                    "stay_cost"]%string /\
               (d !! k = None \/ d !! k = Some VNone)) \/
    (exists k v, k ∈ ["location"; "start_date"; "end_date"; "travel_time"]%string /\
                 d !! k = Some v /\ forall s, v <> VStr s) \/
    (exists k s, k ∈ ["price"; "stay_cost"]%string /\
                 d !! k = Some (VStr s) /\ ChatgptParser.str_as_int env s = None) in
  (forall ds, Forall2 carries raw ds ->
              result = ChatgptParser.ExtractReturned (Some ds) []) /\
  (forall ts, raw = map ChatgptParser.to_json ts ->
              result = ChatgptParser.ExtractReturned (Some ts) []) /\
  (Exists refused raw ->
   exists errors,
     result = ChatgptParser.ExtractReturned None [ChatgptParser.SchemaViolation errors] /\
     errors <> []) /\
  (forall ds printed,
     result = ChatgptParser.ExtractReturned (Some ds) printed ->
     printed = [] /\ Forall2 carries raw ds).
Proof.
  intros Hready result reads carries refused. subst result.
  rewrite (ParserFacts.extract_ready env image_path (Some raw) Hready).
  unfold ChatgptParser.validate_response.
  set (conv := ChatgptParser.str_as_int env) in *.
  assert (Hreads : forall v z, reads v z <-> ChatgptParser.as_int conv v = Some z).
  { intros v z. subst reads. simpl. split.
    - intros [->|[[-> ->]|[[-> ->]|(s & -> & Hs)]]]; simpl; auto.
    - destruct v as [|[|]|z'|s]; simpl; intros H; try discriminate H.
      + injection H as <-. auto.
      + injection H as <-. auto.
      + injection H as <-. auto.
      + right. right. right. eauto. }
  assert (Hcarries : forall d t,
            carries d t <-> ChatgptParser.validate_destination conv d = Some t).
  { intros d t. rewrite ParserFacts.validate_destination_Some. subst carries. simpl.
    split; intros (H1 & H2 & H3 & H4 & (vp & Hp & Hpr) & (vs & Hs & Hsr));
      (split; [exact H1|]; split; [exact H2|]; split; [exact H3|];
       split; [exact H4|]; split; [exists vp|exists vs]);
      (split; [assumption|]); apply Hreads; assumption. }
  assert (Hall : forall ds,
            Forall2 carries raw ds <->
            mapM (ChatgptParser.validate_destination conv) raw = Some ds).
  { intros ds. rewrite mapM_Some. split; intros H;
      (eapply Forall2_impl; [exact H|]); intros d t; apply Hcarries. }
  split; [|split; [|split]].
  - intros ds Hds. apply Hall in Hds. rewrite Hds. reflexivity.
  - intros ts ->. now rewrite ParserFacts.mapM_to_json.
  - intros Hex.
    assert (Hnone : Exists (fun d => ChatgptParser.validate_destination conv d = None) raw).
    { eapply Exists_impl; [exact Hex|]. intros d Hd.
      apply ParserFacts.validate_destination_refused. exact Hd. }
    destruct (mapM (ChatgptParser.validate_destination conv) raw) as [ds|] eqn:Hm.
    + exfalso. apply mapM_Some in Hm. apply Exists_exists in Hnone.
      destruct Hnone as (d & Hin & Hd).
      apply list_elem_of_lookup in Hin. destruct Hin as [i Hi].
      destruct (Forall2_lookup_l _ _ _ _ _ Hm Hi) as (t & _ & Ht). congruence.
    + eexists. split; [reflexivity|]. now apply ParserFacts.invalid_record_errors.
  - intros ds printed Hres.
    destruct (mapM (ChatgptParser.validate_destination conv) raw) as [ds'|] eqn:Hm;
      inversion Hres; subst. split; [reflexivity|]. now apply Hall.
Qed.

Lemma extract_validates_whole_reply_witness :
  let madrid := {| ChatgptParser.location := "Madrid"; ChatgptParser.price := 120;
                   ChatgptParser.start_date := "2025-06-14";
                   ChatgptParser.end_date := "2025-06-15";
                   ChatgptParser.travel_time := "2h 30m";
                   ChatgptParser.stay_cost := 90 |} in
  let porto := {| ChatgptParser.location := "Porto"; ChatgptParser.price := 85;
                  ChatgptParser.start_date := "2025-06-21";
                  ChatgptParser.end_date := "2025-06-22";
                  ChatgptParser.travel_time := "1h 10m";
                  ChatgptParser.stay_cost := 70 |} in
  let raw := map ChatgptParser.to_json [madrid; porto] in
  let env := {| ChatgptParser.openai_api_key := Some "sk-test";
                ChatgptParser.read_image := fun _ => Some "png";
                ChatgptParser.completions_parse := fun _ =>
                  ChatgptParser.ApiContent (Some raw);
                ChatgptParser.str_as_int := Scenario.numeral |} in
  ChatgptParser.ready env "shot.png" (Some raw) /\
  ChatgptParser.extract_travel_data_from_image env "shot.png"
    = ChatgptParser.ExtractReturned (Some [madrid; porto]) [].
Proof.
  intros madrid porto raw env.
  assert (Hready : ChatgptParser.ready env "shot.png" (Some raw)).
  { split; [reflexivity|]. exists "png". split; reflexivity. }
  split; [exact Hready|].
  apply (proj1 (proj2 (extract_validates_whole_reply env "shot.png" raw Hready))
         [madrid; porto]).
  reflexivity.
Defined.

(** A price sent as the string ["85"], and one sent as [true], are read
    as the integers 85 and 1; the record is returned. *)
Example extract_reads_numeric_strings :
  let porto := {| ChatgptParser.location := "Porto"; ChatgptParser.price := 85;
                  ChatgptParser.start_date := "2025-06-21";
                  ChatgptParser.end_date := "2025-06-22";
                  ChatgptParser.travel_time := "1h 10m";
                  ChatgptParser.stay_cost := 1 |} in
  let raw := [ <["price" := VStr "85"]>
               (<["stay_cost" := VBool true]> (ChatgptParser.to_json porto)) ] in
  let env := Scenario.parser_with (ChatgptParser.ApiContent (Some raw)) in
  Scenario.numeral "85" = Some 85 /\
  ChatgptParser.extract_travel_data_from_image env "shot.png"
    = ChatgptParser.ExtractReturned (Some [porto]) [].
Proof. split; vm_compute; reflexivity. Qed.

(** ** The article mapper *)

(** C6 (as stated, refuted): a payload without [title] does not make the
    mapper fail; it yields a record whose title is the empty string. *)
Lemma from_json_defaults_missing_title :
  let payload : dict := {[ "fullContent" := VStr "Body of the article" ]} in
  payload !! "title" = None /\
  ArticleTts.from_json (Some payload)
    = ArticleTts.Mapped {| ArticleTts.title := VStr "";
                           ArticleTts.full_content := VStr "Body of the article";
                           ArticleTts.author := VNone;
                           ArticleTts.abstract := VNone |} /\
  ~ (exists msg, ArticleTts.from_json (Some payload) = ArticleTts.MapperRaised msg).
Proof.
  intros payload. split; [reflexivity|]. split; [reflexivity|].
  intros [msg H]. discriminate H.
Qed.

(** C6 (amended): on every payload the mapper produces a record and does
    not fail; a field that is present is carried over with exactly its
    value; a missing [title] or [fullContent] becomes the empty string and
    a missing [author] or [abstract] becomes [None]; [extract_content]
    returns that record. *)
Theorem from_json_carries_or_defaults (payload : dict) :
  exists article,
    ArticleTts.from_json (Some payload) = ArticleTts.Mapped article /\
    ArticleTts.extract_content (ArticleTts.JobDone (Some payload)) = (Some article, []) /\
    (forall v, payload !! "title" = Some v -> ArticleTts.title article = v) /\
    (forall v, payload !! "fullContent" = Some v -> ArticleTts.full_content article = v) /\
    (forall v, payload !! "author" = Some v -> ArticleTts.author article = v) /\
    (forall v, payload !! "abstract" = Some v -> ArticleTts.abstract article = v) /\
    (payload !! "title" = None -> ArticleTts.title article = VStr "") /\
    (payload !! "fullContent" = None -> ArticleTts.full_content article = VStr "") /\
    (payload !! "author" = None -> ArticleTts.author article = VNone) /\
    (payload !! "abstract" = None -> ArticleTts.abstract article = VNone).
Proof.
  eexists. split; [reflexivity|]. split; [reflexivity|].
  unfold PyDict.get; simpl.
  repeat split; intros; simpl;
    match goal with H : _ !! _ = _ |- _ => rewrite H end; reflexivity.
Qed.

Lemma from_json_carries_or_defaults_witness :
  let payload : dict :=
    <["title" := VStr "A title"]> {[ "fullContent" := VStr "Body of the article" ]} in
  payload !! "title" = Some (VStr "A title") /\
  exists article,
    ArticleTts.from_json (Some payload) = ArticleTts.Mapped article /\
    ArticleTts.title article = VStr "A title".
Proof.
  intros payload.
  assert (Ht : payload !! "title" = Some (VStr "A title")) by reflexivity.
  split; [exact Ht|].
  destruct (from_json_carries_or_defaults payload) as [article [Hmap [_ [Htitle _]]]].
  exists article. split; [exact Hmap|]. exact (Htitle _ Ht).
Defined.

(** ** Screenshot processing *)

Module ScreenshotFacts.
Import Screenshot.

Lemma image_open_Some fs path img :
  image_open fs path = Some img <-> fs !! path = Some (ImageFile img).
Proof.
  unfold image_open. destruct (fs !! path) as [[|i]|]; split; intros H;
    inversion H; reflexivity.
Qed.

(** The new temporary file never takes the name of an existing file. *)
Lemma temporary_name_fresh (fs : files) path f :
  fs !! path = Some f -> fresh (dom fs) <> path.
Proof.
  intros Hpath Heq.
  apply (is_fresh (dom fs)). rewrite Heq. apply elem_of_dom. eauto.
Qed.

(** The crop of an image that exceeds the bound in some dimension. *)
Lemma crop_box_size (img : Image) :
  let cropped := crop_to_box img (crop_box (width img) (height img) max_dimension) in
  width cropped = Z.min (width img) max_dimension /\
  height cropped = Z.min (height img) max_dimension /\
  forall x y, pixel cropped x y = pixel img x y.
Proof. simpl. repeat split; lia. Qed.

Lemma crop_screenshot_result fs path img :
  fs !! path = Some (ImageFile img) ->
  exists out fs',
    crop_screenshot path (width img) (height img) max_dimension fs = Some (out, fs') /\
    out <> path /\
    fs' !! out = Some (ImageFile
                         (crop_to_box img (crop_box (width img) (height img)
                                                    max_dimension))) /\
    fs' !! path = None.
Proof.
  intros Hpath. unfold crop_screenshot, named_temporary_file.
  pose proof (temporary_name_fresh fs path _ Hpath) as Hne.
  set (new := fresh (dom fs)) in *.
  assert (Hopen : image_open (<[new := EmptyFile]> fs) path = Some img).
  { apply image_open_Some. rewrite lookup_insert_ne by exact Hne. exact Hpath. }
  rewrite Hopen. simpl.
  eexists _, _. split; [reflexivity|]. split; [exact Hne|].
  destruct (decide _) as [Hex|Hnex].
  - split.
    + rewrite lookup_delete_ne by congruence. now rewrite lookup_insert_eq.
    + apply lookup_delete_eq.
  - exfalso. apply Hnex. rewrite !lookup_insert_ne by exact Hne. eauto.
Qed.

Lemma crop_screenshot_bytes_result (fs : files) path img :
  fs !! path = Some (ImageFile img) ->
  exists out fs',
    crop_screenshot_bytes path (width img) (height img) max_dimension fs
      = Some (out, fs') /\
    out <> path /\
    fs' !! out = Some (ImageFile
                         (crop_to_box img (crop_box (width img) (height img)
                                                    max_dimension))) /\
    fs' !! path = None.
Proof.
  intros Hpath. unfold crop_screenshot_bytes, named_temporary_file.
  pose proof (temporary_name_fresh fs path _ Hpath) as Hne.
  set (new := fresh (dom fs)) in *.
  assert (Hopen : image_open (<[new := EmptyFile]> fs) path = Some img).
  { apply image_open_Some. rewrite lookup_insert_ne by exact Hne. exact Hpath. }
  rewrite Hopen. simpl.
  eexists _, _. split; [reflexivity|]. split; [exact Hne|]. split.
  - rewrite lookup_delete_ne by congruence. now rewrite lookup_insert_eq.
  - apply lookup_delete_eq.
Qed.

Lemma exceeds_iff (img : Image) :
  (max_dimension <? width img) || (max_dimension <? height img) = false <->
  width img <= max_dimension /\ height img <= max_dimension.
Proof.
  rewrite orb_false_iff, !Z.ltb_ge. reflexivity.
Qed.
End ScreenshotFacts.

(** C10: [process_screenshot] on an image file returns a path to an image
    at most 2048 wide and 2048 high.  An image that fits is returned as it
    is (same path, files untouched); otherwise the returned file holds the
    top-left crop of the input, of size (min(width, 2048), min(height,
    2048)), with the input's pixels.  This holds for the daytrip-planner
    (input by path) and for the budget-travel-agent (input by content). *)
Theorem process_screenshot_bounds
  (fs : Screenshot.files) (screenshot_path : string) (img : Screenshot.Image) :
  (fs !! screenshot_path = Some (Screenshot.ImageFile img) ->
   exists out fs' img',
     Screenshot.process_screenshot screenshot_path fs = Some (out, fs') /\
     fs' !! out = Some (Screenshot.ImageFile img') /\
     Screenshot.width img' <= 2048 /\ Screenshot.height img' <= 2048 /\
     (Screenshot.width img <= 2048 /\ Screenshot.height img <= 2048 ->
      out = screenshot_path /\ fs' = fs /\ img' = img) /\
     (~ (Screenshot.width img <= 2048 /\ Screenshot.height img <= 2048) ->
      Screenshot.width img' = Z.min (Screenshot.width img) 2048 /\
      Screenshot.height img' = Z.min (Screenshot.height img) 2048 /\
      forall x y, Screenshot.pixel img' x y = Screenshot.pixel img x y)) /\
  (exists out fs' img',
     Screenshot.process_screenshot_bytes (Screenshot.ImageFile img) fs = Some (out, fs') /\
     fs' !! out = Some (Screenshot.ImageFile img') /\
     Screenshot.width img' <= 2048 /\ Screenshot.height img' <= 2048 /\
     (Screenshot.width img <= 2048 /\ Screenshot.height img <= 2048 -> img' = img) /\
     (~ (Screenshot.width img <= 2048 /\ Screenshot.height img <= 2048) ->
      Screenshot.width img' = Z.min (Screenshot.width img) 2048 /\
      Screenshot.height img' = Z.min (Screenshot.height img) 2048 /\
      forall x y, Screenshot.pixel img' x y = Screenshot.pixel img x y)).
Proof.
  change 2048 with Screenshot.max_dimension.
  pose proof (ScreenshotFacts.crop_box_size img) as (Hw & Hh & Hpx).
  split.
  - intros Hpath. unfold Screenshot.process_screenshot.
    rewrite (proj2 (ScreenshotFacts.image_open_Some fs screenshot_path img) Hpath).
    simpl.
    destruct ((Screenshot.max_dimension <? Screenshot.width img)
              || (Screenshot.max_dimension <? Screenshot.height img)) eqn:Hbig.
    + destruct (ScreenshotFacts.crop_screenshot_result fs screenshot_path img Hpath)
        as (out & fs' & Hrun & _ & Hout & _).
      assert (Hnot : ~ (Screenshot.width img <= Screenshot.max_dimension /\
                        Screenshot.height img <= Screenshot.max_dimension)).
      { intros Hfit. apply ScreenshotFacts.exceeds_iff in Hfit. congruence. }
      eexists out, fs', _. split; [exact Hrun|]. split; [exact Hout|].
      rewrite Hw, Hh. repeat split; try lia; try (intros; contradiction).
    + apply ScreenshotFacts.exceeds_iff in Hbig.
      exists screenshot_path, fs, img. repeat split; try tauto; try lia.
      all: intros; tauto.
  - unfold Screenshot.process_screenshot_bytes, Screenshot.named_temporary_file.
    set (tmp := fresh (dom fs)).
    set (fs1 := <[tmp := Screenshot.ImageFile img]> (<[tmp := Screenshot.EmptyFile]> fs)).
    assert (Htmp : fs1 !! tmp = Some (Screenshot.ImageFile img))
      by apply lookup_insert_eq.
    rewrite (proj2 (ScreenshotFacts.image_open_Some fs1 tmp img) Htmp). simpl.
    destruct ((Screenshot.max_dimension <? Screenshot.width img)
              || (Screenshot.max_dimension <? Screenshot.height img)) eqn:Hbig.
    + destruct (ScreenshotFacts.crop_screenshot_bytes_result fs1 tmp img Htmp)
        as (out & fs' & Hrun & _ & Hout & _).
      assert (Hnot : ~ (Screenshot.width img <= Screenshot.max_dimension /\
                        Screenshot.height img <= Screenshot.max_dimension)).
      { intros Hfit. apply ScreenshotFacts.exceeds_iff in Hfit. congruence. }
      eexists out, fs', _. split; [exact Hrun|]. split; [exact Hout|].
      rewrite Hw, Hh. repeat split; try lia; try (intros; contradiction).
    + apply ScreenshotFacts.exceeds_iff in Hbig.
      exists tmp, fs1, img. repeat split; try tauto; try lia.
      all: intros; tauto.
Qed.

Lemma process_screenshot_bounds_witness :
  let img := {| Screenshot.width := 3000; Screenshot.height := 1000;
                Screenshot.pixel := fun x y => x + y |} in
  let fs : Screenshot.files := {[ "shot.png" := Screenshot.ImageFile img ]} in
  fs !! "shot.png" = Some (Screenshot.ImageFile img) /\
  exists out fs' img',
    Screenshot.process_screenshot "shot.png" fs = Some (out, fs') /\
    fs' !! out = Some (Screenshot.ImageFile img') /\
    Screenshot.width img' = 2048 /\ Screenshot.height img' = 1000.
Proof.
  intros img fs.
  assert (Hpath : fs !! "shot.png" = Some (Screenshot.ImageFile img)) by reflexivity.
  split; [exact Hpath|].
  destruct (proj1 (process_screenshot_bounds fs "shot.png" img) Hpath)
    as (out & fs' & img' & Hrun & Hout & _ & _ & _ & Hcrop).
  exists out, fs', img'. split; [exact Hrun|]. split; [exact Hout|].
  destruct Hcrop as (Hw & Hh & _).
  - simpl. lia.
  - rewrite Hw, Hh. simpl. split; reflexivity.
Defined.

(** ** Pagination and the page widget *)

Module DisplayFacts.
Import App.

Lemma single_page (N : Z) :
  0 < N -> (1 <? Pagination.num_pages page_size N) = false ->
  Pagination.num_pages page_size N = 1.
Proof.
  intros HN Hnp. apply Z.ltb_ge in Hnp.
  pose proof (PaginationFacts.num_pages_ceil page_size N ltac:(reflexivity)) as [_ Hup].
  unfold page_size in *. lia.
Qed.

(** A page number within [1, num_pages] starts inside the record list. *)
Lemma page_start_in_range (N p : Z) :
  0 < N -> 1 <= p <= Pagination.num_pages page_size N ->
  0 <= Pagination.start_idx page_size p < N /\
  Pagination.start_idx page_size p < Pagination.end_idx page_size N p <= N.
Proof.
  intros HN Hp.
  pose proof (PaginationFacts.num_pages_ceil page_size N ltac:(reflexivity)) as [Hlow _].
  unfold Pagination.end_idx, Pagination.start_idx, page_size in *. lia.
Qed.

(** The widget returns a value only for a [value] within its bounds, and
    then the number entered or [value] itself, within the bounds. *)
Lemma st_number_input_Some entered lo hi v p :
  st_number_input entered lo hi v = Some p ->
  lo <= v <= hi /\ lo <= p <= hi /\ (p = v \/ entered = Some p).
Proof.
  unfold st_number_input.
  destruct ((lo <=? v) && (v <=? hi)) eqn:Hv; [|discriminate].
  apply andb_true_iff in Hv as [H1 H2]. apply Z.leb_le in H1, H2.
  destruct entered as [q|].
  - destruct ((lo <=? q) && (q <=? hi)) eqn:Hq; intros [= <-].
    + apply andb_true_iff in Hq as [H3 H4]. apply Z.leb_le in H3, H4.
      split; [lia|]. split; [lia|]. right. reflexivity.
    + split; [lia|]. split; [lia|]. left. reflexivity.
  - intros [= <-]. split; [lia|]. split; [lia|]. left. reflexivity.
Qed.

Lemma st_number_input_raises entered lo hi v :
  ~ (lo <= v <= hi) -> st_number_input entered lo hi v = None.
Proof.
  intros Hout. unfold st_number_input.
  destruct ((lo <=? v) && (v <=? hi)) eqn:Hv; [|reflexivity].
  apply andb_true_iff in Hv as [H1 H2]. apply Z.leb_le in H1, H2. lia.
Qed.

Lemma st_number_input_returns entered lo hi v :
  lo <= v <= hi -> exists p, st_number_input entered lo hi v = Some p.
Proof.
  intros Hin. unfold st_number_input.
  replace ((lo <=? v) && (v <=? hi)) with true
    by (symmetry; apply andb_true_iff; split; apply Z.leb_le; lia).
  destruct entered as [q|]; [destruct (_ && _)|]; eauto.
Qed.
End DisplayFacts.

Module DaytripFacts.
Import ChatgptParser App DaytripPlanner.

(** What a displayed page of the daytrip-planner satisfies. *)
Lemma daytrip_display_shown w travel_data r p s e tabs r' :
  display_travel_data w travel_data r = (Displayed p s e tabs, r') ->
  let N := Z.of_nat (length travel_data) in
  let np := Pagination.num_pages page_size N in
  0 < N /\
  s = Pagination.start_idx page_size p /\
  e = Pagination.end_idx page_size N p /\
  tabs = PySeq.slice travel_data s e /\
  page_number (session r') = p /\
  ((np = 1 /\ p = 1) \/
   (1 < np /\ number_input w 1 np (page_number (session r)) = Some p)).
Proof.
  intros Hrun N np. unfold display_travel_data in Hrun.
  destruct travel_data as [|d ds]; [discriminate|].
  fold N in Hrun. fold np in Hrun.
  assert (HN : 0 < N) by (subst N; simpl; lia).
  destruct (1 <? np) eqn:Hnp.
  - apply Z.ltb_lt in Hnp.
    destruct (number_input w 1 _ _) as [q|] eqn:Hq; [|discriminate].
    inversion Hrun; subst. repeat split; try reflexivity; try lia. right. auto.
  - inversion Hrun; subst.
    repeat split; try reflexivity; try lia.
    left. split; [exact (DisplayFacts.single_page N HN Hnp)|reflexivity].
Qed.

(** With more than one page the outcome is the widget's. *)
Lemma daytrip_display_pages w travel_data r :
  let N := Z.of_nat (length travel_data) in
  let np := Pagination.num_pages page_size N in
  let c := page_number (session r) in
  1 < np ->
  match number_input w 1 np c with
  | None => display_travel_data w travel_data r = (DisplayRaised, emit (PageInput 1 np c) r)
  | Some p => exists s e tabs r',
                display_travel_data w travel_data r = (Displayed p s e tabs, r')
  end.
Proof.
  intros N np c Hnp. unfold display_travel_data.
  destruct travel_data as [|d ds].
  { exfalso. subst np N. vm_compute in Hnp. discriminate. }
  fold N. fold np. fold c.
  replace (1 <? np) with true by (symmetry; apply Z.ltb_lt; exact Hnp).
  destruct (number_input w 1 np c) as [p|]; [|reflexivity].
  eexists _, _, _, _. reflexivity.
Qed.

(** With one page, page 1 is shown. *)
Lemma daytrip_display_one_page w travel_data r :
  travel_data <> [] ->
  Pagination.num_pages page_size (Z.of_nat (length travel_data)) <= 1 ->
  exists e tabs r', display_travel_data w travel_data r = (Displayed 1 0 e tabs, r').
Proof.
  intros Hne Hnp. unfold display_travel_data.
  destruct travel_data as [|d ds]; [contradiction|].
  replace (1 <? _) with false by (symmetry; apply Z.ltb_ge; exact Hnp).
  eexists _, _, _. reflexivity.
Qed.
End DaytripFacts.

Module BudgetFacts.
Import ChatgptParser App BudgetTravelAgent.

(** What a displayed page of the budget-travel-agent satisfies. *)
Lemma budget_display_shown w travel_data r p s e tabs r' :
  display_travel_data w travel_data r = (Displayed p s e tabs, r') ->
  let N := Z.of_nat (length travel_data) in
  let np := Pagination.num_pages page_size N in
  0 < N /\
  s = Pagination.start_idx page_size p /\
  e = Pagination.end_idx page_size N p /\
  tabs = PySeq.slice travel_data s e /\
  page_number (session r') = p /\
  ((np = 1 /\ p = 1) \/
   (1 < np /\ p = page_number (session r) /\
    number_input w 1 np (page_number (session r)) = Some p)).
Proof.
  intros Hrun N np. unfold display_travel_data in Hrun.
  destruct travel_data as [|d ds]; [discriminate|].
  fold N in Hrun. fold np in Hrun.
  assert (HN : 0 < N) by (subst N; simpl; lia).
  destruct (1 <? np) eqn:Hnp.
  - apply Z.ltb_lt in Hnp.
    destruct (number_input w 1 _ _) as [q|] eqn:Hq; [|discriminate].
    simpl in Hrun.
    destruct (q =? page_number (session r)) eqn:Hsame; simpl in Hrun;
      [|discriminate].
    apply Z.eqb_eq in Hsame. rewrite Hsame in Hq. inversion Hrun; subst.
    repeat split; try reflexivity; try lia. right. auto.
  - inversion Hrun; subst.
    repeat split; try reflexivity; try lia.
    left. split; [exact (DisplayFacts.single_page N HN Hnp)|reflexivity].
Qed.

(** With more than one page the outcome is the widget's: it raises, it
    returns the stored page number and that page is shown, or it returns
    another one, which is stored before the script is run again. *)
Lemma budget_display_pages w travel_data r :
  let N := Z.of_nat (length travel_data) in
  let np := Pagination.num_pages page_size N in
  let c := page_number (session r) in
  1 < np ->
  match number_input w 1 np c with
  | None => display_travel_data w travel_data r = (DisplayRaised, emit (PageInput 1 np c) r)
  | Some p =>
      if p =? c
      then exists s e tabs r',
             display_travel_data w travel_data r = (Displayed c s e tabs, r')
      else exists r', display_travel_data w travel_data r = (DisplayRerun, r') /\
                      page_number (session r') = p
  end.
Proof.
  intros N np c Hnp. unfold display_travel_data.
  destruct travel_data as [|d ds].
  { exfalso. subst np N. vm_compute in Hnp. discriminate. }
  fold N. fold np. fold c.
  replace (1 <? np) with true by (symmetry; apply Z.ltb_lt; exact Hnp).
  destruct (number_input w 1 np c) as [p|]; [|reflexivity].
  cbn [emit session]. fold c.
  destruct (Z.eqb_spec p c) as [->|Hne]; simpl.
  - eexists _, _, _, _. reflexivity.
  - eexists. split; reflexivity.
Qed.

Lemma budget_display_one_page w travel_data r :
  travel_data <> [] ->
  Pagination.num_pages page_size (Z.of_nat (length travel_data)) <= 1 ->
  exists e tabs r', display_travel_data w travel_data r = (Displayed 1 0 e tabs, r').
Proof.
  intros Hne Hnp. unfold display_travel_data.
  destruct travel_data as [|d ds]; [contradiction|].
  replace (1 <? _) with false by (symmetry; apply Z.ltb_ge; exact Hnp).
  eexists _, _, _. reflexivity.
Qed.

(** With the button clicked and a starting location typed, [main] goes
    straight to the search: the validation block is never entered. *)
Lemma main_skips_validation w inp r :
  search_clicked inp = true ->
  starting_location inp <> "" ->
  exists r5,
    main w inp r
    = search w (starting_location inp) (destination inp) (trip_duration inp) r5 /\
    trace r5 = trace r /\ screenshot_cache r5 = screenshot_cache r.
Proof.
  intros Hclick Hstart. unfold main. rewrite Hclick. simpl.
  destruct (String.eqb_spec (starting_location inp) "") as [Heq|_];
    [contradiction|].
  eexists. split; [reflexivity|].
  destruct (negb (String.eqb _ _)), (negb (bool_decide _)); split; reflexivity.
Qed.
End BudgetFacts.

(** C2 (as stated, refuted): a page number outside [1, pageCount] is not
    clamped.  With seven records (two pages) and the stored page number 9,
    which is what [display_travel_data] hands to the page widget, the
    widget raises: no effective page is computed and no slice is shown, in
    the daytrip-planner and in the budget-travel-agent. *)
Lemma display_stale_page_not_clamped :
  let w1 := Scenario.daytrip_world ChatgptParser.ApiNoContent (App.st_number_input None) in
  let w2 := Scenario.budget_world [] (App.st_number_input None) in
  let r1 := {| DaytripPlanner.session :=
                 {| DaytripPlanner.from_location := "Madrid";
                    DaytripPlanner.page_number := 9;
                    DaytripPlanner.selected_destination := None;
                    DaytripPlanner.show_atlas_obscura_modal := false |};
               DaytripPlanner.cache := Scenario.daytrip_caches;
               DaytripPlanner.trace := [] |} in
  let r2 := {| BudgetTravelAgent.session :=
                 {| BudgetTravelAgent.from_location := "Madrid";
                    BudgetTravelAgent.end_location := None;
                    BudgetTravelAgent.page_number := 9;
                    BudgetTravelAgent.search_button_clicked := true |};
               BudgetTravelAgent.screenshot_cache := ∅;
               BudgetTravelAgent.trace := [] |} in
  Pagination.num_pages App.page_size (Z.of_nat (length Scenario.seven_trips)) = 2 /\
  DaytripPlanner.display_travel_data w1 Scenario.seven_trips r1
    = (DaytripPlanner.DisplayRaised,
       {| DaytripPlanner.session := DaytripPlanner.session r1;
          DaytripPlanner.cache := DaytripPlanner.cache r1;
          DaytripPlanner.trace := [App.PageInput 1 2 9] |}) /\
  BudgetTravelAgent.display_travel_data w2 Scenario.seven_trips r2
    = (BudgetTravelAgent.DisplayRaised,
       {| BudgetTravelAgent.session := BudgetTravelAgent.session r2;
          BudgetTravelAgent.screenshot_cache := ∅;
          BudgetTravelAgent.trace := [App.PageInput 1 2 9] |}).
Proof. repeat split. Qed.

(** C2 (amended): [display_travel_data] does not clamp.  With more than
    one page it hands the stored page number to the page widget, created
    with the bounds 1 and [pageCount]: a stored number outside the bounds
    makes the widget raise, and no slice is shown; a stored number within
    them gives the page the widget returns, the stored number or the one
    the user entered (in the budget-travel-agent an entered number that
    differs is stored and the script is run again before anything is
    shown).  With at most one page the page is 1.  Every page that is
    shown has its number within [1, pageCount], and the start index
    [(page-1)*page_size] of its slice lies below the record count. *)
Theorem display_page_within_range
  (w1 : DaytripPlanner.world) (w2 : BudgetTravelAgent.world) (entered : option Z)
  (travel_data : list ChatgptParser.TravelDestination)
  (r1 : DaytripPlanner.run) (r2 : BudgetTravelAgent.run) :
  DaytripPlanner.number_input w1 = App.st_number_input entered ->
  BudgetTravelAgent.number_input w2 = App.st_number_input entered ->
  travel_data <> [] ->
  let N := Z.of_nat (length travel_data) in
  let page_count := Pagination.num_pages App.page_size N in
  let c1 := DaytripPlanner.page_number (DaytripPlanner.session r1) in
  let c2 := BudgetTravelAgent.page_number (BudgetTravelAgent.session r2) in
  let out1 := DaytripPlanner.display_travel_data w1 travel_data r1 in
  let out2 := BudgetTravelAgent.display_travel_data w2 travel_data r2 in
  let within (p s e : Z) (tabs : list ChatgptParser.TravelDestination) : Prop :=
    1 <= p <= page_count /\ (page_count <= 1 -> p = 1) /\
    s = (p - 1) * App.page_size /\ 0 <= s < N /\
    e = Z.min (s + App.page_size) N /\
    tabs = PySeq.slice travel_data s e in
  (forall p s e tabs,
     fst out1 = DaytripPlanner.Displayed p s e tabs -> within p s e tabs) /\
  (forall p s e tabs,
     fst out2 = BudgetTravelAgent.Displayed p s e tabs -> within p s e tabs) /\
  (1 < page_count -> ~ (1 <= c1 <= page_count) ->
   fst out1 = DaytripPlanner.DisplayRaised) /\
  (1 < page_count -> ~ (1 <= c2 <= page_count) ->
   fst out2 = BudgetTravelAgent.DisplayRaised) /\
  (1 < page_count -> 1 <= c1 <= page_count ->
   exists p s e tabs,
     fst out1 = DaytripPlanner.Displayed p s e tabs /\ (p = c1 \/ entered = Some p)) /\
  (1 < page_count -> 1 <= c2 <= page_count ->
   (exists s e tabs, fst out2 = BudgetTravelAgent.Displayed c2 s e tabs) \/
   (exists p, entered = Some p /\ p <> c2 /\ 1 <= p <= page_count /\
              fst out2 = BudgetTravelAgent.DisplayRerun /\
              BudgetTravelAgent.page_number (BudgetTravelAgent.session (snd out2)) = p)) /\
  (page_count <= 1 ->
   (exists e tabs, fst out1 = DaytripPlanner.Displayed 1 0 e tabs) /\
   (exists e tabs, fst out2 = BudgetTravelAgent.Displayed 1 0 e tabs)).
Proof.
  intros Hw1 Hw2 Hne N page_count c1 c2 out1 out2 within.
  assert (Hwithin : forall p s e tabs,
            0 < N -> s = Pagination.start_idx App.page_size p ->
            e = Pagination.end_idx App.page_size N p ->
            tabs = PySeq.slice travel_data s e ->
            ((page_count = 1 /\ p = 1) \/ (1 < page_count /\ 1 <= p <= page_count)) ->
            within p s e tabs).
  { intros p s e tabs HN -> -> -> Hp. subst within. cbv beta.
    assert (Hr : 1 <= p <= page_count) by (destruct Hp as [[-> ->]|[_ H]]; lia).
    pose proof (DisplayFacts.page_start_in_range N p HN Hr) as [Hstart _].
    unfold Pagination.end_idx, Pagination.start_idx in *.
    repeat split; try lia; try reflexivity. }
  split; [|split; [|split; [|split; [|split; [|split]]]]];
    unfold c1, c2, page_count, N in *.
  - intros p s e tabs Hout. subst out1.
    destruct (DaytripPlanner.display_travel_data w1 travel_data r1) as [res r'] eqn:Hrun.
    simpl in Hout. subst res.
    destruct (DaytripFacts.daytrip_display_shown _ _ _ _ _ _ _ _ Hrun)
      as (HN & Hs & He & Htabs & _ & Hp).
    apply Hwithin; auto. destruct Hp as [Hp|[Hnp Hq]]; [left; exact Hp|right].
    split; [exact Hnp|]. rewrite Hw1 in Hq.
    apply DisplayFacts.st_number_input_Some in Hq. tauto.
  - intros p s e tabs Hout. subst out2.
    destruct (BudgetTravelAgent.display_travel_data w2 travel_data r2) as [res r'] eqn:Hrun.
    simpl in Hout. subst res.
    destruct (BudgetFacts.budget_display_shown _ _ _ _ _ _ _ _ Hrun)
      as (HN & Hs & He & Htabs & _ & Hp).
    apply Hwithin; auto. destruct Hp as [Hp|(Hnp & _ & Hq)]; [left; exact Hp|right].
    split; [exact Hnp|]. rewrite Hw2 in Hq.
    apply DisplayFacts.st_number_input_Some in Hq. tauto.
  - intros Hnp Hout. subst out1.
    pose proof (DaytripFacts.daytrip_display_pages w1 travel_data r1 Hnp) as H.
    rewrite Hw1, (DisplayFacts.st_number_input_raises entered _ _ _ Hout) in H.
    rewrite H. reflexivity.
  - intros Hnp Hout. subst out2.
    pose proof (BudgetFacts.budget_display_pages w2 travel_data r2 Hnp) as H.
    rewrite Hw2, (DisplayFacts.st_number_input_raises entered _ _ _ Hout) in H.
    rewrite H. reflexivity.
  - intros Hnp Hin. subst out1.
    pose proof (DaytripFacts.daytrip_display_pages w1 travel_data r1 Hnp) as H.
    rewrite Hw1 in H.
    destruct (DisplayFacts.st_number_input_returns entered _ _ _ Hin) as [p Hp].
    rewrite Hp in H. destruct H as (s & e & tabs & r' & ->).
    exists p, s, e, tabs. split; [reflexivity|].
    apply DisplayFacts.st_number_input_Some in Hp. tauto.
  - intros Hnp Hin. subst out2.
    pose proof (BudgetFacts.budget_display_pages w2 travel_data r2 Hnp) as H.
    rewrite Hw2 in H.
    destruct (DisplayFacts.st_number_input_returns entered _ _ _ Hin) as [p Hp].
    rewrite Hp in H.
    apply DisplayFacts.st_number_input_Some in Hp. destruct Hp as (_ & Hr & Hor).
    destruct (Z.eqb_spec p (BudgetTravelAgent.page_number (BudgetTravelAgent.session r2)))
      as [Heq|Hneq].
    + destruct H as (s & e & tabs & r' & ->). left. eauto.
    + destruct H as (r' & -> & Hcur). right. exists p.
      destruct Hor as [Heq|Hent]; [contradiction|]. auto.
  - intros Hone. split.
    + destruct (DaytripFacts.daytrip_display_one_page w1 travel_data r1 Hne Hone)
        as (e & tabs & r' & H).
      exists e, tabs. subst out1. rewrite H. reflexivity.
    + destruct (BudgetFacts.budget_display_one_page w2 travel_data r2 Hne Hone)
        as (e & tabs & r' & H).
      exists e, tabs. subst out2. rewrite H. reflexivity.
Qed.

Lemma display_page_within_range_witness :
  let w1 := Scenario.daytrip_world ChatgptParser.ApiNoContent
              (App.st_number_input (Some 2)) in
  let w2 := Scenario.budget_world [] (App.st_number_input (Some 2)) in
  let r1 := {| DaytripPlanner.session := DaytripPlanner.initialize_session_state None;
               DaytripPlanner.cache := Scenario.daytrip_caches;
               DaytripPlanner.trace := [] |} in
  let r2 := {| BudgetTravelAgent.session := BudgetTravelAgent.initialize_session_state None;
               BudgetTravelAgent.screenshot_cache := ∅;
               BudgetTravelAgent.trace := [] |} in
  DaytripPlanner.number_input w1 = App.st_number_input (Some 2) /\
  BudgetTravelAgent.number_input w2 = App.st_number_input (Some 2) /\
  Scenario.seven_trips <> [] /\
  fst (DaytripPlanner.display_travel_data w1 Scenario.seven_trips r1)
    = DaytripPlanner.Displayed 2 5 7 (map Scenario.trip ["Malaga"; "Granada"]) /\
  1 <= 2 <= Pagination.num_pages App.page_size 7 /\ 0 <= 5 < 7.
Proof.
  intros w1 w2 r1 r2.
  assert (Hne : Scenario.seven_trips <> []) by discriminate.
  split; [reflexivity|]. split; [reflexivity|]. split; [exact Hne|].
  split; [reflexivity|].
  destruct (proj1 (display_page_within_range w1 w2 (Some 2) Scenario.seven_trips r1 r2
                     eq_refl eq_refl Hne) 2 5 7 _ eq_refl)
    as (Hp & _ & _ & Hs & _).
  split; [exact Hp|exact Hs].
Defined.

(** ** Validation before the remote calls *)

Module AbortFacts.
Import ChatgptParser App.

(** daytrip-planner: a rejected city ends the run after the lookup, with
    an error message and no remote call; the session state and the memo
    tables are as they were. *)
Lemma daytrip_rejected_city_aborts
      (w : DaytripPlanner.world) (inp : DaytripPlanner.inputs)
      (stored : option DaytripPlanner.session_state) (c : DaytripPlanner.caches) :
  DaytripPlanner.find_clicked inp = true \/ DaytripPlanner.typed_location inp <> "" ->
  LocationValidator.validate_city (DaytripPlanner.geocode w)
                                  (DaytripPlanner.typed_location inp) = false ->
  exists msg,
    DaytripPlanner.app w inp stored c
    = (DaytripPlanner.Done,
       {| DaytripPlanner.session := DaytripPlanner.initialize_session_state stored;
          DaytripPlanner.cache := c;
          DaytripPlanner.trace :=
            [Geocode (DaytripPlanner.typed_location inp); StError msg] |}) /\
    Forall (fun e => remote_call e = false)
           (DaytripPlanner.trace (snd (DaytripPlanner.app w inp stored c))).
Proof.
  intros Hgo Hrej. unfold DaytripPlanner.app, DaytripPlanner.main.
  assert (Hcond : DaytripPlanner.find_clicked inp
                  || negb (String.eqb (DaytripPlanner.typed_location inp) "") = true).
  { destruct Hgo as [->|Hne]; [reflexivity|].
    destruct (String.eqb_spec (DaytripPlanner.typed_location inp) "");
      [contradiction|apply orb_true_r]. }
  rewrite Hcond, Hrej. simpl.
  eexists. split; [reflexivity|]. repeat constructor.
Qed.

(** daytrip-planner: "Madrid" passes the validation and the run goes on
    to create a session; the capture then fails. *)
Example daytrip_known_city_proceeds :
  let w := Scenario.daytrip_world (ApiContent (Some [])) Scenario.strict_input in
  let inp := {| DaytripPlanner.typed_location := "Madrid";
                DaytripPlanner.find_clicked := true |} in
  LocationValidator.validate_city Scenario.geocoder "Madrid" = true /\
  LocationValidator.validate_city Scenario.geocoder "Qwxzzznotacity" = false /\
  DaytripPlanner.trace (snd (DaytripPlanner.app w inp None Scenario.daytrip_caches))
  = [Geocode "Madrid"; SessionCreate;
     StError "An error occurred: 'function' object has no attribute 'chromium'";
     StError "Could not get screenshot"].
Proof. repeat split; vm_compute; reflexivity. Qed.
End AbortFacts.

(** C4 (the budget-travel-agent at the failing input): the geocoder
    rejects "Qwxzzznotacity", yet a click on the search button with this
    starting location creates a session, captures the page and extracts
    the data; no lookup is made and no error is shown. *)
Theorem budget_search_skips_validation :
  let w := Scenario.budget_world Scenario.seven_trips Scenario.strict_input in
  let inp := {| BudgetTravelAgent.starting_location := "Qwxzzznotacity";
                BudgetTravelAgent.destination := None;
                BudgetTravelAgent.trip_duration := "Weekend";
                BudgetTravelAgent.search_clicked := true |} in
  LocationValidator.validate_city_named (BudgetTravelAgent.geocode w) "Qwxzzznotacity"
    = (false, VNone) /\
  BudgetTravelAgent.trace (BudgetTravelAgent.app w inp None ∅)
    = [App.SessionCreate; App.CaptureRun "Qwxzzznotacity";
       App.ExtractRun "/tmp/shot.png"; App.PageInput 1 2 1;
       App.ShowPage Scenario.seven_trips 1 0 5
         (map Scenario.trip ["Porto"; "Lisbon"; "Seville"; "Valencia"; "Bilbao"])].
Proof. split; vm_compute; reflexivity. Qed.

(** ** The page cursor of the daytrip-planner *)

Module CursorFacts.
Import ChatgptParser App DaytripPlanner.

Ltac listed :=
  unfold capture_explore_page; simpl;
  repeat (apply List.Forall_cons; [solve [eauto 6]|]); apply List.Forall_nil.

Lemma lookup_store_capture ws loc v c ws' loc' :
  lookup_capture (store_capture ws loc v c) ws' loc' =
  if decide (ws' = ws /\ loc' = loc) then Some v else lookup_capture c ws' loc'.
Proof.
  unfold lookup_capture, store_capture. simpl.
  destruct (decide (ws' = ws)) as [->|Hws].
  - rewrite lookup_insert_eq. simpl.
    destruct (decide (loc' = loc)) as [->|Hloc].
    + rewrite lookup_insert_eq. rewrite decide_True by auto. reflexivity.
    + rewrite lookup_insert_ne by congruence.
      rewrite decide_False by tauto.
      destruct (capture_cache c !! ws); reflexivity.
  - rewrite lookup_insert_ne by congruence.
    rewrite decide_False by tauto. reflexivity.
Qed.

(** The body of [cached_capture_explore_page] runs when the memo table
    has no entry: the cursor is set to 1, the error is shown, and [None]
    is memoised with the message. *)
Lemma cached_capture_miss ws loc r :
  lookup_capture (cache r) ws loc = None ->
  cached_capture_explore_page ws loc r =
  (None,
   {| session := {| from_location := from_location (session r);
                    page_number := 1;
                    selected_destination := selected_destination (session r);
                    show_atlas_obscura_modal := show_atlas_obscura_modal (session r) |};
      cache := store_capture ws loc (capture_explore_page ws loc) (cache r);
      trace := trace r ++ snd (capture_explore_page ws loc) |}).
Proof.
  intros Hmiss. unfold cached_capture_explore_page. rewrite Hmiss. reflexivity.
Qed.

(** On a hit the memoised value is returned and the memoised messages
    are shown again; the session is not touched. *)
Lemma cached_capture_hit ws loc r v shown :
  lookup_capture (cache r) ws loc = Some (v, shown) ->
  cached_capture_explore_page ws loc r = (v, emit_all shown r).
Proof.
  intros Hhit. unfold cached_capture_explore_page. rewrite Hhit. reflexivity.
Qed.

Lemma capture_entries_made_store ws loc c :
  capture_entries_made c ->
  capture_entries_made (store_capture ws loc (capture_explore_page ws loc) c).
Proof.
  intros Hmade ws' loc' entry. rewrite lookup_store_capture.
  destruct (decide _) as [_|_].
  - intros [= <-]. reflexivity.
  - apply Hmade.
Qed.

Lemma capture_entries_made_same c c' :
  capture_cache c' = capture_cache c ->
  capture_entries_made c -> capture_entries_made c'.
Proof.
  intros Heq Hmade ws loc entry. unfold lookup_capture. rewrite Heq. apply Hmade.
Qed.

(** With a memo table that holds only what [capture_explore_page] put
    there, the capture gives [None], shows its error, keeps the starting
    location and the other memo tables, and leaves the cursor at 1 or as
    it was. *)
Lemma cached_capture_fails ws loc r :
  capture_entries_made (cache r) ->
  exists r',
    cached_capture_explore_page ws loc r = (None, r') /\
    trace r' = trace r ++ snd (capture_explore_page ws loc) /\
    from_location (session r') = from_location (session r) /\
    (page_number (session r') = page_number (session r) \/
     page_number (session r') = 1) /\
    (page_number (session r) = 1 -> page_number (session r') = 1) /\
    browser_ws_url_cache (cache r') = browser_ws_url_cache (cache r) /\
    extract_cache (cache r') = extract_cache (cache r) /\
    capture_entries_made (cache r').
Proof.
  intros Hmade.
  destruct (lookup_capture (cache r) ws loc) as [[v shown]|] eqn:Hc.
  - pose proof (Hmade _ _ _ Hc) as Hentry. injection Hentry as -> ->.
    rewrite (cached_capture_hit ws loc r _ _ Hc).
    eexists. split; [reflexivity|]. simpl. repeat split; auto.
  - rewrite (cached_capture_miss ws loc r Hc).
    eexists. split; [reflexivity|]. simpl. repeat split; auto.
    apply capture_entries_made_store, Hmade.
Qed.

(** [main] on a memo table that holds only what [capture_explore_page]
    put there. *)
Lemma daytrip_main_run w inp r :
  capture_entries_made (cache r) ->
  let loc := typed_location inp in
  let out := main w inp r in
  fst out = Done /\
  capture_entries_made (cache (snd out)) /\
  extract_cache (cache (snd out)) = extract_cache (cache r) /\
  (exists evs,
     trace (snd out) = trace r ++ evs /\
     Forall (fun ev => ev = Geocode loc \/ ev = SessionCreate \/ exists m, ev = StError m)
            evs /\
     ((find_clicked inp || negb (String.eqb loc "")) = true ->
      LocationValidator.validate_city (geocode w) loc = true ->
      forall id c0 ws,
        browser_ws_url_cache (cache r) = Some (id, Some (String c0 ws)) \/
        (browser_ws_url_cache (cache r) = None /\
         create_session w = SessionCreated id (Some (String c0 ws))) ->
        exists pre,
          evs = pre ++ snd (capture_explore_page (String c0 ws) (PyStr.lower loc)) ++
                [StError "Could not get screenshot"])) /\
  ((find_clicked inp || negb (String.eqb loc "")) = true ->
   LocationValidator.validate_city (geocode w) loc = true ->
   from_location (session (snd out)) = loc /\
   (loc <> from_location (session r) -> page_number (session (snd out)) = 1)).
Proof.
  intros Hmade loc out. subst out. unfold main. fold loc.
  destruct (find_clicked inp || negb (String.eqb loc "")) eqn:Hgate.
  2: { simpl. split; [reflexivity|]. split; [exact Hmade|]. split; [reflexivity|].
       split; [|discriminate].
       exists []. rewrite app_nil_r. split; [reflexivity|]. split; [constructor|].
       discriminate. }
  destruct (LocationValidator.validate_city (geocode w) loc) eqn:Hv.
  2: { simpl. split; [reflexivity|]. split; [exact Hmade|]. split; [reflexivity|].
       split; [|discriminate].
       eexists. split; [rewrite <- app_assoc; reflexivity|].
       split; [listed|]. intros _ H. discriminate H. }
  cbn [negb].
  set (r1 := emit (Geocode loc) r).
  set (r2 := if String.eqb loc (from_location (session r1)) then r1
             else new_location loc r1).
  assert (H2 : cache r2 = cache r /\ trace r2 = trace r ++ [Geocode loc] /\
               from_location (session r2) = loc /\
               (loc <> from_location (session r) -> page_number (session r2) = 1)).
  { subst r2 r1. simpl.
    destruct (String.eqb_spec loc (from_location (session r))) as [Heq|Hne]; simpl.
    - repeat split; auto. intros H. contradiction.
    - repeat split; auto. }
  destruct H2 as (Hc2 & Ht2 & Hf2 & Hp2). clearbody r2. clear r1.
  unfold cached_browser_ws_url.
  destruct (browser_ws_url_cache (cache r2)) as [[id bws]|] eqn:Hb.
  - (* the session is memoised *)
    rewrite Hc2 in Hb.
    destruct bws as [[|c0 ws]|].
    1, 3: simpl; split; [reflexivity|]; split; [rewrite Hc2; exact Hmade|];
          split; [rewrite Hc2; reflexivity|]; split;
          [eexists; split; [rewrite Ht2, <- app_assoc; reflexivity|];
           split; [listed|];
           intros _ _ id' c0' ws' [H|[H _]]; congruence
          |intros _ _; split; [exact Hf2|exact Hp2]].
    destruct (cached_capture_fails (String c0 ws) (PyStr.lower loc) r2)
      as (r4 & -> & Ht4 & Hf4 & _ & Hp4 & _ & He4 & Hm4);
      [rewrite Hc2; exact Hmade|].
    simpl. split; [reflexivity|]. split; [exact Hm4|].
    split; [rewrite He4, Hc2; reflexivity|]. split.
    + eexists. split; [rewrite Ht4, Ht2, <- !app_assoc; reflexivity|].
      split; [listed|].
      intros _ _ id' c0' ws' _. exists [Geocode loc]. reflexivity.
    + intros _ _. split; [congruence|]. intros Hne. apply Hp4, Hp2, Hne.
  - (* a session is asked for *)
    rewrite Hc2 in Hb.
    destruct (create_session w) as [msg tb|id bws] eqn:Hcs.
    + simpl. split; [reflexivity|]. split; [rewrite Hc2; exact Hmade|].
      split; [rewrite Hc2; reflexivity|]. split.
      * eexists. split; [rewrite Ht2, <- !app_assoc; reflexivity|].
        split; [listed|].
        intros _ _ id' c0' ws' [H|[_ H]]; congruence.
      * intros _ _. split; [exact Hf2|exact Hp2].
    + destruct bws as [[|c0 ws]|].
      1, 3: simpl; split; [reflexivity|]; split;
            [eapply capture_entries_made_same; [|exact Hmade]; simpl;
             rewrite Hc2; reflexivity|];
            split; [rewrite Hc2; reflexivity|]; split;
            [eexists; split; [rewrite Ht2, <- !app_assoc; reflexivity|];
             split; [listed|];
             intros _ _ id' c0' ws' [H|[_ H]]; congruence
            |intros _ _; split; [exact Hf2|exact Hp2]].
      match goal with
      | |- context [cached_capture_explore_page _ _ ?r] => set (r3 := r)
      end.
      destruct (cached_capture_fails (String c0 ws) (PyStr.lower loc) r3)
        as (r4 & -> & Ht4 & Hf4 & _ & Hp4 & _ & He4 & Hm4).
      { eapply capture_entries_made_same; [|exact Hmade].
        subst r3. simpl. rewrite Hc2. reflexivity. }
      simpl. split; [reflexivity|]. split; [exact Hm4|].
      split; [rewrite He4; subst r3; simpl; rewrite Hc2; reflexivity|]. split.
      * eexists. split.
        { rewrite Ht4. subst r3. simpl. rewrite Ht2, <- !app_assoc. reflexivity. }
        split; [listed|].
        intros _ _ id' c0' ws' _. exists [Geocode loc; SessionCreate]. reflexivity.
      * intros _ _. split; [rewrite Hf4; subst r3; exact Hf2|].
        intros Hne. apply Hp4. subst r3. simpl. apply Hp2, Hne.
Qed.
End CursorFacts.



(** ** Strings *)

Module TextFacts.
Import PyText.

Lemma app_cons c a b : String c a +:+ b = String c (a +:+ b).
Proof. reflexivity. Qed.

Lemma app_empty_l s : "" +:+ s = s.
Proof. reflexivity. Qed.

Lemma app_empty_r s : s +:+ "" = s.
Proof. induction s as [|c s IH]; [reflexivity|]. now rewrite app_cons, IH. Qed.

Lemma app_assoc a b c : (a +:+ b) +:+ c = a +:+ b +:+ c.
Proof. induction a as [|x a IH]; [reflexivity|]. now rewrite !app_cons, IH. Qed.

Lemma length_app a b : String.length (a +:+ b) = (String.length a + String.length b)%nat.
Proof. induction a as [|x a IH]; [reflexivity|]. rewrite app_cons. simpl. now rewrite IH. Qed.

Lemma prefix_app p s : String.prefix p (p +:+ s) = true.
Proof.
  induction p as [|c p IH]; [now destruct s|].
  rewrite app_cons. simpl. destruct (ascii_dec c c); [exact IH|contradiction].
Qed.

Lemma prefix_split p s : String.prefix p s = true -> exists r, s = p +:+ r.
Proof.
  revert s. induction p as [|c p IH]; intros s H.
  - exists s. reflexivity.
  - destruct s as [|d s]; [discriminate|]. simpl in H.
    destruct (ascii_dec c d) as [->|]; [|discriminate].
    destruct (IH s H) as [r ->]. exists r. reflexivity.
Qed.

Lemma substring_all s : substring 0 (String.length s) s = s.
Proof. induction s as [|c s IH]; [reflexivity|]. simpl. now rewrite IH. Qed.

Lemma substring_skip u v :
  substring (String.length u) (String.length v) (u +:+ v) = v.
Proof.
  induction u as [|c u IH]; [apply substring_all|].
  rewrite app_cons. simpl. exact IH.
Qed.

Lemma substring_take u v : substring 0 (String.length u) (u +:+ v) = u.
Proof.
  induction u as [|c u IH]; [now destruct v|].
  rewrite app_cons. simpl. now rewrite IH.
Qed.

(** A string that ends with the suffix, and the string without it. *)
Lemma endswith_app u suffix : endswith (u +:+ suffix) suffix = true.
Proof.
  unfold endswith. rewrite length_app.
  replace (String.length u + String.length suffix - String.length suffix)%nat
    with (String.length u) by lia.
  rewrite substring_skip, String.eqb_refl, andb_true_r.
  apply Nat.leb_le. lia.
Qed.

Lemma drop_last_app u suffix : drop_last (String.length suffix) (u +:+ suffix) = u.
Proof.
  unfold drop_last. rewrite length_app.
  replace (String.length u + String.length suffix - String.length suffix)%nat
    with (String.length u) by lia.
  apply substring_take.
Qed.

Lemma substring_join s k :
  (k <= String.length s)%nat ->
  s = substring 0 k s +:+ substring k (String.length s - k) s.
Proof.
  revert k. induction s as [|c s IH]; intros k Hk.
  - destruct k; reflexivity.
  - destruct k as [|k].
    + simpl. now rewrite substring_all.
    + simpl in *. rewrite app_cons. f_equal. apply IH. lia.
Qed.

Lemma endswith_split s suffix : endswith s suffix = true -> exists u, s = u +:+ suffix.
Proof.
  unfold endswith. intros H. apply andb_true_iff in H. destruct H as [Hle Heq].
  apply Nat.leb_le in Hle. apply String.eqb_eq in Heq.
  exists (substring 0 (String.length s - String.length suffix) s).
  pose proof (substring_join s (String.length s - String.length suffix) ltac:(lia)) as Hj.
  replace (String.length s - (String.length s - String.length suffix))%nat
    with (String.length suffix) in Hj by lia.
  now rewrite Heq in Hj.
Qed.

(** The characters of a string, as a list. *)
Lemma chars_app a b :
  list_ascii_of_string (a +:+ b) = list_ascii_of_string a ++ list_ascii_of_string b.
Proof. induction a as [|c a IH]; [reflexivity|]. rewrite app_cons. simpl. now rewrite IH. Qed.
End TextFacts.

Module TextFacts2.
Import PyText TextFacts.

Lemma lacks_app c a b : lacks c (a +:+ b) = lacks c a && lacks c b.
Proof.
  induction a as [|d a IH]; [reflexivity|].
  rewrite app_cons. simpl. now rewrite IH, andb_assoc.
Qed.

(** Nothing is replaced in a string that lacks the first character of
    [old]. *)
Lemma replace_lacks o old new s :
  lacks o s = true -> replace (String o old) new s = s.
Proof.
  unfold replace. induction s as [|c s IH]; intros H; [reflexivity|].
  simpl in H. apply andb_true_iff in H. destruct H as [Hc Hs].
  cbn [replace_from String.prefix].
  destruct (ascii_dec o c) as [->|Hne].
  - rewrite Ascii.eqb_refl in Hc. discriminate Hc.
  - now rewrite IH.
Qed.

Lemma replace_from_skip_all old new t :
  replace_from (String.length t) old new t = ""%string.
Proof. induction t as [|c t IH]; [reflexivity|]. simpl. exact IH. Qed.

Lemma replace_lacks_then o old new s :
  lacks o s = true ->
  replace (String o old) new (s +:+ String o old) = s +:+ new.
Proof.
  unfold replace. induction s as [|c s IH]; intros H.
  - rewrite !app_empty_l. cbn [replace_from].
    assert (Hp : String.prefix (String o old) (String o old) = true).
    { pose proof (prefix_app (String o old) "") as Hp.
      now rewrite app_empty_r in Hp. }
    rewrite Hp. cbn [String.length]. rewrite Nat.sub_1_r. cbn [Nat.pred].
    rewrite replace_from_skip_all. apply app_empty_r.
  - simpl in H. apply andb_true_iff in H. destruct H as [Hc Hs].
    rewrite !app_cons. cbn [replace_from String.prefix].
    destruct (ascii_dec o c) as [->|Hne].
    + rewrite Ascii.eqb_refl in Hc. discriminate Hc.
    + now rewrite IH.
Qed.

Lemma split_not_nil sep s : split sep s <> [].
Proof.
  induction s as [|c s IH]; simpl; [discriminate|].
  destruct (Ascii.eqb c sep); [discriminate|].
  destruct (split sep s); discriminate.
Qed.

Lemma split_lacks sep s : lacks sep s = true -> split sep s = [s].
Proof.
  induction s as [|c s IH]; intros H; [reflexivity|].
  simpl in *. apply andb_true_iff in H. destruct H as [Hc Hs].
  apply negb_true_iff in Hc. rewrite Hc, (IH Hs). reflexivity.
Qed.

Lemma split_app_sep sep a b :
  exists h r, split sep (a +:+ String sep b) = h :: r ++ split sep b.
Proof.
  induction a as [|c a IH].
  - rewrite app_empty_l. simpl. rewrite Ascii.eqb_refl. exists ""%string, []. reflexivity.
  - rewrite app_cons. simpl. destruct IH as (h & r & ->).
    destruct (Ascii.eqb c sep).
    + exists ""%string, (h :: r). reflexivity.
    + exists (String c h), r. reflexivity.
Qed.

(** The last part of a path is what follows its last separator. *)
Lemma last_part_app sep a b :
  lacks sep b = true -> last_part sep (a +:+ String sep b) = b.
Proof.
  intros Hb. unfold last_part.
  destruct (split_app_sep sep a b) as (h & r & ->).
  rewrite (split_lacks sep b Hb).
  change (h :: r ++ [b]) with ((h :: r) ++ [b]). apply last_last.
Qed.
End TextFacts2.

(** ** The comparison URL and the repository name *)

(** X1: [get_comparison_url] removes one [.git] suffix: a repository URL
    gives the same comparison URL with and without the suffix, namely the
    URL followed by [/compare/start...end]. *)
Theorem get_comparison_url_git_suffix (git_url start end_ : string) :
  PyText.endswith git_url ".git" = false ->
  Changelog.get_comparison_url (git_url +:+ ".git") start end_
    = Changelog.get_comparison_url git_url start end_ /\
  Changelog.get_comparison_url git_url start end_
    = git_url +:+ "/compare/" +:+ start +:+ "..." +:+ end_.
Proof.
  intros Hno. unfold Changelog.get_comparison_url.
  rewrite Hno, TextFacts.endswith_app.
  change 4%nat with (String.length ".git").
  rewrite TextFacts.drop_last_app. split; reflexivity.
Qed.

Lemma get_comparison_url_git_suffix_witness :
  PyText.endswith "https://github.com/acme/tool" ".git" = false /\
  Changelog.get_comparison_url "https://github.com/acme/tool.git" "v1" "v2"
    = "https://github.com/acme/tool/compare/v1...v2".
Proof.
  split; [reflexivity|].
  destruct (get_comparison_url_git_suffix "https://github.com/acme/tool" "v1" "v2"
              eq_refl) as [H1 H2].
  change ("https://github.com/acme/tool.git")
    with ("https://github.com/acme/tool" +:+ ".git").
  rewrite H1. exact H2.
Defined.

(** X2: the repository name taken from a URL is the text after its last
    slash without the [.git] it may end with, when that text has no dot:
    [.../repo] and [.../repo.git] both give [repo]. *)
Theorem repo_name_of_path (base repo : string) :
  PyText.lacks "/" repo = true ->
  PyText.lacks "." repo = true ->
  Changelog.repo_name (base +:+ "/" +:+ repo) = repo /\
  Changelog.repo_name (base +:+ "/" +:+ repo +:+ ".git") = repo.
Proof.
  intros Hslash Hdot. unfold Changelog.repo_name. split.
  - change ("/" +:+ repo) with (String "/" repo).
    rewrite TextFacts2.last_part_app by exact Hslash.
    now apply TextFacts2.replace_lacks.
  - change ("/" +:+ repo +:+ ".git") with (String "/" (repo +:+ ".git")).
    rewrite TextFacts2.last_part_app
      by (rewrite TextFacts2.lacks_app, Hslash; reflexivity).
    rewrite (TextFacts2.replace_lacks_then "." "git" "" repo Hdot).
    apply TextFacts.app_empty_r.
Qed.

Lemma repo_name_of_path_witness :
  PyText.lacks "/" "tool" = true /\ PyText.lacks "." "tool" = true /\
  Changelog.repo_name "https://github.com/acme/tool.git" = "tool".
Proof.
  split; [reflexivity|]. split; [reflexivity|].
  exact (proj2 (repo_name_of_path "https://github.com/acme" "tool" eq_refl eq_refl)).
Defined.

(** ** The GitHub URL check *)

Module UrlFacts.
Import PyText TextFacts ChangelogApp.

Lemma after_prefix_Some p s r : after_prefix p s = Some r <-> s = p +:+ r.
Proof.
  unfold after_prefix. split.
  - destruct (String.prefix p s) eqn:Hp; [|discriminate].
    intros H. inversion H; subst. clear H.
    destruct (prefix_split p s Hp) as [r ->].
    rewrite length_app.
    replace (String.length p + String.length r - String.length p)%nat
      with (String.length r) by lia.
    now rewrite substring_skip.
  - intros ->. rewrite prefix_app, length_app.
    replace (String.length p + String.length r - String.length p)%nat
      with (String.length r) by lia.
    now rewrite substring_skip.
Qed.

Lemma span_name_split s a b :
  span_name s = (a, b) -> s = a +:+ b /\ name_string a = true /\ stops_name b.
Proof.
  revert a b. induction s as [|c s IH]; intros a b H; simpl in H.
  - inversion H; subst. repeat split.
  - destruct (is_name_char c) eqn:Hc.
    + destruct (span_name s) as [a' b'] eqn:Hs. inversion H; subst.
      destruct (IH a' b eq_refl) as (-> & Ha & Hb).
      rewrite app_cons. simpl. rewrite Hc, Ha. repeat split. exact Hb.
    + inversion H; subst. repeat split. exact Hc.
Qed.

Lemma span_name_app a b :
  name_string a = true -> stops_name b -> span_name (a +:+ b) = (a, b).
Proof.
  intros Ha Hb. induction a as [|c a IH].
  - rewrite app_empty_l. destruct b as [|d b]; [reflexivity|].
    simpl in *. now rewrite Hb.
  - simpl in Ha. apply andb_true_iff in Ha. destruct Ha as [Hc Ha].
    rewrite app_cons. simpl. now rewrite Hc, (IH Ha).
Qed.

Lemma at_end_iff s : at_end s = true <-> s = ""%string \/ s = nl.
Proof.
  unfold at_end. rewrite orb_true_iff, !String.eqb_eq. reflexivity.
Qed.

Lemma name_string_lacks c s :
  is_name_char c = false -> name_string s = true -> lacks c s = true.
Proof.
  intros Hc. induction s as [|d s IH]; intros H; [reflexivity|].
  simpl in *. apply andb_true_iff in H. destruct H as [Hd Hs].
  rewrite (IH Hs), andb_true_r. apply negb_true_iff.
  destruct (Ascii.eqb_spec d c) as [->|]; [congruence|reflexivity].
Qed.
End UrlFacts.

Module UrlFacts3.
(** Every URL of the accepted form passes the check. *)
Lemma shape_accepted (scheme owner repo git tail : string) :
  (scheme = "https" \/ scheme = "http")%string ->
  ChangelogApp.name_string owner = true -> owner <> ""%string ->
  ChangelogApp.name_string repo = true -> repo <> ""%string ->
  (git = "" \/ git = ".git")%string ->
  (tail = ""%string \/ tail = PyText.nl) ->
  ChangelogApp.is_valid_github_url
    (scheme +:+ "://github.com/" +:+ owner +:+ "/" +:+ repo +:+ git +:+ tail) = true.
Proof.
  intros Hs Hown Hone Hrepo Hrne Hg Ht. unfold ChangelogApp.is_valid_github_url.
  assert (Hrest : match ChangelogApp.after_prefix "github.com/"
                          ("github.com/" +:+ owner +:+ "/" +:+ repo +:+ git +:+ tail) with
                  | None => false
                  | Some r1 =>
                      let '(owner, r2) := ChangelogApp.span_name r1 in
                      negb (String.eqb owner "") &&
                      match r2 with
                      | String "/" r3 =>
                          let '(repo, r4) := ChangelogApp.span_name r3 in
                          negb (String.eqb repo "") &&
                          (ChangelogApp.at_end r4 ||
                           match ChangelogApp.after_prefix ".git" r4 with
                           | Some r5 => ChangelogApp.at_end r5
                           | None => false
                           end)
                      | _ => false
                      end
                  end = true).
  { rewrite (proj2 (UrlFacts.after_prefix_Some "github.com/" _ _) eq_refl).
    rewrite (UrlFacts.span_name_app owner ("/" +:+ repo +:+ git +:+ tail) Hown)
      by reflexivity.
    assert (Hstop : ChangelogApp.stops_name (git +:+ tail)).
    { destruct Hg as [->| ->], Ht as [->| ->]; reflexivity. }
    change ("/" +:+ repo +:+ git +:+ tail) with (String "/" (repo +:+ git +:+ tail)).
    cbv iota beta.
    rewrite (UrlFacts.span_name_app repo (git +:+ tail) Hrepo Hstop).
    cbv iota beta.
    destruct (String.eqb_spec owner "") as [->|_]; [contradiction|].
    destruct (String.eqb_spec repo "") as [->|_]; [contradiction|].
    destruct Hg as [->| ->], Ht as [->| ->]; reflexivity. }
  destruct Hs as [->| ->].
  + change ("https" +:+ "://github.com/" +:+ owner +:+ "/" +:+ repo +:+ git +:+ tail)
      with ("https://" +:+ "github.com/" +:+ owner +:+ "/" +:+ repo +:+ git +:+ tail).
    rewrite (proj2 (UrlFacts.after_prefix_Some "https://" _ _) eq_refl).
    exact Hrest.
  + change ("http" +:+ "://github.com/" +:+ owner +:+ "/" +:+ repo +:+ git +:+ tail)
      with ("http://" +:+ "github.com/" +:+ owner +:+ "/" +:+ repo +:+ git +:+ tail).
    assert (Hno : ChangelogApp.after_prefix "https://"
                    ("http://" +:+ "github.com/" +:+ owner +:+ "/" +:+ repo
                     +:+ git +:+ tail) = None) by reflexivity.
    rewrite Hno.
    rewrite (proj2 (UrlFacts.after_prefix_Some "http://" _ _) eq_refl).
    exact Hrest.
Qed.
End UrlFacts3.

(** X3: among ASCII texts, [is_valid_github_url] accepts exactly the URLs
    of the form [http://github.com/owner/repo] or
    [https://github.com/owner/repo], with [owner] and [repo] non-empty
    strings of letters, digits, underscores and hyphens, optionally
    followed by [.git], and optionally by one final newline (which [$] lets
    through).  Outside ASCII the class [\w] of the pattern has more
    characters, which are not modelled. *)
Theorem is_valid_github_url_shape (url : string) :
  PyStr.is_ascii url = true ->
  ChangelogApp.is_valid_github_url url = true <->
  exists scheme owner repo git tail,
    (scheme = "https" \/ scheme = "http")%string /\
    ChangelogApp.name_string owner = true /\ owner <> ""%string /\
    ChangelogApp.name_string repo = true /\ repo <> ""%string /\
    (git = "" \/ git = ".git")%string /\
    (tail = ""%string \/ tail = PyText.nl) /\
    url = scheme +:+ "://github.com/" +:+ owner +:+ "/" +:+ repo +:+ git +:+ tail.
Proof.
  intros _. unfold ChangelogApp.is_valid_github_url. split.
  - intros H.
    assert (Hscheme : exists scheme r0,
               (scheme = "https" \/ scheme = "http")%string /\
               url = scheme +:+ "://" +:+ r0 /\
               match ChangelogApp.after_prefix "github.com/" r0 with
               | None => false
               | Some r1 =>
                   let '(owner, r2) := ChangelogApp.span_name r1 in
                   negb (String.eqb owner "") &&
                   match r2 with
                   | String "/" r3 =>
                       let '(repo, r4) := ChangelogApp.span_name r3 in
                       negb (String.eqb repo "") &&
                       (ChangelogApp.at_end r4 ||
                        match ChangelogApp.after_prefix ".git" r4 with
                        | Some r5 => ChangelogApp.at_end r5
                        | None => false
                        end)
                   | _ => false
                   end
               end = true).
    { destruct (ChangelogApp.after_prefix "https://" url) as [r|] eqn:H1.
      - apply UrlFacts.after_prefix_Some in H1. exists "https"%string, r. auto.
      - destruct (ChangelogApp.after_prefix "http://" url) as [r|] eqn:H2;
          [|discriminate].
        apply UrlFacts.after_prefix_Some in H2. exists "http"%string, r. auto. }
    clear H. destruct Hscheme as (scheme & r0 & Hs & Hurl & H).
    destruct (ChangelogApp.after_prefix "github.com/" r0) as [r1|] eqn:H1;
      [|discriminate].
    apply UrlFacts.after_prefix_Some in H1.
    destruct (ChangelogApp.span_name r1) as [owner r2] eqn:Ho.
    apply UrlFacts.span_name_split in Ho. destruct Ho as (Hr1 & Hown & _).
    apply andb_true_iff in H. destruct H as [Hne H].
    destruct r2 as [|c r3]; [discriminate|].
    destruct (ascii_dec c "/") as [->|Hc].
    2: { destruct c as [[] [] [] [] [] [] [] []]; try discriminate H.
         contradiction. }
    destruct (ChangelogApp.span_name r3) as [repo r4] eqn:Hr.
    apply UrlFacts.span_name_split in Hr. destruct Hr as (Hr3 & Hrepo & _).
    apply andb_true_iff in H. destruct H as [Hne' H].
    assert (Hgit : exists git tail,
               (git = "" \/ git = ".git")%string /\
               (tail = ""%string \/ tail = PyText.nl) /\ r4 = git +:+ tail).
    { apply orb_true_iff in H. destruct H as [H|H].
      - apply UrlFacts.at_end_iff in H. exists ""%string, r4. auto.
      - destruct (ChangelogApp.after_prefix ".git" r4) as [r5|] eqn:H5;
          [|discriminate].
        apply UrlFacts.after_prefix_Some in H5. apply UrlFacts.at_end_iff in H.
        exists ".git"%string, r5. auto. }
    destruct Hgit as (git & tail & Hg & Ht & Hr4).
    exists scheme, owner, repo, git, tail.
    repeat split; try assumption.
    + intros ->. discriminate Hne.
    + intros ->. discriminate Hne'.
    + rewrite Hurl, H1, Hr1, Hr3, Hr4. reflexivity.
  - intros (scheme & owner & repo & git & tail & Hs & Hown & Hone & Hrepo & Hrne
            & Hg & Ht & ->).
    fold (ChangelogApp.is_valid_github_url
            (scheme +:+ "://github.com/" +:+ owner +:+ "/" +:+ repo +:+ git +:+ tail)).
    now apply UrlFacts3.shape_accepted.
Qed.

Lemma is_valid_github_url_shape_witness :
  PyStr.is_ascii "https://github.com/rocq-prover/rocq.git" = true /\
  ChangelogApp.is_valid_github_url "https://github.com/rocq-prover/rocq.git" = true /\
  ChangelogApp.is_valid_github_url "https://github.com/rocq-prover" = false.
Proof.
  assert (H1 : PyStr.is_ascii "https://github.com/rocq-prover/rocq.git" = true)
    by reflexivity.
  split; [exact H1|]. split.
  - apply (is_valid_github_url_shape "https://github.com/rocq-prover/rocq.git" H1).
    exists "https"%string, "rocq-prover"%string, "rocq"%string, ".git"%string,
           ""%string.
    repeat split; auto; discriminate.
  - reflexivity.
Defined.

Module UrlFacts2.
Import PyText TextFacts ChangelogApp.

Lemma name_string_chars s :
  name_string s = true ->
  Forall (fun c => is_name_char c = true) (list_ascii_of_string s).
Proof.
  induction s as [|c s IH]; intros H; [constructor|].
  simpl in H. apply andb_true_iff in H. destruct H as [Hc Hs].
  constructor; [exact Hc|exact (IH Hs)].
Qed.

(** A path that ends with a non-empty name does not end with [.git]. *)
Lemma name_is_not_git_suffix base repo :
  name_string repo = true -> repo <> ""%string ->
  endswith (base +:+ "/" +:+ repo) ".git" = false.
Proof.
  intros Hname Hne.
  destruct (endswith (base +:+ "/" +:+ repo) ".git") eqn:He; [|reflexivity].
  exfalso. apply endswith_split in He. destruct He as [u Hu].
  apply (f_equal list_ascii_of_string) in Hu. rewrite !chars_app in Hu.
  apply (f_equal (@List.rev ascii)) in Hu. rewrite !List.rev_app_distr in Hu.
  simpl in Hu.
  pose proof (name_string_chars repo Hname) as Hall.
  apply Forall_rev in Hall.
  assert (Hnil : List.rev (list_ascii_of_string repo) <> []).
  { intros Hr. apply (f_equal (@List.rev ascii)) in Hr.
    rewrite List.rev_involutive in Hr. simpl in Hr.
    apply Hne. rewrite <- (string_of_list_ascii_of_string repo), Hr. reflexivity. }
  destruct (List.rev (list_ascii_of_string repo)) as [|a [|b [|c [|d l]]]];
    [contradiction| | | |]; simpl in Hu.
  - inversion Hu.
  - inversion Hu.
  - inversion Hu.
  - inversion Hu; subst.
    inversion Hall as [|? ? _ H1]; subst. inversion H1 as [|? ? _ H2]; subst.
    inversion H2 as [|? ? _ H3]; subst. inversion H3 as [|? ? Hd _]; subst.
    discriminate Hd.
Qed.
End UrlFacts2.

(** X4: for a URL of the accepted form without a final newline, the
    comparison URL is [scheme://github.com/owner/repo/compare/start...end],
    with or without [.git] in the input, and the repository name is
    [repo]. *)
Theorem valid_url_comparison (scheme owner repo git start end_ : string) :
  ChangelogApp.name_string owner = true -> owner <> ""%string ->
  ChangelogApp.name_string repo = true -> repo <> ""%string ->
  (git = "" \/ git = ".git")%string ->
  ChangelogApp.is_valid_github_url
    ("https://github.com/" +:+ owner +:+ "/" +:+ repo +:+ git) = true /\
  Changelog.get_comparison_url
    (scheme +:+ "://github.com/" +:+ owner +:+ "/" +:+ repo +:+ git) start end_
    = scheme +:+ "://github.com/" +:+ owner +:+ "/" +:+ repo
      +:+ "/compare/" +:+ start +:+ "..." +:+ end_ /\
  Changelog.repo_name (scheme +:+ "://github.com/" +:+ owner +:+ "/" +:+ repo +:+ git)
    = repo.
Proof.
  intros Hown Hone Hrepo Hrne Hg.
  assert (Hslash : PyText.lacks "/" repo = true)
    by (apply UrlFacts.name_string_lacks; [reflexivity|exact Hrepo]).
  assert (Hdot : PyText.lacks "." repo = true)
    by (apply UrlFacts.name_string_lacks; [reflexivity|exact Hrepo]).
  assert (Hplain : PyText.endswith
                     ((scheme +:+ "://github.com/" +:+ owner) +:+ "/" +:+ repo) ".git"
                   = false)
    by (apply UrlFacts2.name_is_not_git_suffix; assumption).
  split; [|split].
  - pose proof (UrlFacts3.shape_accepted "https" owner repo git ""
                  (or_introl eq_refl) Hown Hone Hrepo Hrne Hg (or_introl eq_refl)) as Hv.
    change ("https" +:+ "://github.com/" +:+ owner +:+ "/" +:+ repo +:+ git +:+ "")
      with ("https://github.com/" +:+ owner +:+ "/" +:+ repo +:+ git +:+ "") in Hv.
    now rewrite TextFacts.app_empty_r in Hv.
  - replace (scheme +:+ "://github.com/" +:+ owner +:+ "/" +:+ repo +:+ git)
      with (((scheme +:+ "://github.com/" +:+ owner) +:+ "/" +:+ repo) +:+ git)
      by (rewrite !TextFacts.app_assoc; reflexivity).
    replace (scheme +:+ "://github.com/" +:+ owner +:+ "/" +:+ repo
             +:+ "/compare/" +:+ start +:+ "..." +:+ end_)
      with (((scheme +:+ "://github.com/" +:+ owner) +:+ "/" +:+ repo)
            +:+ "/compare/" +:+ start +:+ "..." +:+ end_)
      by (rewrite !TextFacts.app_assoc; reflexivity).
    unfold Changelog.get_comparison_url.
    destruct Hg as [->| ->].
    + rewrite TextFacts.app_empty_r, Hplain. reflexivity.
    + rewrite TextFacts.endswith_app.
      change 4%nat with (String.length ".git").
      now rewrite TextFacts.drop_last_app.
  - replace (scheme +:+ "://github.com/" +:+ owner +:+ "/" +:+ repo +:+ git)
      with ((scheme +:+ "://github.com/" +:+ owner) +:+ "/" +:+ repo +:+ git)
      by (rewrite !TextFacts.app_assoc; reflexivity).
    unfold Changelog.repo_name.
    change ("/" +:+ repo +:+ git) with (String "/" (repo +:+ git)).
    rewrite TextFacts2.last_part_app
      by (rewrite TextFacts2.lacks_app, Hslash; destruct Hg as [->| ->]; reflexivity).
    destruct Hg as [->| ->].
    + rewrite TextFacts.app_empty_r. now apply TextFacts2.replace_lacks.
    + rewrite (TextFacts2.replace_lacks_then "." "git" "" repo Hdot).
      apply TextFacts.app_empty_r.
Qed.

Lemma valid_url_comparison_witness :
  ChangelogApp.name_string "acme" = true /\ ChangelogApp.name_string "tool" = true /\
  ChangelogApp.is_valid_github_url "https://github.com/acme/tool.git" = true /\
  Changelog.get_comparison_url "https://github.com/acme/tool.git" "v1" "v2"
    = "https://github.com/acme/tool/compare/v1...v2" /\
  Changelog.repo_name "https://github.com/acme/tool.git" = "tool".
Proof.
  split; [reflexivity|]. split; [reflexivity|].
  apply (valid_url_comparison "https" "acme" "tool" ".git" "v1" "v2");
    first [reflexivity | discriminate | (right; reflexivity)].
Defined.

(** ** The changelog builder's run *)

Module ChangelogAppFacts.
Import Changelog ChangelogApp.

Lemma changelog_elem_of_emit e e' r : e ∈ trace (emit e' r) <-> e ∈ trace r \/ e = e'.
Proof.
  unfold emit. simpl. rewrite elem_of_app, list_elem_of_singleton. reflexivity.
Qed.

(** Showing the changelogs starts no extraction job. *)
Lemma show_changelogs_no_job w inp d r res r' u :
  show_changelogs w inp d r = (res, r') ->
  ExtractJob u ∈ trace r' -> ExtractJob u ∈ trace r.
Proof.
  unfold show_changelogs. intros Hrun Hin.
  repeat case_match; inversion Hrun; subst; clear Hrun;
    repeat (apply changelog_elem_of_emit in Hin; destruct Hin as [Hin|Hin]; [|discriminate Hin]);
    exact Hin.
Qed.

(** A job is started by [extract_git_comparison] only on a miss of the
    memo table, with the key set, and for the URL asked. *)
Lemma extract_git_comparison_job w url r v r' u :
  extract_git_comparison w url r = (v, r') ->
  ExtractJob u ∈ trace r' ->
  ExtractJob u ∈ trace r \/
  (u = url /\ cache r !! url = None /\ App.truthy (hyperbrowser_api_key w) = true).
Proof.
  unfold extract_git_comparison. intros Hrun Hin.
  destruct (cache r !! url) eqn:Hc.
  { inversion Hrun; subst. now left. }
  destruct (App.truthy (hyperbrowser_api_key w)) eqn:Hk; simpl in Hrun.
  - destruct (start_and_wait w url); inversion Hrun; subst; clear Hrun; simpl in Hin.
    + apply elem_of_app in Hin. destruct Hin as [Hin|Hin]; [now left|].
      apply list_elem_of_singleton in Hin. inversion Hin. now right.
    + rewrite <- app_assoc in Hin. apply elem_of_app in Hin.
      destruct Hin as [Hin|Hin]; [now left|].
      apply elem_of_cons in Hin. destruct Hin as [Hin|Hin].
      * inversion Hin. now right.
      * apply list_elem_of_singleton in Hin. discriminate Hin.
  - inversion Hrun; subst; clear Hrun. simpl in Hin.
    apply elem_of_app in Hin. destruct Hin as [Hin|Hin]; [now left|].
    apply list_elem_of_singleton in Hin. discriminate Hin.
Qed.
End ChangelogAppFacts.

(** X5: the changelog builder starts an extraction job only after a click
    with all three fields filled in and a repository URL that passes
    [is_valid_github_url]; the job is for the comparison URL of these
    inputs, with the Hyperbrowser key set and no memoised result for that
    URL.  With a URL that fails the check the run shows the error and
    nothing else. *)
Theorem changelog_extraction_gate
  (w : ChangelogApp.world) (inp : ChangelogApp.inputs) (r : ChangelogApp.run)
  (res : ChangelogApp.main_result) (r' : ChangelogApp.run) :
  ChangelogApp.trace r = [] ->
  ChangelogApp.main w inp r = (res, r') ->
  (forall u, ChangelogApp.ExtractJob u ∈ ChangelogApp.trace r' ->
     ChangelogApp.view_clicked inp = true /\
     ChangelogApp.git_url inp <> ""%string /\
     ChangelogApp.starting_commit inp <> ""%string /\
     ChangelogApp.ending_commit inp <> ""%string /\
     ChangelogApp.is_valid_github_url (ChangelogApp.git_url inp) = true /\
     u = Changelog.get_comparison_url (ChangelogApp.git_url inp)
           (ChangelogApp.starting_commit inp) (ChangelogApp.ending_commit inp) /\
     ChangelogApp.cache r !! u = None /\
     App.truthy (ChangelogApp.hyperbrowser_api_key w) = true) /\
  (ChangelogApp.view_clicked inp = true ->
   ChangelogApp.git_url inp <> ""%string ->
   ChangelogApp.starting_commit inp <> ""%string ->
   ChangelogApp.ending_commit inp <> ""%string ->
   ChangelogApp.is_valid_github_url (ChangelogApp.git_url inp) = false ->
   ChangelogApp.trace r'
     = [ChangelogApp.StError "Please enter a valid GitHub repository URL"] /\
   ChangelogApp.cache r' = ChangelogApp.cache r).
Proof.
  intros Hempty Hrun. unfold ChangelogApp.main in Hrun. split.
  - intros u Hin.
    assert (Hnot : ~ ChangelogApp.ExtractJob u ∈ ChangelogApp.trace r)
      by (rewrite Hempty; apply not_elem_of_nil).
    destruct (ChangelogApp.view_clicked inp) eqn:Hclick; simpl in Hrun;
      [|inversion Hrun; subst; contradiction].
    destruct (String.eqb_spec (ChangelogApp.git_url inp) "") as [|Hurl]; simpl in Hrun;
      [inversion Hrun; subst; contradiction|].
    destruct (String.eqb_spec (ChangelogApp.starting_commit inp) "") as [|Hstart];
      simpl in Hrun; [inversion Hrun; subst; contradiction|].
    destruct (String.eqb_spec (ChangelogApp.ending_commit inp) "") as [|Hend];
      simpl in Hrun; [inversion Hrun; subst; contradiction|].
    destruct (ChangelogApp.is_valid_github_url (ChangelogApp.git_url inp)) eqn:Hvalid;
      simpl in Hrun.
    2: { inversion Hrun; subst.
         apply ChangelogAppFacts.changelog_elem_of_emit in Hin.
         destruct Hin as [Hin|Hin]; [contradiction|discriminate Hin]. }
    destruct (ChangelogApp.extract_git_comparison w _ r) as [v r1] eqn:Hex.
    assert (Hin1 : ChangelogApp.ExtractJob u ∈ ChangelogApp.trace r1).
    { destruct v as [d|]; [|inversion Hrun; subst; exact Hin].
      destruct (Changelog.no_data d); [inversion Hrun; subst; exact Hin|].
      eapply ChangelogAppFacts.show_changelogs_no_job; eauto. }
    destruct (ChangelogAppFacts.extract_git_comparison_job _ _ _ _ _ _ Hex Hin1)
      as [Hold|(-> & Hmiss & Hkey)]; [contradiction|].
    repeat split; assumption.
  - intros Hclick Hurl Hstart Hend Hinvalid.
    rewrite Hclick, Hinvalid in Hrun.
    destruct (String.eqb_spec (ChangelogApp.git_url inp) ""); [contradiction|].
    destruct (String.eqb_spec (ChangelogApp.starting_commit inp) ""); [contradiction|].
    destruct (String.eqb_spec (ChangelogApp.ending_commit inp) ""); [contradiction|].
    simpl in Hrun. inversion Hrun; subst. simpl. rewrite Hempty. split; reflexivity.
Qed.

Lemma changelog_extraction_gate_witness :
  let w := {| ChangelogApp.hyperbrowser_api_key := Some "hb-test";
              ChangelogApp.start_and_wait := fun _ => None;
              ChangelogApp.openai_api_key := None;
              ChangelogApp.create := fun _ => Tenacity.Raised Tenacity.TimeoutError;
              ChangelogApp.error_text := fun _ => "failed"%string;
              ChangelogApp.now := "2025-06-14 10:00:00" |} in
  let inp := {| ChangelogApp.git_url := "https://gitlab.com/acme/tool";
                ChangelogApp.starting_commit := "v1";
                ChangelogApp.ending_commit := "v2";
                ChangelogApp.view_clicked := true |} in
  let r := {| ChangelogApp.cache := ∅; ChangelogApp.trace := [] |} in
  ChangelogApp.is_valid_github_url (ChangelogApp.git_url inp) = false /\
  ChangelogApp.trace (snd (ChangelogApp.main w inp r))
    = [ChangelogApp.StError "Please enter a valid GitHub repository URL"].
Proof.
  intros w inp r. split; [reflexivity|].
  refine (proj1 (proj2 (changelog_extraction_gate w inp r
                          (fst (ChangelogApp.main w inp r))
                          (snd (ChangelogApp.main w inp r)) eq_refl
                          (surjective_pairing _)) eq_refl _ _ _ eq_refl));
    discriminate.
Defined.

(** ** The changelog texts *)

Module ChangelogFacts.
Import ChangelogGenerator Changelog.

Lemma description_ok_cases commit :
  description_ok commit = true ->
  PyText.truthy (PyDict.get commit "description" (VStr "")) = false \/
  exists d, PyDict.get commit "description" (VStr "") = VStr d.
Proof.
  unfold description_ok. intros H. apply orb_true_iff in H.
  destruct H as [H|H]; [left; now apply negb_true_iff|right].
  destruct (PyDict.get commit "description" (VStr "")); try discriminate. eauto.
Qed.

Lemma description_bad_cases commit :
  description_ok commit = false ->
  PyText.truthy (PyDict.get commit "description" (VStr "")) = true /\
  PyDict.as_str (PyDict.get commit "description" (VStr "")) = None.
Proof.
  unfold description_ok. intros H. apply orb_false_iff in H.
  destruct H as [H1 H2]. apply negb_false_iff in H1. split; [exact H1|].
  destruct (PyDict.get commit "description" (VStr "")); try reflexivity. discriminate.
Qed.

Lemma commit_lines_ok i commit :
  description_ok commit = true ->
  exists rest, commit_lines i commit = Some (commit_heading i commit :: rest).
Proof.
  intros H. unfold commit_lines.
  destruct (description_ok_cases commit H) as [Hf|[d Hd]].
  - rewrite Hf. eauto.
  - rewrite Hd. destruct (PyText.truthy (VStr d)); simpl; eauto.
Qed.

Lemma commit_lines_bad i commit :
  description_ok commit = false -> commit_lines i commit = None.
Proof.
  intros H. unfold commit_lines.
  destruct (description_bad_cases commit H) as [Ht Hs]. now rewrite Ht, Hs.
Qed.

Lemma commits_lines_ok cs : forall i,
  Forall (fun c => description_ok c = true) cs ->
  exists lines,
    commits_lines i cs = Some lines /\
    forall j c, cs !! j = Some c -> commit_heading (i + j) c ∈ lines.
Proof.
  induction cs as [|c cs IH]; intros i Hall.
  - exists []. split; [reflexivity|]. intros j c H. discriminate H.
  - inversion Hall as [|? ? Hc Hrest]; subst.
    destruct (commit_lines_ok i c Hc) as [rest Hhere].
    destruct (IH (S i) Hrest) as (more & Hmore & Hin).
    exists ((commit_heading i c :: rest) ++ more). simpl. rewrite Hhere. simpl.
    rewrite Hmore. simpl. split; [reflexivity|].
    intros [|j] c' Hj; simpl in Hj.
    + inversion Hj; subst. rewrite Nat.add_0_r. apply list_elem_of_here.
    + apply list_elem_of_further, elem_of_app. right.
      replace (i + S j)%nat with (S i + j)%nat by lia. now apply Hin.
Qed.

Lemma commits_lines_bad cs : forall i,
  Exists (fun c => description_ok c = false) cs -> commits_lines i cs = None.
Proof.
  induction cs as [|c cs IH]; intros i Hex; inversion Hex; subst; simpl.
  - now rewrite commit_lines_bad.
  - destruct (commit_lines i c); [|reflexivity]. simpl. now rewrite IH.
Qed.

Lemma files_lines_headings fs : forall i j f,
  fs !! j = Some f -> file_heading (i + j) f ∈ files_lines i fs.
Proof.
  induction fs as [|f0 fs IH]; intros i j f Hj; [discriminate Hj|].
  destruct j as [|j]; simpl in *.
  - inversion Hj; subst. rewrite Nat.add_0_r. apply list_elem_of_here.
  - do 5 apply list_elem_of_further.
    replace (i + S j)%nat with (S i + j)%nat by lia. now apply IH.
Qed.

Lemma bullets_lines_ok cs :
  Forall (fun c => description_ok c = true) cs ->
  exists bl, bullets_lines cs = Some bl /\ forall c, c ∈ cs -> bullet c ∈ bl.
Proof.
  induction 1 as [|c cs Hc _ (bl & Hbl & Hin)].
  - exists []. split; [reflexivity|]. intros c H. now apply elem_of_nil in H.
  - assert (Hhere : exists rest, bullet_lines c = Some (bullet c :: rest)).
    { unfold bullet_lines.
      destruct (description_ok_cases c Hc) as [Hf|[d Hd]].
      - rewrite Hf. eauto.
      - rewrite Hd. destruct (PyText.truthy (VStr d)); simpl; [|eauto].
        destruct (0 <? String.length (PyText.strip d))%nat; eauto. }
    destruct Hhere as [rest Hhere].
    exists ((bullet c :: rest) ++ bl). simpl. rewrite Hhere. simpl. rewrite Hbl. simpl.
    split; [reflexivity|].
    intros c' Hc'. apply elem_of_cons in Hc'. destruct Hc' as [->|Hc'].
    + apply list_elem_of_here.
    + apply list_elem_of_further, elem_of_app. right. now apply Hin.
Qed.

Lemma section_lines_ok k cs :
  Forall (fun c => description_ok c = true) cs ->
  exists sl, section_lines k cs = Some sl /\
             forall c, c ∈ cs -> bullet c ∈ sl /\ heading k ∈ sl.
Proof.
  intros Hall. destruct (bullets_lines_ok cs Hall) as (bl & Hbl & Hin).
  destruct cs as [|c0 cs].
  - exists []. split; [reflexivity|]. intros c H. now apply elem_of_nil in H.
  - exists ([heading k] ++ bl ++ [""%string]). unfold section_lines. rewrite Hbl.
    split; [reflexivity|]. intros c Hc. split.
    + apply elem_of_app. right. apply elem_of_app. left. now apply Hin.
    + apply list_elem_of_here.
Qed.
End ChangelogFacts.

(** X6: [generate_changelog] on data whose commit descriptions are strings
    or false values returns the joined lines, and these hold a heading
    [### n. message] for every commit and [### n. file_path] for every
    changed file, numbered from 1 in input order, with the defaults
    [No message] and [Unknown file] for a missing key.  A commit whose
    description is a true value that is not a string makes the function
    raise. *)
Theorem changelog_lists_commits_and_files
  (now : string) (d : Changelog.comparison_data) (repo_url start end_ : string) :
  Changelog.no_data d = false ->
  (Forall (fun c => Changelog.description_ok c = true)
          (default [] (Changelog.commits d)) ->
   exists lines,
     Changelog.generate_changelog now d repo_url start end_
       = Some (PyText.join_lines lines) /\
     (forall i c, default [] (Changelog.commits d) !! i = Some c ->
                  Changelog.commit_heading i c ∈ lines) /\
     (forall i f, default [] (Changelog.file_changes d) !! i = Some f ->
                  Changelog.file_heading i f ∈ lines)) /\
  (Exists (fun c => Changelog.description_ok c = false)
          (default [] (Changelog.commits d)) ->
   Changelog.generate_changelog now d repo_url start end_ = None).
Proof.
  intros Hdata. unfold Changelog.generate_changelog, Changelog.changelog_lines.
  rewrite Hdata. split.
  - intros Hall.
    destruct (ChangelogFacts.commits_lines_ok _ 0%nat Hall) as (cl & Hcl & Hin).
    rewrite Hcl. simpl. eexists. split; [reflexivity|]. split.
    + intros i c Hi. do 8 apply list_elem_of_further.
      apply elem_of_app. left. exact (Hin i c Hi).
    + intros i f Hi. do 8 apply list_elem_of_further.
      apply elem_of_app. right. apply list_elem_of_further.
      exact (ChangelogFacts.files_lines_headings _ 0%nat i f Hi).
  - intros Hex. now rewrite ChangelogFacts.commits_lines_bad.
Qed.

Lemma changelog_lists_commits_and_files_witness :
  let commit : dict :=
    <["message" := VStr "Add login form"]> {[ "description" := VNone ]} in
  let d := {| Changelog.scalars := {[ "num_commits" := VInt 1 ]};
              Changelog.commits := Some [commit];
              Changelog.file_changes := None |} in
  Changelog.no_data d = false /\
  exists lines,
    Changelog.generate_changelog "2025-06-14 10:00:00" d
      "https://github.com/acme/tool" "v1" "v2" = Some (PyText.join_lines lines) /\
    "### 1. Add login form"%string ∈ lines.
Proof.
  intros commit d. split; [reflexivity|].
  destruct (proj1 (changelog_lists_commits_and_files "2025-06-14 10:00:00" d
                     "https://github.com/acme/tool" "v1" "v2" eq_refl))
    as (lines & Hgen & Hcommits & _).
  { repeat constructor. }
  exists lines. split; [exact Hgen|]. exact (Hcommits 0%nat commit eq_refl).
Defined.

(** X7: [generate_categorized_changelog] on commits whose messages are
    strings (or absent) and whose descriptions are strings or false values
    returns the joined lines, and these hold the bullet
    [* **message** - *committer*] of every commit together with the heading
    of the commit's category: no commit is left out, whatever its
    message. *)
Theorem categorized_changelog_lists_every_commit
  (now : string) (d : Changelog.comparison_data) (repo_url start end_ : string) :
  Changelog.no_data d = false ->
  Forall (fun c => is_Some (ChangelogGenerator.category_of c))
         (default [] (Changelog.commits d)) ->
  Forall (fun c => Changelog.description_ok c = true)
         (default [] (Changelog.commits d)) ->
  exists lines,
    Changelog.generate_categorized_changelog now d repo_url start end_
      = Some (PyText.join_lines lines) /\
    forall c k, c ∈ default [] (Changelog.commits d) ->
                ChangelogGenerator.category_of c = Some k ->
                Changelog.bullet c ∈ lines /\ Changelog.heading k ∈ lines.
Proof.
  intros Hdata Hcat Hdesc.
  unfold Changelog.generate_categorized_changelog, Changelog.categorized_lines.
  rewrite Hdata. set (cs := default [] (Changelog.commits d)) in *.
  destruct (CategorizeFacts.categorize_loop_total cs ChangelogGenerator.no_commits Hcat)
    as [cats Hrun].
  unfold ChangelogGenerator.categorize_commits. rewrite Hrun. simpl.
  assert (Hsec : forall k, ChangelogGenerator.section_of k cats
                           = filter (ChangelogGenerator.in_category k) cs).
  { intros k. rewrite (CategorizeFacts.categorize_loop_sections _ _ _ Hrun k).
    destruct k; reflexivity. }
  assert (Hok : forall k, Forall (fun c => Changelog.description_ok c = true)
                                 (ChangelogGenerator.section_of k cats)).
  { intros k. rewrite Hsec. apply Forall_forall. intros c Hc.
    apply list_elem_of_filter in Hc. destruct Hc as [_ Hc].
    rewrite Forall_forall in Hdesc. now apply Hdesc. }
  change (ChangelogGenerator.feature_commits cats)
    with (ChangelogGenerator.section_of ChangelogGenerator.Features cats).
  change (ChangelogGenerator.bugfix_commits cats)
    with (ChangelogGenerator.section_of ChangelogGenerator.BugFixes cats).
  change (ChangelogGenerator.docs_commits cats)
    with (ChangelogGenerator.section_of ChangelogGenerator.Documentation cats).
  change (ChangelogGenerator.refactor_commits cats)
    with (ChangelogGenerator.section_of ChangelogGenerator.Refactoring cats).
  change (ChangelogGenerator.test_commits cats)
    with (ChangelogGenerator.section_of ChangelogGenerator.Tests cats).
  change (ChangelogGenerator.other_commits cats)
    with (ChangelogGenerator.section_of ChangelogGenerator.OtherChanges cats).
  destruct (ChangelogFacts.section_lines_ok ChangelogGenerator.Features _
              (Hok ChangelogGenerator.Features)) as (s1 & -> & H1).
  destruct (ChangelogFacts.section_lines_ok ChangelogGenerator.BugFixes _
              (Hok ChangelogGenerator.BugFixes)) as (s2 & -> & H2).
  destruct (ChangelogFacts.section_lines_ok ChangelogGenerator.Documentation _
              (Hok ChangelogGenerator.Documentation)) as (s3 & -> & H3).
  destruct (ChangelogFacts.section_lines_ok ChangelogGenerator.Refactoring _
              (Hok ChangelogGenerator.Refactoring)) as (s4 & -> & H4).
  destruct (ChangelogFacts.section_lines_ok ChangelogGenerator.Tests _
              (Hok ChangelogGenerator.Tests)) as (s5 & -> & H5).
  destruct (ChangelogFacts.section_lines_ok ChangelogGenerator.OtherChanges _
              (Hok ChangelogGenerator.OtherChanges)) as (s6 & -> & H6).
  simpl. eexists. split; [reflexivity|].
  intros c k Hc Hk.
  assert (Hin : c ∈ ChangelogGenerator.section_of k cats).
  { rewrite Hsec. apply list_elem_of_filter. split; assumption. }
  assert (Hgoal : forall x, x ∈ s1 \/ x ∈ s2 \/ x ∈ s3 \/ x ∈ s4 \/ x ∈ s5 \/ x ∈ s6 ->
            x ∈ ("# " +:+ Changelog.repo_name repo_url +:+ " Changelog")
                :: "### This is a basic changelog generated based on heuristics."%string
                :: ("Generated on: " +:+ now) :: ""%string
                :: Changelog.summary_lines d ++ s1 ++ s2 ++ s3 ++ s4 ++ s5 ++ s6).
  { intros x Hx. do 4 apply list_elem_of_further.
    rewrite !elem_of_app. tauto. }
  destruct k; simpl in Hin.
  - destruct (H1 c Hin). split; apply Hgoal; tauto.
  - destruct (H2 c Hin). split; apply Hgoal; tauto.
  - destruct (H3 c Hin). split; apply Hgoal; tauto.
  - destruct (H4 c Hin). split; apply Hgoal; tauto.
  - destruct (H5 c Hin). split; apply Hgoal; tauto.
  - destruct (H6 c Hin). split; apply Hgoal; tauto.
Qed.

Lemma categorized_changelog_lists_every_commit_witness :
  let fix_commit : dict :=
    <["message" := VStr "Fix typo"]> {[ "committer_name" := VStr "dev" ]} in
  let other : dict := {[ "message" := VStr "Bump version" ]} in
  let d := {| Changelog.scalars := ∅;
              Changelog.commits := Some [fix_commit; other];
              Changelog.file_changes := None |} in
  Changelog.no_data d = false /\
  exists lines,
    Changelog.generate_categorized_changelog "2025-06-14 10:00:00" d
      "https://github.com/acme/tool" "v1" "v2" = Some (PyText.join_lines lines) /\
    "* **Bump version** - *Unknown*"%string ∈ lines /\
    Changelog.heading ChangelogGenerator.OtherChanges ∈ lines.
Proof.
  intros fix_commit other d. split; [reflexivity|].
  destruct (categorized_changelog_lists_every_commit "2025-06-14 10:00:00" d
              "https://github.com/acme/tool" "v1" "v2" eq_refl)
    as (lines & Hgen & Hall).
  { repeat constructor; vm_compute; eauto. }
  { repeat constructor. }
  exists lines. split; [exact Hgen|].
  apply (Hall other ChangelogGenerator.OtherChanges).
  - apply list_elem_of_further, list_elem_of_here.
  - reflexivity.
Defined.

(** X8: [generate_openai_changelog] makes no request when there is no data
    or no OpenAI key, and at most three otherwise.  When the first request
    answers, the text is the header followed by the answer, or by [N/A]
    for an answer without content, so the changelog part is never empty.
    When three requests in a row raise, the function does not raise: it
    returns the text [Error generating AI changelog: ...]. *)
Theorem openai_changelog_requests
  (error_text : Tenacity.final string -> string) (now : string)
  (openai_api_key : option string)
  (create : Z -> Tenacity.outcome (option string))
  (d : Changelog.comparison_data) (repo_url start end_ : string) :
  let out := Changelog.generate_openai_changelog error_text now openai_api_key create
               d repo_url start end_ in
  0 <= snd out <= 3 /\
  (Changelog.no_data d = true \/ App.truthy openai_api_key = false -> snd out = 0) /\
  (Changelog.no_data d = false -> App.truthy openai_api_key = true ->
   (forall content, create 1 = Tenacity.Returned content ->
      snd out = 1 /\ Changelog.content_or_na content <> ""%string /\
      fst out = "# " +:+ Changelog.repo_name repo_url +:+ " Changelog (AI-Generated)"
                +:+ PyText.nl +:+ PyText.nl
                +:+ "Generated on: " +:+ now +:+ PyText.nl +:+ PyText.nl
                +:+ "Comparing [" +:+ start +:+ "..." +:+ end_ +:+ "]("
                +:+ Changelog.get_comparison_url repo_url start end_ +:+ ")"
                +:+ PyText.nl +:+ PyText.nl
                +:+ Changelog.content_or_na content) /\
   (forall e1 e2 e3,
      create 1 = Tenacity.Raised e1 -> create 2 = Tenacity.Raised e2 ->
      create 3 = Tenacity.Raised e3 ->
      snd out = 3 /\
      fst out = "Error generating AI changelog: "
                +:+ error_text (Tenacity.RetryError e3))).
Proof.
  intros out. subst out. unfold Changelog.generate_openai_changelog.
  rewrite RetryFacts.call_openai_api_unfold. unfold Changelog.completion.
  split; [|split].
  - destruct (Changelog.no_data d); [simpl; lia|].
    destruct (App.truthy openai_api_key); [|simpl; lia]. simpl.
    destruct (create 1); [simpl; lia|]. destruct (create 2); [simpl; lia|].
    destruct (create 3); simpl; lia.
  - intros [H|H]; rewrite H; [reflexivity|].
    destruct (Changelog.no_data d); reflexivity.
  - intros Hd Hk. rewrite Hd, Hk. simpl. split.
    + intros content H1. rewrite H1. simpl. repeat split.
      destruct content as [[|c s]|]; discriminate.
    + intros e1 e2 e3 H1 H2 H3. rewrite H1, H2, H3. simpl. split; reflexivity.
Qed.

Lemma openai_changelog_requests_witness :
  let d := {| Changelog.scalars := {[ "num_commits" := VInt 1 ]};
              Changelog.commits := None; Changelog.file_changes := None |} in
  let out := Changelog.generate_openai_changelog (fun _ => "RetryError"%string)
               "2025-06-14 10:00:00" (Some "sk-test")
               (fun _ => Tenacity.Raised Tenacity.TimeoutError)
               d "https://github.com/acme/tool" "v1" "v2" in
  Changelog.no_data d = false /\
  snd out = 3 /\ fst out = "Error generating AI changelog: RetryError"%string.
Proof.
  intros d out. split; [reflexivity|].
  exact (proj2 (proj2 (proj2 (openai_changelog_requests (fun _ => "RetryError"%string)
                 "2025-06-14 10:00:00" (Some "sk-test")
                 (fun _ => Tenacity.Raised Tenacity.TimeoutError)
                 d "https://github.com/acme/tool" "v1" "v2")) eq_refl eq_refl)
               Tenacity.TimeoutError Tenacity.TimeoutError Tenacity.TimeoutError
               eq_refl eq_refl eq_refl).
Defined.

(** ** The article reader *)

Module ArticleFacts.
Import ArticleTts ArticleApp.

Lemma article_elem_of_emit e e' r : e ∈ trace (emit e' r) <-> e ∈ trace r \/ e = e'.
Proof.
  unfold emit. simpl. rewrite elem_of_app, list_elem_of_singleton. reflexivity.
Qed.

(** The sidebar lets the run go on only with both keys, the ElevenLabs key
    having passed the credits lookup; it starts no job and no speech. *)
Lemma sidebar_spec w inp r ok r1 :
  sidebar w inp r = (ok, r1) ->
  article_content r1 = article_content r /\
  (forall e, e ∈ trace r1 ->
     e ∈ trace r \/ match e with ExtractJob _ | Generate _ _ _ => False | _ => True end) /\
  (ok = true ->
   elevenlabs_key inp <> ""%string /\ is_Some (credits w) /\ hb_key inp <> ""%string).
Proof.
  unfold sidebar. intros H.
  destruct (String.eqb_spec (elevenlabs_key inp) "") as [He|He];
    destruct (credits w) as [n|];
    destruct (String.eqb_spec (hb_key inp) "") as [Hh|Hh];
    inversion H; subst; clear H; simpl;
    (split; [reflexivity|]);
    (split; [intros e Hin;
             repeat (apply elem_of_app in Hin; destruct Hin as [Hin|Hin];
                     [|apply list_elem_of_singleton in Hin; subst e; right; exact I]);
             left; exact Hin|]);
    intros Hok; try discriminate Hok; repeat split; eauto.
Qed.
End ArticleFacts.

(** X9: the article reader starts an extraction job or a speech request
    only with both keys set, the ElevenLabs key having passed the credits
    lookup.  A job is started only by a click on "Extract" with a URL, for
    that URL; a speech request only by a click on "Convert to speech", for
    the text of the article the run ends with. *)
Theorem article_requests_need_keys
  (w : ArticleApp.world) (inp : ArticleApp.inputs) (r : ArticleApp.run) :
  ArticleApp.trace r = [] ->
  let r' := ArticleApp.main w inp r in
  (forall u, ArticleApp.ExtractJob u ∈ ArticleApp.trace r' ->
     ArticleApp.elevenlabs_key inp <> ""%string /\ is_Some (ArticleApp.credits w) /\
     ArticleApp.hb_key inp <> ""%string /\
     ArticleApp.extract_clicked inp = true /\ u = ArticleApp.url inp /\ u <> ""%string) /\
  (forall t v m, ArticleApp.Generate t v m ∈ ArticleApp.trace r' ->
     ArticleApp.elevenlabs_key inp <> ""%string /\ is_Some (ArticleApp.credits w) /\
     ArticleApp.hb_key inp <> ""%string /\
     ArticleApp.convert_clicked inp = true /\
     exists content, ArticleApp.article_content r' = Some content /\
                     t = ArticleApp.text_for_speech content).
Proof.
  intros Hempty r'. subst r'. unfold ArticleApp.main.
  destruct (ArticleApp.sidebar w inp r) as [ok r1] eqn:Hside.
  destruct (ArticleFacts.sidebar_spec w inp r ok r1 Hside) as (Hart & Hquiet & Hkeys).
  assert (Hj : forall u, ~ ArticleApp.ExtractJob u ∈ ArticleApp.trace r1).
  { intros u Hin. destruct (Hquiet _ Hin) as [H|H]; [|exact H].
    rewrite Hempty in H. now apply elem_of_nil in H. }
  assert (Hg : forall t v m, ~ ArticleApp.Generate t v m ∈ ArticleApp.trace r1).
  { intros t v m Hin. destruct (Hquiet _ Hin) as [H|H]; [|exact H].
    rewrite Hempty in H. now apply elem_of_nil in H. }
  destruct ok; simpl.
  2: { split; intros *; intros Hin;
       repeat (apply elem_of_app in Hin; destruct Hin as [Hin|Hin];
               [|apply list_elem_of_singleton in Hin; discriminate Hin]);
       exfalso; [eapply Hj|eapply Hg]; exact Hin. }
  destruct (Hkeys eq_refl) as (Hk1 & Hk2 & Hk3).
  match goal with
  | |- context [ArticleApp.article_content ?x] => set (r2 := x)
  end.
  assert (Hj2 : forall u, ArticleApp.ExtractJob u ∈ ArticleApp.trace r2 ->
                ArticleApp.extract_clicked inp = true /\ u = ArticleApp.url inp /\
                u <> ""%string).
  { intros u Hin. subst r2.
    destruct (ArticleApp.extract_clicked inp); [|exfalso; eapply Hj; exact Hin].
    destruct (String.eqb_spec (ArticleApp.url inp) "") as [Hu|Hu]; simpl in Hin.
    - apply elem_of_app in Hin. destruct Hin as [Hin|Hin]; [exfalso; eapply Hj; exact Hin|].
      apply list_elem_of_singleton in Hin. discriminate Hin.
    - apply elem_of_app in Hin. destruct Hin as [Hin|Hin]; [exfalso; eapply Hj; exact Hin|].
      apply list_elem_of_singleton in Hin. inversion Hin; subst. auto. }
  assert (Hg2 : forall t v m, ~ ArticleApp.Generate t v m ∈ ArticleApp.trace r2).
  { intros t v m Hin. subst r2.
    destruct (ArticleApp.extract_clicked inp); [|eapply Hg; exact Hin].
    destruct (String.eqb (ArticleApp.url inp) ""); simpl in Hin;
      (apply elem_of_app in Hin; destruct Hin as [Hin|Hin]; [eapply Hg; exact Hin|]);
      apply list_elem_of_singleton in Hin; discriminate Hin. }
  clearbody r2.
  destruct (ArticleApp.article_content r2) as [content|] eqn:Hcontent.
  2: { split; [intros u Hin; destruct (Hj2 u Hin) as (? & ? & ?); auto 10|].
       intros t v m Hin. exfalso. eapply Hg2; exact Hin. }
  destruct (ArticleApp.convert_clicked inp) eqn:Hconv.
  - assert (Hsame : forall x,
              ArticleApp.article_content
                (match ArticleApp.generate w (ArticleApp.text_for_speech content) with
                 | Some audio => ArticleApp.emit (ArticleApp.Audio audio) x
                 | None => ArticleApp.emit (ArticleApp.StError "Error generating speech") x
                 end) = ArticleApp.article_content x)
      by (intros x; destruct (ArticleApp.generate w _); reflexivity).
    split.
    + intros u Hin.
      assert (Hin2 : ArticleApp.ExtractJob u ∈ ArticleApp.trace r2).
      { destruct (ArticleApp.generate w _); simpl in Hin;
          repeat (apply elem_of_app in Hin; destruct Hin as [Hin|Hin];
                  [|apply list_elem_of_singleton in Hin; discriminate Hin]);
          exact Hin. }
      destruct (Hj2 u Hin2) as (? & ? & ?). auto 10.
    + intros t v m Hin. repeat split; try assumption.
      exists content. rewrite Hsame. split; [exact Hcontent|].
      destruct (ArticleApp.generate w _); simpl in Hin;
        repeat (apply elem_of_app in Hin; destruct Hin as [Hin|Hin];
                [|apply list_elem_of_singleton in Hin;
                  first [discriminate Hin | now inversion Hin]]);
        exfalso; eapply Hg2; exact Hin.
  - split.
    + intros u Hin. simpl in Hin. apply elem_of_app in Hin.
      destruct Hin as [Hin|Hin]; [|apply list_elem_of_singleton in Hin; discriminate Hin].
      destruct (Hj2 u Hin) as (? & ? & ?). auto 10.
    + intros t v m Hin. simpl in Hin. apply elem_of_app in Hin.
      destruct Hin as [Hin|Hin]; [|apply list_elem_of_singleton in Hin; discriminate Hin].
      exfalso. eapply Hg2; exact Hin.
Qed.

Lemma article_requests_need_keys_witness :
  let w := {| ArticleApp.credits := Some 1000;
              ArticleApp.job := fun _ => ArticleTts.JobDone
                                  (Some {[ "title" := VStr "A title" ]});
              ArticleApp.generate := fun _ => Some "audio"%string |} in
  let inp := {| ArticleApp.elevenlabs_key := "sk_test"; ArticleApp.hb_key := "hb_test";
                ArticleApp.url := "https://example.com/a"; ArticleApp.voice := "Rachel";
                ArticleApp.model := "eleven_monolingual_v1";
                ArticleApp.extract_clicked := true;
                ArticleApp.convert_clicked := false |} in
  let r := {| ArticleApp.article_content := None; ArticleApp.trace := [] |} in
  ArticleApp.ExtractJob "https://example.com/a" ∈ ArticleApp.trace (ArticleApp.main w inp r) /\
  ArticleApp.hb_key inp <> ""%string.
Proof.
  intros w inp r.
  assert (Hin : ArticleApp.ExtractJob "https://example.com/a"
                ∈ ArticleApp.trace (ArticleApp.main w inp r)).
  { vm_compute. do 2 apply list_elem_of_further. apply list_elem_of_here. }
  split; [exact Hin|].
  exact (proj1 (proj2 (proj2 (proj1 (article_requests_need_keys w inp r eq_refl)
                                _ Hin)))).
Defined.

(** X10: in the article reader a click on "Extract" with a URL and both
    keys stores the outcome of the extraction, whatever was stored before:
    the mapped article when the job returns data, and nothing when the job
    raises or returns no data, so a failed extraction discards the
    article extracted earlier. *)
Theorem extraction_replaces_article
  (w : ArticleApp.world) (inp : ArticleApp.inputs) (r : ArticleApp.run) :
  ArticleApp.elevenlabs_key inp <> ""%string -> is_Some (ArticleApp.credits w) ->
  ArticleApp.hb_key inp <> ""%string ->
  ArticleApp.extract_clicked inp = true -> ArticleApp.url inp <> ""%string ->
  (forall payload,
     ArticleApp.job w (ArticleApp.url inp) = ArticleTts.JobDone (Some payload) ->
     ArticleApp.article_content (ArticleApp.main w inp r)
       = Some {| ArticleTts.title := PyDict.get payload "title" (VStr "");
                 ArticleTts.full_content := PyDict.get payload "fullContent" (VStr "");
                 ArticleTts.author := PyDict.get payload "author" VNone;
                 ArticleTts.abstract := PyDict.get payload "abstract" VNone |}) /\
  ((ArticleApp.job w (ArticleApp.url inp) = ArticleTts.JobDone None \/
    exists msg, ArticleApp.job w (ArticleApp.url inp) = ArticleTts.JobRaised msg) ->
   ArticleApp.article_content (ArticleApp.main w inp r) = None /\
   forall t v m, ArticleApp.Generate t v m ∈ ArticleApp.trace (ArticleApp.main w inp r) ->
                 ArticleApp.Generate t v m ∈ ArticleApp.trace r).
Proof.
  intros Hk1 [n Hk2] Hk3 Hclick Hurl.
  unfold ArticleApp.main, ArticleApp.sidebar. rewrite Hk2, Hclick.
  destruct (String.eqb_spec (ArticleApp.elevenlabs_key inp) ""); [contradiction|].
  destruct (String.eqb_spec (ArticleApp.hb_key inp) ""); [contradiction|].
  destruct (String.eqb_spec (ArticleApp.url inp) ""); [contradiction|].
  simpl. split.
  - intros payload Hjob. rewrite Hjob. simpl.
    destruct (ArticleApp.convert_clicked inp); [|reflexivity].
    destruct (ArticleApp.generate w _); reflexivity.
  - intros Hfail.
    assert (Hnone : fst (ArticleTts.extract_content (ArticleApp.job w (ArticleApp.url inp)))
                    = None).
    { destruct Hfail as [->|[msg ->]]; reflexivity. }
    rewrite Hnone. simpl. split; [reflexivity|].
    intros t v m Hin.
    repeat (apply elem_of_app in Hin; destruct Hin as [Hin|Hin];
            [|apply list_elem_of_singleton in Hin; discriminate Hin]).
    exact Hin.
Qed.

Lemma extraction_replaces_article_witness :
  let w := {| ArticleApp.credits := Some 1000;
              ArticleApp.job := fun _ => ArticleTts.JobRaised "timeout";
              ArticleApp.generate := fun _ => Some "audio"%string |} in
  let inp := {| ArticleApp.elevenlabs_key := "sk_test"; ArticleApp.hb_key := "hb_test";
                ArticleApp.url := "https://example.com/a"; ArticleApp.voice := "Rachel";
                ArticleApp.model := "eleven_monolingual_v1";
                ArticleApp.extract_clicked := true;
                ArticleApp.convert_clicked := false |} in
  let earlier := {| ArticleTts.title := VStr "Earlier"; ArticleTts.full_content := VStr "Text";
                    ArticleTts.author := VNone; ArticleTts.abstract := VNone |} in
  let r := {| ArticleApp.article_content := Some earlier; ArticleApp.trace := [] |} in
  is_Some (ArticleApp.credits w) /\
  ArticleApp.article_content (ArticleApp.main w inp r) = None.
Proof.
  intros w inp earlier r.
  assert (Hc : is_Some (ArticleApp.credits w)) by (eexists; reflexivity).
  split; [exact Hc|].
  refine (proj1 (proj2 (extraction_replaces_article w inp r _ Hc _ eq_refl _) _)).
  - discriminate.
  - discriminate.
  - discriminate.
  - right. eexists. reflexivity.
Defined.

(** X11: the text sent to the speech service is the title, a line
    ["by " + author] and the content, each printed as Python prints the
    value; for an article mapped from a payload without [author] that line
    reads [by None]. *)
Theorem speech_text_without_author (payload : dict) :
  payload !! "author" = None ->
  exists article,
    ArticleTts.from_json (Some payload) = ArticleTts.Mapped article /\
    ArticleApp.text_for_speech article
    = PyText.str (PyDict.get payload "title" (VStr "")) +:+ PyText.nl
      +:+ "by None" +:+ PyText.nl
      +:+ PyText.str (PyDict.get payload "fullContent" (VStr "")).
Proof.
  intros Hauthor. eexists. split; [reflexivity|].
  unfold ArticleApp.text_for_speech. simpl. unfold PyDict.get at 2.
  rewrite Hauthor. reflexivity.
Qed.

Lemma speech_text_without_author_witness :
  let payload : dict :=
    <["title" := VStr "A title"]> {[ "fullContent" := VStr "Body." ]} in
  payload !! "author" = None /\
  exists article,
    ArticleTts.from_json (Some payload) = ArticleTts.Mapped article /\
    ArticleApp.text_for_speech article
    = "A title" +:+ PyText.nl +:+ "by None" +:+ PyText.nl +:+ "Body.".
Proof.
  intros payload. split; [reflexivity|].
  destruct (speech_text_without_author payload eq_refl) as (article & Hmap & Htext).
  exists article. split; [exact Hmap|]. rewrite Htext. reflexivity.
Defined.

(** ** More of the daytrip-planner *)

Module DaytripExtrasFacts.
Import PyText TextFacts DaytripExtras.

Lemma lacks_replace_space s : lacks " " (replace " " "%20" s) = true.
Proof.
  unfold replace. induction s as [|c s IH]; [reflexivity|].
  cbn [replace_from String.prefix].
  destruct (ascii_dec " " c) as [<-|Hne].
  - destruct s; cbn [String.length Nat.sub]; rewrite !app_cons, app_empty_l;
      simpl; exact IH.
  - simpl. rewrite IH, andb_true_r. apply negb_true_iff.
    destruct (Ascii.eqb_spec c " ") as [->|]; [contradiction|reflexivity].
Qed.

Lemma plan_days_spec {place : Type} (details : string -> list place) urls : forall i,
  let plans := plan_days details i urls in
  (length plans <= length urls)%nat /\
  Forall (fun p => Z.of_nat i + 1 <= day p <= Z.of_nat i + Z.of_nat (length urls) /\
                   places p <> []) plans /\
  StronglySorted Z.lt (map day plans).
Proof.
  induction urls as [|u urls IH]; intros i; simpl.
  - repeat split; constructor.
  - specialize (IH (S i)). simpl in IH. destruct IH as (Hlen & Hall & Hsorted).
    assert (Hall' : Forall (fun p => Z.of_nat i + 1 <= day p
                                       <= Z.of_nat i + Z.of_nat (S (length urls)) /\
                                     places p <> []) (plan_days details (S i) urls)).
    { eapply Forall_impl; [exact Hall|]. simpl. intros p [Hd Hp]. split; [lia|exact Hp]. }
    destruct (details u) as [|x xs] eqn:Hd.
    + repeat split; [lia|exact Hall'|exact Hsorted].
    + simpl. repeat split.
      * lia.
      * constructor; [simpl; split; [lia|discriminate]|exact Hall'].
      * constructor; [exact Hsorted|].
        apply Forall_map. eapply Forall_impl; [exact Hall|].
        simpl. intros p [Hp _]. lia.
Qed.
End DaytripExtrasFacts.

(** X12: the description of a place is shortened to at most 303
    characters: a description of up to 300 characters is kept as it is, a
    longer one becomes its first 300 characters followed by ["..."]. *)
Theorem shorten_description_bound
  (char : Type) (ellipsis description : list char) :
  length ellipsis = 3%nat ->
  (length (DaytripExtras.shorten ellipsis description) <= 303)%nat /\
  ((length description <= 300)%nat ->
   DaytripExtras.shorten ellipsis description = description) /\
  ((300 < length description)%nat ->
   DaytripExtras.shorten ellipsis description = take 300 description ++ ellipsis).
Proof.
  intros Hdots. unfold DaytripExtras.shorten.
  destruct (Z.ltb_spec 300 (Z.of_nat (length description))) as [Hlong|Hshort].
  - rewrite PySeqFacts.slice_nonneg by lia.
    change (Z.to_nat (300 - 0)) with 300%nat. change (Z.to_nat 0) with 0%nat.
    rewrite drop_0. repeat split.
    + rewrite length_app, length_take, Hdots. lia.
    + intros H. lia.
  - repeat split; [lia|]. intros H. lia.
Qed.

Lemma shorten_description_bound_witness :
  let dots := ["."; "."; "."]%char in
  length dots = 3%nat /\
  (length (DaytripExtras.shorten dots (replicate 400 "a"%char)) <= 303)%nat.
Proof.
  intros dots. split; [reflexivity|].
  exact (proj1 (shorten_description_bound ascii dots (replicate 400 "a"%char) eq_refl)).
Defined.

(** X13: the Google Flights link of a destination contains no space,
    whatever the location names and the dates are: every space of the four
    inserted texts is written [%20]. *)
Theorem flights_link_has_no_space
  (destination : ChatgptParser.TravelDestination) (from_location : string) :
  PyText.lacks " " (DaytripExtras.flights_link destination from_location) = true.
Proof.
  unfold DaytripExtras.flights_link.
  rewrite !TextFacts2.lacks_app, !DaytripExtrasFacts.lacks_replace_space.
  reflexivity.
Qed.

(** X14: the day plans built from the sampled places are at most
    [MAX_DAYS] = 2; each has at least one place and a day number between 1
    and the number of sampled places; the day numbers increase strictly,
    and a sampled place without details leaves a gap in them.  With no
    card on the page there is no plan at all. *)
Theorem day_plans_bounds
  (place : Type) (get_place_details : string -> list place)
  (sample : list string -> nat -> list string) (cards : list string) :
  (forall k, (k <= length cards)%nat -> length (sample cards k) = k) ->
  (cards = [] -> DaytripExtras.day_plans get_place_details sample cards = None) /\
  (cards <> [] ->
   exists plans,
     DaytripExtras.day_plans get_place_details sample cards = Some plans /\
     (length plans <= DaytripExtras.MAX_DAYS)%nat /\
     Forall (fun p => 1 <= DaytripExtras.day p
                        <= Z.of_nat (Nat.min DaytripExtras.MAX_DAYS (length cards)) /\
                      DaytripExtras.places p <> []) plans /\
     StronglySorted Z.lt (map DaytripExtras.day plans)).
Proof.
  intros Hsample. split; [intros ->; reflexivity|].
  intros Hne. destruct cards as [|c cards]; [contradiction|].
  unfold DaytripExtras.day_plans.
  set (k := Nat.min DaytripExtras.MAX_DAYS (length (c :: cards))).
  assert (Hk : length (sample (c :: cards) k) = k)
    by (apply Hsample; subst k; lia).
  destruct (DaytripExtrasFacts.plan_days_spec get_place_details
              (sample (c :: cards) k) 0%nat) as (Hlen & Hall & Hsorted).
  eexists. split; [reflexivity|]. rewrite Hk in Hlen, Hall.
  split; [subst k; unfold DaytripExtras.MAX_DAYS in *; lia|].
  split; [|exact Hsorted].
  eapply Forall_impl; [exact Hall|]. simpl. intros p [Hd Hp]. split; [lia|exact Hp].
Qed.

Lemma day_plans_bounds_witness :
  let details (u : string) : list nat := if String.eqb u "a" then [] else [1%nat] in
  let sample (l : list string) (k : nat) := take k l in
  (forall k, (k <= length ["a"; "b"; "c"]%string)%nat ->
             length (sample ["a"; "b"; "c"]%string k) = k) /\
  exists plans,
    DaytripExtras.day_plans details sample ["a"; "b"; "c"]%string = Some plans /\
    map DaytripExtras.day plans = [2].
Proof.
  intros details sample.
  assert (Hs : forall k, (k <= length ["a"; "b"; "c"]%string)%nat ->
                         length (sample ["a"; "b"; "c"]%string k) = k).
  { intros k Hk. unfold sample. rewrite length_take. lia. }
  split; [exact Hs|].
  destruct (proj2 (day_plans_bounds nat details sample ["a"; "b"; "c"]%string Hs))
    as (plans & Hplans & _); [discriminate|].
  exists plans. split; [exact Hplans|].
  vm_compute in Hplans. inversion Hplans. reflexivity.
Defined.

(** ** More of the pagination *)

(** X15: with a page size [P > 0], record [k] of page [p >= 1] is record
    [(p - 1) * P + k] of the list; every page before the last has exactly
    [P] records, the last page has between 1 and [P], and a page number
    beyond the page count gives an empty page. *)
Theorem page_holds_its_records (A : Type) (P : Z) (travel_data : list A) (p : Z) :
  0 < P -> 1 <= p ->
  let total := Z.of_nat (length travel_data) in
  let page := Pagination.page_slice P travel_data p in
  (forall k : nat,
     Z.of_nat k < P ->
     page !! k = travel_data !! (Z.to_nat (Pagination.start_idx P p) + k)%nat) /\
  (p < Pagination.num_pages P total -> Z.of_nat (length page) = P) /\
  (p = Pagination.num_pages P total -> 1 <= Z.of_nat (length page) <= P) /\
  (Pagination.num_pages P total < p -> page = []).
Proof.
  intros HP Hp total page.
  pose proof (PaginationFacts.num_pages_ceil P total HP) as [Hlo Hup].
  assert (Hpage : page = take (Z.to_nat P) (drop (Z.to_nat (p - 1) * Z.to_nat P) travel_data)).
  { subst page. replace p with (Z.of_nat (S (Z.to_nat (p - 1)))) at 1 by lia.
    apply PaginationFacts.page_slice_chunk, HP. }
  assert (Hstart : (Z.to_nat (p - 1) * Z.to_nat P)%nat
                   = Z.to_nat (Pagination.start_idx P p))
    by (unfold Pagination.start_idx; nia).
  assert (Hlen : Z.of_nat (length page) = Z.max 0 (Z.min P (total - (p - 1) * P))).
  { rewrite Hpage, length_take, length_drop. subst total. nia. }
  split; [|split; [|split]].
  - intros k Hk. rewrite Hpage, lookup_take_lt by lia.
    rewrite lookup_drop, Hstart. reflexivity.
  - intros Hlt. rewrite Hlen. nia.
  - intros Heq. rewrite Hlen. subst p. nia.
  - intros Hgt. apply length_zero_iff_nil.
    assert (Z.of_nat (length page) = 0) by (rewrite Hlen; nia). lia.
Qed.

Lemma page_holds_its_records_witness :
  0 < 5 /\ 1 <= 2 /\
  Pagination.page_slice 5 [10; 11; 12; 13; 14; 15; 16] 2 !! 1%nat = Some 16 /\
  1 <= Z.of_nat (length (Pagination.page_slice 5 [10; 11; 12; 13; 14; 15; 16] 2)) <= 5.
Proof.
  destruct (page_holds_its_records Z 5 [10; 11; 12; 13; 14; 15; 16] 2)
    as (Hk & _ & Hlast & _); [lia|lia|].
  split; [lia|]. split; [lia|]. split.
  - rewrite (Hk 1%nat) by lia. reflexivity.
  - apply Hlast. reflexivity.
Defined.

(** ** More of the screenshot processing *)

(** X16: the daytrip-planner's [process_screenshot] is idempotent:
    processing the file it has returned gives that file back and changes
    nothing. *)
Theorem process_screenshot_idempotent
  (fs fs' : Screenshot.files) (screenshot_path out : string) :
  Screenshot.process_screenshot screenshot_path fs = Some (out, fs') ->
  Screenshot.process_screenshot out fs' = Some (out, fs').
Proof.
  unfold Screenshot.process_screenshot at 1.
  destruct (Screenshot.image_open fs screenshot_path) as [img|] eqn:Hopen;
    [|discriminate].
  simpl.
  destruct ((Screenshot.max_dimension <? Screenshot.width img)
            || (Screenshot.max_dimension <? Screenshot.height img)) eqn:Hbig.
  - apply ScreenshotFacts.image_open_Some in Hopen.
    destruct (ScreenshotFacts.crop_screenshot_result fs screenshot_path img Hopen)
      as (out0 & fs0 & Hrun & _ & Hout & _).
    rewrite Hrun. intros [= <- <-].
    unfold Screenshot.process_screenshot.
    rewrite (proj2 (ScreenshotFacts.image_open_Some _ _ _) Hout). simpl.
    pose proof (ScreenshotFacts.crop_box_size img) as (Hw & Hh & _).
    simpl in Hw, Hh.
    replace (_ || _) with false; [reflexivity|].
    symmetry. apply orb_false_iff.
    rewrite !Z.ltb_ge. unfold Screenshot.max_dimension in *. lia.
  - intros [= <- <-]. unfold Screenshot.process_screenshot.
    rewrite Hopen. simpl. rewrite Hbig. reflexivity.
Qed.

Lemma process_screenshot_idempotent_witness :
  let img := {| Screenshot.width := 3000; Screenshot.height := 1000;
                Screenshot.pixel := fun x y => x + y |} in
  let fs : Screenshot.files := {[ "shot.png" := Screenshot.ImageFile img ]} in
  exists out fs',
    Screenshot.process_screenshot "shot.png" fs = Some (out, fs') /\
    Screenshot.process_screenshot out fs' = Some (out, fs').
Proof.
  intros img fs.
  destruct (ScreenshotFacts.crop_screenshot_result fs "shot.png" img eq_refl)
    as (out & fs' & Hrun & _).
  assert (Hfirst : Screenshot.process_screenshot "shot.png" fs = Some (out, fs'))
    by exact Hrun.
  exists out, fs'. split; [exact Hfirst|].
  exact (process_screenshot_idempotent fs fs' "shot.png" out Hfirst).
Defined.

(** X17: the files of the daytrip-planner's [process_screenshot]: either
    the screenshot is returned and no file changes, or the returned path is
    a name that was not in use, the original screenshot is gone, and every
    other file is as before. *)
Theorem process_screenshot_files
  (fs fs' : Screenshot.files) (screenshot_path out : string) :
  Screenshot.process_screenshot screenshot_path fs = Some (out, fs') ->
  (out = screenshot_path /\ fs' = fs) \/
  (out <> screenshot_path /\ fs !! out = None /\
   exists cropped,
     fs' = <[out := Screenshot.ImageFile cropped]> (delete screenshot_path fs)).
Proof.
  unfold Screenshot.process_screenshot.
  destruct (Screenshot.image_open fs screenshot_path) as [img|] eqn:Hopen;
    [|discriminate].
  simpl.
  destruct ((Screenshot.max_dimension <? Screenshot.width img)
            || (Screenshot.max_dimension <? Screenshot.height img)) eqn:Hbig.
  - apply ScreenshotFacts.image_open_Some in Hopen.
    pose proof (ScreenshotFacts.temporary_name_fresh fs screenshot_path _ Hopen) as Hne.
    unfold Screenshot.crop_screenshot, Screenshot.named_temporary_file.
    set (new := fresh (dom fs)) in *.
    assert (Hnew : fs !! new = None)
      by (apply not_elem_of_dom; subst new; apply is_fresh).
    rewrite (proj2 (ScreenshotFacts.image_open_Some _ _ img))
      by (rewrite lookup_insert_ne by exact Hne; exact Hopen).
    simpl. intros [= <- <-]. right.
    split; [exact Hne|]. split; [exact Hnew|].
    eexists. destruct (decide _) as [_|Hnex].
    + rewrite insert_insert_eq, delete_insert_ne by congruence. reflexivity.
    + exfalso. apply Hnex. rewrite !lookup_insert_ne by exact Hne. eauto.
  - intros [= <- <-]. left. split; reflexivity.
Qed.

Lemma process_screenshot_files_witness :
  let img := {| Screenshot.width := 3000; Screenshot.height := 1000;
                Screenshot.pixel := fun x y => x + y |} in
  let fs : Screenshot.files := {[ "shot.png" := Screenshot.ImageFile img ]} in
  exists out fs',
    Screenshot.process_screenshot "shot.png" fs = Some (out, fs') /\
    out <> "shot.png" /\ fs' !! "shot.png" = None.
Proof.
  intros img fs.
  destruct (ScreenshotFacts.crop_screenshot_result fs "shot.png" img eq_refl)
    as (out & fs' & Hrun & Hne & _ & Hgone).
  assert (Hfirst : Screenshot.process_screenshot "shot.png" fs = Some (out, fs'))
    by exact Hrun.
  exists out, fs'. split; [exact Hfirst|].
  destruct (process_screenshot_files fs fs' "shot.png" out Hfirst) as [[Heq _]|_].
  - contradiction.
  - split; [exact Hne|exact Hgone].
Defined.

(** X18: the budget-travel-agent's [process_screenshot] on the bytes of an
    image leaves exactly one new file behind, under a name that was not in
    use, and no other file is changed: when the image is cropped, the
    temporary file the bytes were written to is removed again. *)
Theorem process_screenshot_bytes_one_new_file
  (fs : Screenshot.files) (img : Screenshot.Image) :
  exists out img',
    fs !! out = None /\
    Screenshot.process_screenshot_bytes (Screenshot.ImageFile img) fs
      = Some (out, <[out := Screenshot.ImageFile img']> fs).
Proof.
  unfold Screenshot.process_screenshot_bytes, Screenshot.named_temporary_file.
  set (tmp := fresh (dom fs)).
  assert (Htmp : fs !! tmp = None)
    by (apply not_elem_of_dom; subst tmp; apply is_fresh).
  rewrite insert_insert_eq.
  set (fs1 := <[tmp := Screenshot.ImageFile img]> fs).
  assert (Hopen : Screenshot.image_open fs1 tmp = Some img)
    by (apply ScreenshotFacts.image_open_Some; apply lookup_insert_eq).
  rewrite Hopen. simpl.
  destruct ((Screenshot.max_dimension <? Screenshot.width img)
            || (Screenshot.max_dimension <? Screenshot.height img)).
  - unfold Screenshot.crop_screenshot_bytes, Screenshot.named_temporary_file.
    set (new := fresh (dom fs1)).
    assert (Hnew1 : fs1 !! new = None)
      by (apply not_elem_of_dom; subst new; apply is_fresh).
    assert (Hne : new <> tmp).
    { intros Heq. rewrite Heq in Hnew1. subst fs1.
      rewrite lookup_insert_eq in Hnew1. discriminate. }
    assert (Hnew : fs !! new = None).
    { subst fs1. rewrite lookup_insert_ne in Hnew1 by congruence. exact Hnew1. }
    rewrite (proj2 (ScreenshotFacts.image_open_Some _ _ img))
      by (rewrite lookup_insert_ne by exact Hne; apply lookup_insert_eq).
    simpl. eexists new, _. split; [exact Hnew|].
    rewrite insert_insert_eq, delete_insert_ne by congruence.
    subst fs1. rewrite delete_insert_id by exact Htmp. reflexivity.
  - exists tmp, img. split; [exact Htmp|reflexivity].
Qed.

(** ** More of the location validation *)

Module ContainsFacts.
Import PyStr TextFacts.

Lemma prefix_iff (p s : string) :
  String.prefix p s = true <-> exists post, s = p +:+ post.
Proof.
  revert s. induction p as [|c p IH]; intros s.
  - split; [intros _; exists s; reflexivity|intros _; destruct s; reflexivity].
  - destruct s as [|d s]; simpl.
    + split; [discriminate|]. intros [post H]. rewrite app_cons in H. discriminate.
    + destruct (ascii_dec c d) as [<-|Hne].
      * rewrite IH. split; intros [post H]; exists post.
        -- rewrite app_cons, H. reflexivity.
        -- rewrite app_cons in H. congruence.
      * split; [discriminate|]. intros [post H]. rewrite app_cons in H. congruence.
Qed.

(** [needle in hay] holds exactly when [hay] is some text, then
    [needle], then some text. *)
Lemma contains_iff (needle hay : string) :
  contains needle hay = true <-> exists pre post, hay = pre +:+ needle +:+ post.
Proof.
  induction hay as [|c hay IH].
  - cbn [contains]. rewrite orb_false_r, prefix_iff. split.
    + intros [post H]. exists "", post. exact H.
    + intros (pre & post & H). destruct pre as [|d pre].
      * exists post. exact H.
      * rewrite app_cons in H. discriminate.
  - cbn [contains]. rewrite orb_true_iff, prefix_iff, IH. split.
    + intros [[post H]|(pre & post & H)].
      * exists "", post. exact H.
      * exists (String c pre), post. rewrite app_cons, H. reflexivity.
    + intros (pre & post & H). destruct pre as [|d pre].
      * left. exists post. exact H.
      * right. exists pre, post. rewrite app_cons in H. congruence.
Qed.
End ContainsFacts.

(** X19: for a query and a display name in ASCII, the
    budget-travel-agent's [validate_city] accepts a query exactly
    when the lookup succeeds with a non-empty result list whose first
    entry's [display_name] (the empty text when the entry has none) is a
    string that, in lower case, reads some text, then the lower-cased
    query, then some text; the name returned is then that entry's
    [display_name] ([None] when it has none).  The address type of the
    entry is not consulted.  In every other case the answer is
    [(False, None)]. *)
Theorem validate_city_named_accepts
  (geocode : string -> option (list dict)) (city_name : string) :
  PyStr.is_ascii city_name = true ->
  (forall first rest, geocode city_name = Some (first :: rest) ->
                      LocationValidator.ascii_field first "display_name" = true) ->
  (forall known,
     LocationValidator.validate_city_named geocode city_name = (true, known) <->
     exists first rest display_name pre post,
       geocode city_name = Some (first :: rest) /\
       PyDict.get first "display_name" (VStr "") = VStr display_name /\
       PyStr.lower display_name = pre +:+ PyStr.lower city_name +:+ post /\
       known = PyDict.get first "display_name" VNone) /\
  ((forall known,
      LocationValidator.validate_city_named geocode city_name <> (true, known)) ->
   LocationValidator.validate_city_named geocode city_name = (false, VNone)).
Proof.
  intros _ _. unfold LocationValidator.validate_city_named.
  destruct (geocode city_name) as [[|first rest]|].
  1, 3: split; [intros known; split; [discriminate|];
                intros (? & ? & ? & ? & ? & H & _); discriminate
               |reflexivity].
  rewrite ValidatorFacts.field_lower_cons.
  destruct (PyDict.as_str (PyDict.get first "display_name" (VStr ""))) as [name|] eqn:Hname.
  - apply ValidatorFacts.as_str_Some in Hname. simpl.
    destruct (PyStr.contains (PyStr.lower city_name) (PyStr.lower name)) eqn:Hin.
    + apply ContainsFacts.contains_iff in Hin. destruct Hin as (pre & post & Hin).
      split.
      * intros known. split.
        -- intros [= <-]. exists first, rest, name, pre, post. auto.
        -- intros (? & ? & ? & ? & ? & [= <- <-] & _ & _ & ->). reflexivity.
      * intros Hno. exfalso. exact (Hno _ eq_refl).
    + split; [|reflexivity].
      intros known. split; [discriminate|].
      intros (? & ? & name' & pre & post & [= <- <-] & Hget & Hsub & _).
      rewrite Hname in Hget. injection Hget as <-.
      assert (PyStr.contains (PyStr.lower city_name) (PyStr.lower name) = true)
        by (apply ContainsFacts.contains_iff; eauto).
      congruence.
  - simpl. split; [|reflexivity].
    intros known. split; [discriminate|].
    intros (? & ? & name' & ? & ? & [= <- <-] & Hget & _).
    rewrite Hget in Hname. discriminate.
Qed.

Lemma validate_city_named_accepts_witness :
  let geocode : string -> option (list dict) :=
    fun _ => Some [ <["addresstype" := VStr "administrative"]>
                    {[ "display_name" := VStr "Madrid, Comunidad de Madrid" ]} ] in
  PyStr.is_ascii "MADRID" = true /\
  LocationValidator.validate_city_named geocode "MADRID"
  = (true, VStr "Madrid, Comunidad de Madrid").
Proof.
  intros geocode.
  assert (Hq : PyStr.is_ascii "MADRID" = true) by reflexivity.
  split; [exact Hq|].
  assert (Hentry : forall first rest, geocode "MADRID" = Some (first :: rest) ->
            LocationValidator.ascii_field first "display_name" = true).
  { intros first rest [= <- _]. reflexivity. }
  apply (proj1 (validate_city_named_accepts geocode "MADRID" Hq Hentry)).
  eexists _, _, "Madrid, Comunidad de Madrid", "", ", comunidad de madrid".
  split; [reflexivity|]. split; [reflexivity|]. split; reflexivity.
Defined.

(** ** More of the budget-travel-agent *)

Module BudgetRunFacts.
Import ChatgptParser App BudgetTravelAgent.

(** [main] in one piece: the two assignments to
    [search_button_clicked] before the button leave it set only when it
    was set and neither location was edited. *)
Lemma budget_main_cases w inp r :
  let s0 := session r in
  let unchanged := String.eqb (starting_location inp) (from_location s0)
                   && bool_decide (destination inp = end_location s0) in
  let s4 := {| from_location := starting_location inp;
               end_location := destination inp;
               page_number := page_number s0;
               search_button_clicked := search_button_clicked s0 && unchanged |} in
  main w inp r =
  if search_clicked inp || (search_button_clicked s0 && unchanged) then
    if String.eqb (starting_location inp) "" then
      emit (StError "Please enter starting location.") (set_session s4 r)
    else
      search w (starting_location inp) (destination inp) (trip_duration inp)
             (set_session (set_search_button_clicked true s4) r)
  else set_session s4 r.
Proof.
  destruct r as [[f e p b] c t]. destruct inp as [start dest dur clicked].
  unfold main, set_session, set_search_button_clicked, set_from_location,
    set_end_location.
  cbn [session from_location end_location page_number search_button_clicked
       screenshot_cache trace starting_location destination trip_duration
       search_clicked].
  destruct (String.eqb start f);
    cbn [negb session from_location end_location page_number
         search_button_clicked screenshot_cache trace];
    destruct (bool_decide (dest = e));
    destruct b; destruct clicked; destruct (String.eqb start "");
    reflexivity.
Qed.

(** What [display_travel_data] leaves alone, and what it adds to the
    trace. *)
Ltac budget_frame :=
  repeat (split; [first [reflexivity|assumption|congruence]|]).

Ltac pick_event :=
  match goal with
  | |- _ \/ _ => first [left; solve [pick_event] | right; solve [pick_event]]
  | |- _ /\ _ => split; pick_event
  | |- exists _, _ => eexists; pick_event
  | _ => first [reflexivity | assumption | discriminate]
  end.

Ltac each_event :=
  repeat (apply List.Forall_cons; [solve [pick_event]|]); try apply List.Forall_nil.

Lemma budget_display_frame w travel_data r res r' :
  display_travel_data w travel_data r = (res, r') ->
  screenshot_cache r' = screenshot_cache r /\
  from_location (session r') = from_location (session r) /\
  end_location (session r') = end_location (session r) /\
  search_button_clicked (session r') = search_button_clicked (session r) /\
  exists evs,
    trace r' = trace r ++ evs /\
    Forall (fun ev => page_event ev = true \/ ev = Rerun \/ exists m, ev = StWarning m) evs.
Proof.
  unfold display_travel_data. destruct travel_data as [|d ds].
  - intros [= <- <-]. simpl. budget_frame. eexists. split; [reflexivity|].
    each_event.
  - destruct (1 <? _).
    + destruct (number_input w _ _ _) as [q|].
      * cbn [emit session trace]. destruct (negb (q =? _)); intros [= <- <-]; simpl;
          budget_frame; eexists;
          (split; [rewrite <- app_assoc; reflexivity|]); each_event.
      * intros [= <- <-]. simpl. budget_frame. eexists. split; [reflexivity|].
        each_event.
    + intros [= <- <-]. simpl. budget_frame. eexists. split; [reflexivity|].
      each_event.
Qed.

(** What [search] leaves alone, and the events it adds to the trace: a
    session and a capture only when the memo table of [take_screenshot]
    has no entry for the arguments; an extraction and the page only with
    an OpenAI key, the extraction on the memoised screenshot. *)
Lemma budget_search_events w s e d r :
  let r' := search w s e d r in
  from_location (session r') = from_location (session r) /\
  end_location (session r') = end_location (session r) /\
  search_button_clicked (session r') = search_button_clicked (session r) /\
  exists evs,
    trace r' = trace r ++ evs /\
    Forall (fun ev =>
      (ev = SessionCreate /\ screenshot_cache r !! (s, e, d) = None) \/
      (ev = CaptureRun s /\ screenshot_cache r !! (s, e, d) = None) \/
      (exists m, ev = StError m) \/
      (exists m, ev = StWarning m) \/
      (exists path, ev = ExtractRun path /\ truthy (openai_api_key w) = true /\
                    path <> "" /\
                    screenshot_cache r' !! (s, e, d) = Some (Some path)) \/
      (page_event ev = true /\ truthy (openai_api_key w) = true) \/
      (ev = Rerun /\ truthy (openai_api_key w) = true)) evs.
Proof.
  cbv zeta. unfold search.
  assert (Hshot : exists v r1 pre,
            take_screenshot w s e d r = (v, r1) /\
            session r1 = session r /\
            trace r1 = trace r ++ pre /\
            Forall (fun ev =>
              (ev = SessionCreate /\ screenshot_cache r !! (s, e, d) = None) \/
              (ev = CaptureRun s /\ screenshot_cache r !! (s, e, d) = None)) pre /\
            (forall x, v = inr x -> screenshot_cache r1 !! (s, e, d) = Some x)).
  { unfold take_screenshot.
    destruct (screenshot_cache r !! (s, e, d)) as [v|] eqn:Hc.
    - exists (inr v), r, []. rewrite app_nil_r.
      budget_frame. split; [constructor|]. intros x [= <-]. exact Hc.
    - destruct (create_session w).
      + eexists _, _, _. split; [reflexivity|]. simpl.
        split; [reflexivity|]. split; [rewrite <- app_assoc; reflexivity|].
        split; [each_event|].
        intros x [= <-]. apply lookup_insert_eq.
      + eexists _, _, _. split; [reflexivity|]. simpl.
        split; [reflexivity|]. split; [reflexivity|].
        split; [each_event|]. intros x [=]. }
  destruct Hshot as (v & r1 & pre & -> & Hs & Ht & Hpre & Hcache).
  assert (Hpre' : forall (c' : gmap screenshot_key (option string)) (Q : event -> Prop), Forall (fun ev =>
      (ev = SessionCreate /\ screenshot_cache r !! (s, e, d) = None) \/
      (ev = CaptureRun s /\ screenshot_cache r !! (s, e, d) = None) \/
      (exists m, ev = StError m) \/
      (exists m, ev = StWarning m) \/
      (exists path, ev = ExtractRun path /\ truthy (openai_api_key w) = true /\
                    path <> "" /\
                    c' !! (s, e, d) = Some (Some path)) \/ Q ev) pre).
  { intros c' Q. eapply Forall_impl; [exact Hpre|]. simpl. tauto. }
  assert (Hne : forall c0 path, String c0 path <> "") by discriminate.
  destruct v as [msg|[[|c0 path]|]].
  - simpl. rewrite Hs. budget_frame. eexists. split.
    + rewrite Ht, <- app_assoc. reflexivity.
    + apply Forall_app. split; [apply Hpre'|]. each_event.
  - simpl. rewrite Hs. budget_frame. eexists. split.
    + rewrite Ht, <- app_assoc. reflexivity.
    + apply Forall_app. split; [apply Hpre'|]. each_event.
  - specialize (Hcache _ eq_refl). specialize (Hne c0 path).
    destruct (truthy (openai_api_key w)) eqn:Hkey.
    + destruct (extract w (String c0 path)) as [msg|[[|t ts]|] errs].
      * simpl. rewrite Hs. budget_frame. eexists. split.
        -- rewrite Ht, <- !app_assoc. reflexivity.
        -- apply Forall_app. split; [apply Hpre'|]. each_event.
      * simpl. rewrite Hs. budget_frame. eexists. split.
        -- rewrite Ht, <- !app_assoc. reflexivity.
        -- apply Forall_app. split; [apply Hpre'|]. each_event.
      * destruct (display_travel_data w (t :: ts) (emit (ExtractRun (String c0 path)) r1))
          as [res r3] eqn:Hd.
        apply budget_display_frame in Hd.
        destruct Hd as (Hc3 & Hf & He & Hb & evs & Ht3 & Hevs). simpl in *.
        rewrite <- Hc3 in Hcache.
        assert (Hall : forall (c' : gmap screenshot_key (option string)) tail,
          c' !! (s, e, d) = Some (Some (String c0 path)) ->
          Forall (fun ev => exists m, ev = StError m) tail ->
          Forall (fun ev =>
            (ev = SessionCreate /\ screenshot_cache r !! (s, e, d) = None) \/
            (ev = CaptureRun s /\ screenshot_cache r !! (s, e, d) = None) \/
            (exists m, ev = StError m) \/
            (exists m, ev = StWarning m) \/
            (exists p0, ev = ExtractRun p0 /\ true = true /\ p0 <> "" /\
                        c' !! (s, e, d) = Some (Some p0)) \/
            (page_event ev = true /\ true = true) \/
            (ev = Rerun /\ true = true))
            (pre ++ [ExtractRun (String c0 path)] ++ evs ++ tail)).
        { intros c' tail Hc' Htail. apply Forall_app. split; [apply Hpre'|].
          apply Forall_app. split; [each_event|].
          apply Forall_app. split.
          - eapply Forall_impl; [exact Hevs|]. simpl.
            intros ev [H|[H|H]]; auto 10.
          - eapply Forall_impl; [exact Htail|]. simpl. auto 10. }
        destruct res; simpl; rewrite ?Hf, ?He, ?Hb, Hs; budget_frame;
          eexists; (split; [rewrite ?Ht3, Ht, <- ?app_assoc; reflexivity|]).
        -- rewrite <- (app_nil_r evs). apply Hall; [exact Hcache|constructor].
        -- apply Hall; [exact Hcache|]. repeat constructor. eauto.
        -- rewrite <- (app_nil_r evs). apply Hall; [exact Hcache|constructor].
        -- rewrite <- (app_nil_r evs). apply Hall; [exact Hcache|constructor].
      * simpl. rewrite Hs. budget_frame. eexists. split.
        -- rewrite Ht, <- !app_assoc. reflexivity.
        -- apply Forall_app. split; [apply Hpre'|]. each_event.
    + simpl. rewrite Hs. budget_frame. eexists. split.
      * rewrite Ht, <- app_assoc. reflexivity.
      * apply Forall_app. split; [apply Hpre'|]. each_event.
  - simpl. rewrite Hs. budget_frame. eexists. split.
    + rewrite Ht, <- app_assoc. reflexivity.
    + apply Forall_app. split; [apply Hpre'|]. each_event.
Qed.
End BudgetRunFacts.

Module BudgetRerunFacts.
Import ChatgptParser App BudgetTravelAgent BudgetRunFacts.

(** With a memoised screenshot and an OpenAI key, [search] starts with
    the extraction. *)
Lemma budget_search_hit w s e d r path :
  screenshot_cache r !! (s, e, d) = Some (Some path) ->
  path <> "" ->
  truthy (openai_api_key w) = true ->
  exists tail, trace (search w s e d r) = trace r ++ ExtractRun path :: tail.
Proof.
  intros Hc Hne Hkey. unfold search, take_screenshot. rewrite Hc.
  destruct path as [|c0 path]; [contradiction|]. rewrite Hkey.
  destruct (extract w (String c0 path)) as [msg|[[|t ts]|] errs].
  - eexists. simpl. rewrite <- app_assoc. reflexivity.
  - eexists. simpl. rewrite <- app_assoc. reflexivity.
  - destruct (display_travel_data w (t :: ts) (emit (ExtractRun (String c0 path)) r))
      as [res r3] eqn:Hd.
    apply budget_display_frame in Hd.
    destruct Hd as (_ & _ & _ & _ & evs & Ht3 & _). simpl in Ht3.
    destruct res; simpl; rewrite Ht3, <- ?app_assoc; eexists; reflexivity.
  - eexists. simpl. rewrite <- app_assoc. reflexivity.
Qed.

(** The session a run that reaches [search] leaves behind. *)
Lemma budget_search_session w s e d r :
  from_location (session (search w s e d r)) = from_location (session r) /\
  end_location (session (search w s e d r)) = end_location (session r) /\
  search_button_clicked (session (search w s e d r))
  = search_button_clicked (session r).
Proof.
  destruct (budget_search_events w s e d r) as (Hf & He & Hb & _). auto.
Qed.
Lemma banner_errors w :
  Forall (fun ev => exists m, ev = StError m) (banner w).
Proof. unfold banner. destruct (truthy _); repeat constructor. eauto. Qed.

Lemma banner_with_key w : truthy (openai_api_key w) = true -> banner w = [].
Proof. intros Hkey. unfold banner. rewrite Hkey. reflexivity. Qed.

(** The three ways a run goes after the banner: nothing more is shown,
    the starting location is asked for, or the search runs on the typed
    locations. *)
Lemma budget_app_ways w inp stored c :
  let s0 := initialize_session_state stored in
  let gate := search_clicked inp
              || (search_button_clicked s0
                  && (String.eqb (starting_location inp) (from_location s0)
                      && bool_decide (destination inp = end_location s0))) in
  (gate = false /\ trace (app w inp stored c) = banner w) \/
  (gate = true /\ starting_location inp = "" /\
   trace (app w inp stored c)
   = banner w ++ [StError "Please enter starting location."]) \/
  (gate = true /\ starting_location inp <> "" /\
   exists r5,
     app w inp stored c
     = search w (starting_location inp) (destination inp) (trip_duration inp) r5 /\
     trace r5 = banner w /\ screenshot_cache r5 = c /\
     session r5 = {| from_location := starting_location inp;
                     end_location := destination inp;
                     page_number := page_number s0;
                     search_button_clicked := true |}).
Proof.
  cbv zeta. unfold app. rewrite budget_main_cases. cbv zeta.
  cbn [session screenshot_cache trace].
  destruct (_ || _).
  - right. destruct (String.eqb_spec (starting_location inp) "") as [Heq|Hne].
    + left. auto.
    + right. split; [reflexivity|]. split; [exact Hne|].
      eexists. split; [reflexivity|]. auto.
  - left. auto.
Qed.
End BudgetRerunFacts.

(** X20: no run of the budget-travel-agent looks a location up or tells
    the user that a location was renamed, whatever the inputs, the stored
    session and the memo table are: the validation block of [main] is
    dead code. *)
Theorem budget_app_never_validates
  (w : BudgetTravelAgent.world) (inp : BudgetTravelAgent.inputs)
  (stored : option BudgetTravelAgent.session_state)
  (c : gmap BudgetTravelAgent.screenshot_key (option string)) :
  Forall (fun ev => (forall q, ev <> App.Geocode q) /\ (forall m, ev <> App.StInfo m))
         (BudgetTravelAgent.trace (BudgetTravelAgent.app w inp stored c)).
Proof.
  assert (Hbanner : Forall (fun ev => (forall q, ev <> App.Geocode q) /\
                                      (forall m, ev <> App.StInfo m))
                           (BudgetTravelAgent.banner w)).
  { eapply Forall_impl; [apply BudgetRerunFacts.banner_errors|].
    simpl. intros ev [m ->]. split; discriminate. }
  destruct (BudgetRerunFacts.budget_app_ways w inp stored c)
    as [[_ Ht]|[(_ & _ & Ht)|(_ & _ & r5 & Happ & Ht5 & _)]].
  - rewrite Ht. exact Hbanner.
  - rewrite Ht. apply Forall_app. split; [exact Hbanner|].
    repeat constructor; discriminate.
  - rewrite Happ.
    destruct (BudgetRunFacts.budget_search_events w
                (BudgetTravelAgent.starting_location inp)
                (BudgetTravelAgent.destination inp)
                (BudgetTravelAgent.trip_duration inp) r5)
      as (_ & _ & _ & evs & Ht & Hevs).
    rewrite Ht, Ht5. apply Forall_app. split; [exact Hbanner|].
    eapply Forall_impl; [exact Hevs|]. simpl.
    intros ev H. split; intros x ->.
    + destruct H as [[H _]|[[H _]|[[m H]|[[m H]|[(p & H & _)|[[H _]|[H _]]]]]]];
        discriminate H.
    + destruct H as [[H _]|[[H _]|[[m H]|[[m H]|[(p & H & _)|[[H _]|[H _]]]]]]];
        discriminate H.
Qed.

(** X21: a click on the search button stays in force.  After a run with
    the button clicked and a starting location typed, the session has
    [search_button_clicked] set and holds the two locations typed; every
    later run with the same two locations searches again, clicked or not
    (Streamlit reruns the script on every interaction); a later run
    without a click and with one of the locations edited makes no request
    and shows nothing but the banner about a missing OpenAI key, when the
    key is missing. *)
Theorem budget_search_is_sticky
  (w : BudgetTravelAgent.world) (inp : BudgetTravelAgent.inputs)
  (stored : option BudgetTravelAgent.session_state)
  (c : gmap BudgetTravelAgent.screenshot_key (option string)) :
  BudgetTravelAgent.search_clicked inp = true ->
  BudgetTravelAgent.starting_location inp <> "" ->
  let r1 := BudgetTravelAgent.app w inp stored c in
  BudgetTravelAgent.search_button_clicked (BudgetTravelAgent.session r1) = true /\
  BudgetTravelAgent.from_location (BudgetTravelAgent.session r1)
  = BudgetTravelAgent.starting_location inp /\
  BudgetTravelAgent.end_location (BudgetTravelAgent.session r1)
  = BudgetTravelAgent.destination inp /\
  (forall w' inp' c',
     BudgetTravelAgent.starting_location inp' = BudgetTravelAgent.starting_location inp ->
     BudgetTravelAgent.destination inp' = BudgetTravelAgent.destination inp ->
     exists r5,
       BudgetTravelAgent.app w' inp' (Some (BudgetTravelAgent.session r1)) c'
       = BudgetTravelAgent.search w' (BudgetTravelAgent.starting_location inp)
           (BudgetTravelAgent.destination inp)
           (BudgetTravelAgent.trip_duration inp') r5 /\
       BudgetTravelAgent.trace r5 = BudgetTravelAgent.banner w' /\
       BudgetTravelAgent.screenshot_cache r5 = c' /\
       BudgetTravelAgent.session r5 = BudgetTravelAgent.session r1) /\
  (forall w' inp' c',
     BudgetTravelAgent.search_clicked inp' = false ->
     BudgetTravelAgent.starting_location inp' <> BudgetTravelAgent.starting_location inp \/
     BudgetTravelAgent.destination inp' <> BudgetTravelAgent.destination inp ->
     BudgetTravelAgent.trace
       (BudgetTravelAgent.app w' inp' (Some (BudgetTravelAgent.session r1)) c')
     = BudgetTravelAgent.banner w').
Proof.
  intros Hclick Hstart r1.
  assert (Hsession :
    BudgetTravelAgent.search_button_clicked (BudgetTravelAgent.session r1) = true /\
    BudgetTravelAgent.from_location (BudgetTravelAgent.session r1)
    = BudgetTravelAgent.starting_location inp /\
    BudgetTravelAgent.end_location (BudgetTravelAgent.session r1)
    = BudgetTravelAgent.destination inp).
  { subst r1.
    destruct (BudgetRerunFacts.budget_app_ways w inp stored c)
      as [[Hgate _]|[(_ & Hempty & _)|(_ & _ & r5 & -> & _ & _ & Hs5)]].
    - rewrite Hclick in Hgate. discriminate.
    - contradiction.
    - destruct (BudgetRerunFacts.budget_search_session w
                  (BudgetTravelAgent.starting_location inp)
                  (BudgetTravelAgent.destination inp)
                  (BudgetTravelAgent.trip_duration inp) r5) as (-> & -> & ->).
      rewrite Hs5. auto. }
  destruct Hsession as (Hb & Hf & He).
  split; [exact Hb|]. split; [exact Hf|]. split; [exact He|]. split.
  - intros w' inp' c' Hstart' Hdest'.
    destruct (BudgetRerunFacts.budget_app_ways w' inp'
                (Some (BudgetTravelAgent.session r1)) c')
      as [[Hgate _]|[(_ & Hempty & _)|(_ & _ & r5 & Happ & Ht5 & Hc5 & Hs5)]].
    + exfalso. cbn [BudgetTravelAgent.initialize_session_state] in Hgate.
      rewrite Hb, Hf, He, Hstart', Hdest', String.eqb_refl in Hgate.
      rewrite bool_decide_true in Hgate by reflexivity.
      rewrite orb_true_r in Hgate. discriminate.
    + congruence.
    + exists r5. rewrite Happ, Hstart', Hdest'.
      split; [reflexivity|]. split; [exact Ht5|]. split; [exact Hc5|].
      rewrite Hs5, Hstart', Hdest'.
      cbn [BudgetTravelAgent.initialize_session_state].
      destruct (BudgetTravelAgent.session r1). simpl in *. congruence.
  - intros w' inp' c' Hclick' Hedit.
    destruct (BudgetRerunFacts.budget_app_ways w' inp'
                (Some (BudgetTravelAgent.session r1)) c')
      as [[_ Ht]|[(Hgate & _)|(Hgate & _)]]; [exact Ht| |];
      exfalso; cbn [BudgetTravelAgent.initialize_session_state] in Hgate;
      rewrite Hclick', Hb, Hf, He in Hgate; simpl in Hgate;
      apply andb_true_iff in Hgate as [Heq Hdec];
      apply String.eqb_eq in Heq; apply bool_decide_eq_true in Hdec;
      destruct Hedit; contradiction.
Qed.

Lemma budget_search_is_sticky_witness :
  let w := Scenario.budget_world Scenario.seven_trips Scenario.strict_input in
  let inp := {| BudgetTravelAgent.starting_location := "Madrid";
                BudgetTravelAgent.destination := None;
                BudgetTravelAgent.trip_duration := "Weekend";
                BudgetTravelAgent.search_clicked := true |} in
  let again := {| BudgetTravelAgent.starting_location := "Madrid";
                  BudgetTravelAgent.destination := None;
                  BudgetTravelAgent.trip_duration := "1 Week";
                  BudgetTravelAgent.search_clicked := false |} in
  BudgetTravelAgent.search_clicked inp = true /\
  BudgetTravelAgent.starting_location inp <> "" /\
  exists r5,
    BudgetTravelAgent.app w again
      (Some (BudgetTravelAgent.session (BudgetTravelAgent.app w inp None ∅))) ∅
    = BudgetTravelAgent.search w "Madrid" None "1 Week" r5 /\
    BudgetTravelAgent.trace r5 = [].
Proof.
  intros w inp again.
  assert (Hclick : BudgetTravelAgent.search_clicked inp = true) by reflexivity.
  assert (Hstart : BudgetTravelAgent.starting_location inp <> "") by discriminate.
  split; [exact Hclick|]. split; [exact Hstart|].
  destruct (budget_search_is_sticky w inp None ∅ Hclick Hstart)
    as (_ & _ & _ & Hagain & _).
  destruct (Hagain w again ∅ eq_refl eq_refl) as (r5 & Happ & Ht & _).
  exists r5. split; [exact Happ|exact Ht].
Defined.

(** X22: without an OpenAI key the budget-travel-agent never asks for an
    extraction and never shows a page of destinations, whatever else
    happens in the run. *)
Theorem budget_without_key_never_extracts
  (w : BudgetTravelAgent.world) (inp : BudgetTravelAgent.inputs)
  (stored : option BudgetTravelAgent.session_state)
  (c : gmap BudgetTravelAgent.screenshot_key (option string)) :
  App.truthy (BudgetTravelAgent.openai_api_key w) = false ->
  Forall (fun ev => (forall path, ev <> App.ExtractRun path) /\
                    App.page_event ev = false /\ ev <> App.Rerun)
         (BudgetTravelAgent.trace (BudgetTravelAgent.app w inp stored c)).
Proof.
  intros Hkey.
  assert (Hbanner : Forall (fun ev => (forall path, ev <> App.ExtractRun path) /\
                                      App.page_event ev = false /\ ev <> App.Rerun)
                           (BudgetTravelAgent.banner w)).
  { eapply Forall_impl; [apply BudgetRerunFacts.banner_errors|].
    simpl. intros ev [m ->].
    split; [intros path; discriminate|split; [reflexivity|discriminate]]. }
  destruct (BudgetRerunFacts.budget_app_ways w inp stored c)
    as [[_ Ht]|[(_ & _ & Ht)|(_ & _ & r5 & Happ & Ht5 & _)]].
  - rewrite Ht. exact Hbanner.
  - rewrite Ht. apply Forall_app. split; [exact Hbanner|].
    repeat constructor; discriminate.
  - rewrite Happ.
    destruct (BudgetRunFacts.budget_search_events w
                (BudgetTravelAgent.starting_location inp)
                (BudgetTravelAgent.destination inp)
                (BudgetTravelAgent.trip_duration inp) r5)
      as (_ & _ & _ & evs & Ht & Hevs).
    rewrite Ht, Ht5. apply Forall_app. split; [exact Hbanner|].
    eapply Forall_impl; [exact Hevs|]. simpl.
    intros ev H. rewrite Hkey in H.
    destruct H as [[-> _]|[[-> _]|[[m ->]|[[m ->]|[(p & _ & H & _)|[[_ H]|[_ H]]]]]]];
      try discriminate H;
      (split; [intros path; discriminate|split; [reflexivity|discriminate]]).
Qed.

Lemma budget_without_key_never_extracts_witness :
  let w := {| BudgetTravelAgent.geocode := Scenario.geocoder;
              BudgetTravelAgent.create_session := true;
              BudgetTravelAgent.automate := fun _ _ _ => Some "/tmp/shot.png";
              BudgetTravelAgent.openai_api_key := None;
              BudgetTravelAgent.extract :=
                fun _ => ChatgptParser.ExtractReturned (Some Scenario.seven_trips) [];
              BudgetTravelAgent.number_input := Scenario.strict_input |} in
  let inp := {| BudgetTravelAgent.starting_location := "Madrid";
                BudgetTravelAgent.destination := None;
                BudgetTravelAgent.trip_duration := "Weekend";
                BudgetTravelAgent.search_clicked := true |} in
  App.truthy (BudgetTravelAgent.openai_api_key w) = false /\
  BudgetTravelAgent.trace (BudgetTravelAgent.app w inp None ∅)
  = [App.StError "OpenAI API key not found. Please set it in a .env file.";
     App.SessionCreate; App.CaptureRun "Madrid";
     App.StWarning "OpenAI API key not provided. Please add it to the .env file to enable analysis."] /\
  Forall (fun ev => (forall path, ev <> App.ExtractRun path) /\
                    App.page_event ev = false /\ ev <> App.Rerun)
         (BudgetTravelAgent.trace (BudgetTravelAgent.app w inp None ∅)).
Proof.
  intros w inp. split; [reflexivity|]. split; [reflexivity|].
  apply (budget_without_key_never_extracts w inp None ∅). reflexivity.
Defined.

(** X23: the budget-travel-agent memoises the capture but not the
    extraction.  After a run that asked for the extraction of a
    screenshot, a rerun with the same locations and trip duration, on the
    session and the memo table that run left, creates no session and
    captures nothing, and asks for the extraction of the same screenshot
    again. *)
Theorem budget_rerun_repeats_extraction
  (w : BudgetTravelAgent.world) (inp inp' : BudgetTravelAgent.inputs)
  (stored : option BudgetTravelAgent.session_state)
  (c : gmap BudgetTravelAgent.screenshot_key (option string)) (path : string) :
  let r1 := BudgetTravelAgent.app w inp stored c in
  let r2 := BudgetTravelAgent.app w inp' (Some (BudgetTravelAgent.session r1))
              (BudgetTravelAgent.screenshot_cache r1) in
  App.ExtractRun path ∈ BudgetTravelAgent.trace r1 ->
  BudgetTravelAgent.starting_location inp' = BudgetTravelAgent.starting_location inp ->
  BudgetTravelAgent.destination inp' = BudgetTravelAgent.destination inp ->
  BudgetTravelAgent.trip_duration inp' = BudgetTravelAgent.trip_duration inp ->
  Forall (fun ev => ev <> App.SessionCreate /\ forall l, ev <> App.CaptureRun l)
         (BudgetTravelAgent.trace r2) /\
  exists tail, BudgetTravelAgent.trace r2 = App.ExtractRun path :: tail.
Proof.
  intros r1 r2 Hin Hstart' Hdest' Hdur'.
  assert (Hfirst :
    BudgetTravelAgent.starting_location inp <> "" /\
    BudgetTravelAgent.search_button_clicked (BudgetTravelAgent.session r1) = true /\
    BudgetTravelAgent.from_location (BudgetTravelAgent.session r1)
    = BudgetTravelAgent.starting_location inp /\
    BudgetTravelAgent.end_location (BudgetTravelAgent.session r1)
    = BudgetTravelAgent.destination inp /\
    App.truthy (BudgetTravelAgent.openai_api_key w) = true /\ path <> "" /\
    BudgetTravelAgent.screenshot_cache r1
      !! (BudgetTravelAgent.starting_location inp, BudgetTravelAgent.destination inp,
          BudgetTravelAgent.trip_duration inp) = Some (Some path)).
  { subst r1 r2.
    destruct (BudgetRerunFacts.budget_app_ways w inp stored c)
      as [[_ Ht]|[(_ & _ & Ht)|(_ & Hne & r5 & Happ & Ht5 & _ & Hs5)]].
    - rewrite Ht in Hin. exfalso.
      pose proof (BudgetRerunFacts.banner_errors w) as Hb.
      rewrite Forall_forall in Hb. destruct (Hb _ Hin) as [m Hm]. discriminate.
    - rewrite Ht in Hin. exfalso. apply elem_of_app in Hin as [Hin|Hin].
      + pose proof (BudgetRerunFacts.banner_errors w) as Hb.
        rewrite Forall_forall in Hb. destruct (Hb _ Hin) as [m Hm]. discriminate.
      + apply list_elem_of_singleton in Hin. discriminate.
    - rewrite Happ in Hin |- *.
      destruct (BudgetRunFacts.budget_search_events w
                  (BudgetTravelAgent.starting_location inp)
                  (BudgetTravelAgent.destination inp)
                  (BudgetTravelAgent.trip_duration inp) r5)
        as (Hf & He & Hb & evs & Ht & Hevs).
      cbv zeta in Hf, He, Hb, Ht, Hevs.
      rewrite Hf, He, Hb, Hs5. simpl.
      split; [exact Hne|]. split; [reflexivity|]. split; [reflexivity|].
      split; [reflexivity|].
      rewrite Ht, Ht5 in Hin. apply elem_of_app in Hin as [Hin|Hin].
      { exfalso. pose proof (BudgetRerunFacts.banner_errors w) as Hbn.
        rewrite Forall_forall in Hbn. destruct (Hbn _ Hin) as [m Hm]. discriminate. }
      rewrite Forall_forall in Hevs. specialize (Hevs _ Hin). simpl in Hevs.
      destruct Hevs as [[H _]|[[H _]|[[m H]|[[m H]|[(p & H & Hk & Hp & Hc)|[[H _]|[H _]]]]]]];
        try discriminate H.
      injection H as <-. auto. }
  destruct Hfirst as (Hne & Hb & Hf & He & Hkey & Hpath & Hcache).
  subst r2.
  destruct (BudgetRerunFacts.budget_app_ways w inp'
              (Some (BudgetTravelAgent.session r1))
              (BudgetTravelAgent.screenshot_cache r1))
    as [[Hgate _]|[(_ & Hempty & _)|(_ & _ & r5 & Happ & Ht5 & Hc5 & _)]].
  - exfalso. cbn [BudgetTravelAgent.initialize_session_state] in Hgate.
    rewrite Hb, Hf, He, Hstart', Hdest', String.eqb_refl in Hgate.
    rewrite bool_decide_true in Hgate by reflexivity.
    rewrite orb_true_r in Hgate. discriminate.
  - congruence.
  - rewrite Happ, Hstart', Hdest', Hdur'.
    rewrite <- Hc5 in Hcache. split.
    + destruct (BudgetRunFacts.budget_search_events w
                  (BudgetTravelAgent.starting_location inp)
                  (BudgetTravelAgent.destination inp)
                  (BudgetTravelAgent.trip_duration inp) r5)
        as (_ & _ & _ & evs & Ht & Hevs).
      rewrite Ht, Ht5, (BudgetRerunFacts.banner_with_key w Hkey). simpl.
      eapply Forall_impl; [exact Hevs|]. simpl.
      intros ev H. rewrite Hcache in H.
      destruct H as [[_ H]|[[_ H]|[[m ->]|[[m ->]|[(p & -> & _)|[[H _]|[-> _]]]]]]];
        try discriminate H;
        try (split; [discriminate|intros l; discriminate]).
      destruct ev; try discriminate H; split; try discriminate; intros l; discriminate.
    + destruct (BudgetRerunFacts.budget_search_hit w _ _ _ r5 path Hcache Hpath Hkey)
        as [tail Ht].
      exists tail. rewrite Ht, Ht5, (BudgetRerunFacts.banner_with_key w Hkey).
      reflexivity.
Qed.

Lemma budget_rerun_repeats_extraction_witness :
  let w := Scenario.budget_world Scenario.seven_trips Scenario.strict_input in
  let inp := {| BudgetTravelAgent.starting_location := "Madrid";
                BudgetTravelAgent.destination := None;
                BudgetTravelAgent.trip_duration := "Weekend";
                BudgetTravelAgent.search_clicked := true |} in
  let again := {| BudgetTravelAgent.starting_location := "Madrid";
                  BudgetTravelAgent.destination := None;
                  BudgetTravelAgent.trip_duration := "Weekend";
                  BudgetTravelAgent.search_clicked := false |} in
  let r1 := BudgetTravelAgent.app w inp None ∅ in
  App.ExtractRun "/tmp/shot.png" ∈ BudgetTravelAgent.trace r1 /\
  exists tail,
    BudgetTravelAgent.trace
      (BudgetTravelAgent.app w again (Some (BudgetTravelAgent.session r1))
         (BudgetTravelAgent.screenshot_cache r1))
    = App.ExtractRun "/tmp/shot.png" :: tail.
Proof.
  intros w inp again r1.
  assert (Hin : App.ExtractRun "/tmp/shot.png" ∈ BudgetTravelAgent.trace r1).
  { apply list_elem_of_further, list_elem_of_further, list_elem_of_here. }
  split; [exact Hin|].
  exact (proj2 (budget_rerun_repeats_extraction w inp again None ∅ "/tmp/shot.png"
                  Hin eq_refl eq_refl eq_refl)).
Defined.

(** ** The runs of the daytrip-planner *)

(** X24: no run of the daytrip-planner gets past the capture.  On memo
    tables that hold only what the program has put there (an empty table
    to begin with), every run ends normally, asks for no extraction and
    shows no page widget and no page; whenever the city is valid and a
    session with an endpoint is at hand, the run ends with the error of
    the capture, ['function' object has no attribute 'chromium'], and
    [Could not get screenshot].  The memo tables are again as the program
    makes them, so this holds for every later run as well. *)
Theorem daytrip_run_ends_at_capture
  (w : DaytripPlanner.world) (inp : DaytripPlanner.inputs)
  (stored : option DaytripPlanner.session_state) (c : DaytripPlanner.caches) :
  DaytripPlanner.capture_entries_made c ->
  let out := DaytripPlanner.app w inp stored c in
  fst out = DaytripPlanner.Done /\
  DaytripPlanner.capture_entries_made (DaytripPlanner.cache (snd out)) /\
  DaytripPlanner.extract_cache (DaytripPlanner.cache (snd out))
  = DaytripPlanner.extract_cache c /\
  Forall (fun ev => (forall path, ev <> App.ExtractRun path) /\
                    (forall l, ev <> App.CaptureRun l) /\
                    App.page_event ev = false)
         (DaytripPlanner.trace (snd out)) /\
  ((DaytripPlanner.find_clicked inp
    || negb (String.eqb (DaytripPlanner.typed_location inp) "")) = true ->
   LocationValidator.validate_city (DaytripPlanner.geocode w)
     (DaytripPlanner.typed_location inp) = true ->
   forall id c0 ws,
     DaytripPlanner.browser_ws_url_cache c = Some (id, Some (String c0 ws)) \/
     (DaytripPlanner.browser_ws_url_cache c = None /\
      DaytripPlanner.create_session w
      = DaytripPlanner.SessionCreated id (Some (String c0 ws))) ->
     exists pre,
       DaytripPlanner.trace (snd out)
       = pre ++ [App.StError
                   "An error occurred: 'function' object has no attribute 'chromium'";
                 App.StError "Could not get screenshot"]).
Proof.
  intros Hmade out. subst out. unfold DaytripPlanner.app.
  destruct (CursorFacts.daytrip_main_run w inp
              {| DaytripPlanner.session := DaytripPlanner.initialize_session_state stored;
                 DaytripPlanner.cache := c; DaytripPlanner.trace := [] |} Hmade)
    as (Hdone & Hmade' & Hext & (evs & Ht & Hevs & Hend) & _).
  split; [exact Hdone|]. split; [exact Hmade'|]. split; [exact Hext|].
  simpl in Ht. rewrite Ht. split.
  - eapply Forall_impl; [exact Hevs|]. simpl.
    intros ev [->|[->|[m ->]]];
      (split; [intros path; discriminate|split; [intros l; discriminate|reflexivity]]).
  - intros Hgate Hv id c0 ws Hws.
    destruct (Hend Hgate Hv id c0 ws Hws) as [pre ->]. exists pre. reflexivity.
Qed.

Lemma daytrip_run_ends_at_capture_witness :
  let w := Scenario.daytrip_world
             (ChatgptParser.ApiContent
                (Some (map ChatgptParser.to_json Scenario.seven_trips)))
             Scenario.strict_input in
  let inp := {| DaytripPlanner.typed_location := "Madrid";
                DaytripPlanner.find_clicked := true |} in
  let out := DaytripPlanner.app w inp None Scenario.daytrip_caches in
  DaytripPlanner.capture_entries_made Scenario.daytrip_caches /\
  DaytripPlanner.trace (snd out)
  = [App.Geocode "Madrid"; App.SessionCreate;
     App.StError "An error occurred: 'function' object has no attribute 'chromium'";
     App.StError "Could not get screenshot"] /\
  Forall (fun ev => (forall path, ev <> App.ExtractRun path) /\
                    (forall l, ev <> App.CaptureRun l) /\
                    App.page_event ev = false)
         (DaytripPlanner.trace (snd out)).
Proof.
  intros w inp out.
  assert (Hmade : DaytripPlanner.capture_entries_made Scenario.daytrip_caches).
  { intros ws_url loc entry H. discriminate H. }
  split; [exact Hmade|]. split; [reflexivity|].
  exact (proj1 (proj2 (proj2 (proj2
           (daytrip_run_ends_at_capture w inp None Scenario.daytrip_caches Hmade))))).
Defined.
